(** * The Codex proxy: request transformation, credential lifecycle, dispatch

    A shallow embedding of the TypeScript sources of the proxy
    (the request transformer, the two variants of the proxy server and the
    normalizer of tool names) together with the properties the specification
    states about them, and further properties of the code.

    Conventions of the embedding.
    - A JavaScript string is a [string]: a sequence of code units, read as
      ASCII.  [toLowerCase] folds [A]-[Z]; [trim] strips the ASCII white space.
    - A value produced by [JSON.parse] is a [jsval]; numbers are integers.
      An object is an association list in insertion order.
    - A call that may throw returns an [Outcome].
    - Builtins and collaborators that are not part of the sources
      ([JSON.parse], [fetch], [decodeJWT], ...) are Section variables.
    - A request is followed through awaits that settle.  A [Response] is a
      value; the one body stream a reader can hold when a handler comes to
      forward it, that of an upstream response whose conversion failed, is
      tracked beside the response.
    - Diagnostic output ([console.*], [logDebug], [logWarn]) is not modelled. *)

From Stdlib Require Import ZArith List Bool Ascii String DecimalString Lia.
Import ListNotations.
Local Open Scope list_scope.
Local Open Scope string_scope.

(** ** Exceptions *)

Inductive Outcome (A : Type) : Type :=
| Ok (a : A)
| Throw (err : string).
Arguments Ok {A} a.
Arguments Throw {A} err.

Definition obind {A B} (m : Outcome A) (k : A -> Outcome B) : Outcome B :=
  match m with
  | Ok a => k a
  | Throw e => Throw e
  end.

Declare Scope outcome_scope.
Delimit Scope outcome_scope with outcome.
Notation "'let?' x ':=' m 'in' k" := (obind m (fun x => k))
  (at level 10, x name, m at level 100, k at level 200) : outcome_scope.
Local Open Scope outcome_scope.

Fixpoint omapM {A B} (f : A -> Outcome B) (l : list A) : Outcome (list B) :=
  match l with
  | [] => Ok []
  | a :: l' =>
      let? b := f a in
      let? bs := omapM f l' in
      Ok (b :: bs)
  end.

(** [Array.prototype.filter] with a predicate that may throw. *)
Fixpoint ofilterM {A} (p : A -> Outcome bool) (l : list A) : Outcome (list A) :=
  match l with
  | [] => Ok []
  | a :: l' =>
      let? keep := p a in
      let? rest := ofilterM p l' in
      Ok (if keep then a :: rest else rest)
  end.

(** ** JavaScript strings *)

Module Js.

Definition isUpper (c : ascii) : bool :=
  let n := nat_of_ascii c in ((65 <=? n) && (n <=? 90))%nat.

Definition toLowerChar (c : ascii) : ascii :=
  if isUpper c then ascii_of_nat (nat_of_ascii c + 32) else c.

(** [s.toLowerCase()] *)
Fixpoint toLowerCase (s : string) : string :=
  match s with
  | EmptyString => EmptyString
  | String c s' => String (toLowerChar c) (toLowerCase s')
  end.

(** [s.startsWith(p)] *)
Fixpoint startsWith (s p : string) {struct p} : bool :=
  match p with
  | EmptyString => true
  | String a p' =>
      match s with
      | EmptyString => false
      | String b s' => Ascii.eqb a b && startsWith s' p'
      end
  end.

(** [s.includes(p)] *)
Fixpoint includes (s p : string) : bool :=
  startsWith s p ||
  match s with
  | EmptyString => false
  | String _ s' => includes s' p
  end.

(** [s.slice(n)] for [0 <= n] *)
Fixpoint slice (n : nat) (s : string) : string :=
  match n, s with
  | O, _ => s
  | S n', String _ s' => slice n' s'
  | S _, EmptyString => EmptyString
  end.

(** [s.substring(0, n)] *)
Fixpoint substring0 (n : nat) (s : string) : string :=
  match n, s with
  | S n', String c s' => String c (substring0 n' s')
  | _, _ => EmptyString
  end.

Definition isWhiteSpace (c : ascii) : bool :=
  let n := nat_of_ascii c in
  (((9 <=? n) && (n <=? 13)) || (n =? 32))%nat.

Fixpoint trimStart (s : string) : string :=
  match s with
  | EmptyString => EmptyString
  | String c s' => if isWhiteSpace c then trimStart s' else s
  end.

(** Drops the trailing white space: a character is kept when it is not
    white space or when something is kept after it. *)
Fixpoint trimEnd (s : string) : string :=
  match s with
  | EmptyString => EmptyString
  | String c s' =>
      match trimEnd s' with
      | EmptyString => if isWhiteSpace c then EmptyString else String c EmptyString
      | t => String c t
      end
  end.

(** [s.trim()] *)
Definition trim (s : string) : string := trimEnd (trimStart s).

(** [l.join(sep)] on strings *)
Fixpoint join (sep : string) (l : list string) : string :=
  match l with
  | [] => ""
  | [x] => x
  | x :: l' => x ++ sep ++ join sep l'
  end.

(** Two strings that differ at most in the case of their letters. *)
Inductive same_ci : string -> string -> Prop :=
| same_ci_nil : same_ci "" ""
| same_ci_cons a b s t :
    toLowerChar a = toLowerChar b -> same_ci s t ->
    same_ci (String a s) (String b t).

(** [s] contains [p] as a substring, letter case ignored. *)
Definition contains_ci (s p : string) : Prop :=
  exists pre mid post, s = pre ++ mid ++ post /\ same_ci mid p.

End Js.

(** ** JavaScript values *)

#[local] Set Warnings "-register-all".

Inductive jsval : Type :=
| JUndefined
| JNull
| JBool (b : bool)
| JNum (n : Z)
| JStr (s : string)
| JArr (items : list jsval)
| JObj (fields : list (string * jsval)).

(** An object: its own enumerable properties in insertion order. *)
Definition object : Type := list (string * jsval).

Module Obj.

(** [o[k]], [undefined] when the property is absent. *)
Fixpoint get (o : object) (k : string) : jsval :=
  match o with
  | [] => JUndefined
  | (k', v) :: o' => if String.eqb k' k then v else get o' k
  end.

(** [k in o] for own properties. *)
Fixpoint has (o : object) (k : string) : bool :=
  match o with
  | [] => false
  | (k', _) :: o' => String.eqb k' k || has o' k
  end.

(** [o[k] = v]: an existing property keeps its place, a new one goes last. *)
Fixpoint set (o : object) (k : string) (v : jsval) : object :=
  match o with
  | [] => [(k, v)]
  | (k', v') :: o' =>
      if String.eqb k' k then (k, v) :: o' else (k', v') :: set o' k v
  end.

(** [delete o[k]] *)
Fixpoint delete (o : object) (k : string) : object :=
  match o with
  | [] => []
  | (k', v) :: o' =>
      if String.eqb k' k then delete o' k else (k', v) :: delete o' k
  end.

(** [{...a, ...b}] written onto [a]. *)
Definition assign (a b : object) : object :=
  fold_left (fun acc kv => set acc (fst kv) (snd kv)) b a.

End Obj.

(** Truthiness ([!!v]). *)
Definition truthy (v : jsval) : bool :=
  match v with
  | JUndefined | JNull => false
  | JBool b => b
  | JNum n => negb (n =? 0)%Z
  | JStr s => negb (String.eqb s "")
  | JArr _ | JObj _ => true
  end.

(** [v === "lit"] *)
Definition isStr (v : jsval) (lit : string) : bool :=
  match v with
  | JStr s => String.eqb s lit
  | _ => false
  end.

(** [v.k]: reading a property of [null] or [undefined] throws; primitives
    and arrays have none of the properties read here. *)
Definition prop (v : jsval) (k : string) : Outcome jsval :=
  match v with
  | JUndefined | JNull => Throw "TypeError"
  | JObj o => Ok (Obj.get o k)
  | _ => Ok JUndefined
  end.

Definition indexKey (i : nat) : string :=
  NilZero.string_of_uint (Nat.to_uint i).

Fixpoint indexed {A} (f : A -> jsval) (i : nat) (l : list A) : object :=
  match l with
  | [] => []
  | a :: l' => (indexKey i, f a) :: indexed f (S i) l'
  end.

(** The own enumerable properties copied by a spread [{...v}]. *)
Definition ownEnumerable (v : jsval) : object :=
  match v with
  | JObj o => o
  | JArr l => indexed (fun x => x) 0 l
  | JStr s => indexed (fun c => JStr (String c "")) 0 (list_ascii_of_string s)
  | _ => []
  end.

(** ** The request transformer *)

Module Transform.

Inductive Effort := E_minimal | E_low | E_medium | E_high.
Inductive Summary := S_auto | S_concise | S_detailed.
Inductive Verbosity := V_low | V_medium | V_high.

Definition effortName (e : Effort) : string :=
  match e with
  | E_minimal => "minimal" | E_low => "low"
  | E_medium => "medium" | E_high => "high"
  end.

Definition summaryName (s : Summary) : string :=
  match s with
  | S_auto => "auto" | S_concise => "concise" | S_detailed => "detailed"
  end.

Definition verbosityName (v : Verbosity) : string :=
  match v with
  | V_low => "low" | V_medium => "medium" | V_high => "high"
  end.

Record ConfigOptions := {
  reasoningEffort : option Effort;
  reasoningSummary : option Summary;
  textVerbosity : option Verbosity;
  include : option (list string)
}.

Record ModelEntry := { options : option ConfigOptions }.

Record UserConfig := {
  global : ConfigOptions;
  models : list (string * ModelEntry)
}.

Record ReasoningConfig := { effort : Effort; summary : Summary }.

(** [{}] as [ConfigOptions] *)
Definition noOptions : ConfigOptions :=
  {| reasoningEffort := None; reasoningSummary := None;
     textVerbosity := None; include := None |}.

(** [{ global: {}, models: {} }] *)
Definition emptyUserConfig : UserConfig :=
  {| global := noOptions; models := [] |}.

Definition CODEX_MODEL : string := "gpt-5-codex".
Definition BASE_MODEL : string := "gpt-5".

Definition normalizeModel (model : option string) : string :=
  match model with
  | None => "gpt-5"
  | Some m =>
      if String.eqb m "" then "gpt-5"
      else if Js.includes (Js.toLowerCase m) "codex" then "gpt-5-codex"
      else if Js.includes (Js.toLowerCase m) "gpt-5"
              || Js.includes (Js.toLowerCase m) "gpt 5" then "gpt-5"
      else "gpt-5"
  end.

Definition orElse {A} (a b : option A) : option A :=
  match a with
  | Some x => Some x
  | None => b
  end.

Fixpoint lookupModelEntry (ms : list (string * ModelEntry)) (name : string)
  : option ModelEntry :=
  match ms with
  | [] => None
  | (k, e) :: ms' => if String.eqb k name then Some e else lookupModelEntry ms' name
  end.

(** [{ ...globalOptions, ...modelOptions }] *)
Definition getModelConfig (modelName : string) (userConfig : UserConfig)
  : ConfigOptions :=
  let globalOptions := global userConfig in
  let modelOptions :=
    match lookupModelEntry (models userConfig) modelName with
    | Some {| options := Some o |} => o
    | _ => noOptions
    end in
  {| reasoningEffort :=
       orElse (reasoningEffort modelOptions) (reasoningEffort globalOptions);
     reasoningSummary :=
       orElse (reasoningSummary modelOptions) (reasoningSummary globalOptions);
     textVerbosity :=
       orElse (textVerbosity modelOptions) (textVerbosity globalOptions);
     include := orElse (include modelOptions) (include globalOptions) |}.

(** [originalModel?.includes(lit)] read as a condition. *)
Definition maybeIncludes (originalModel : option string) (lit : string) : bool :=
  match originalModel with
  | Some m => Js.includes m lit
  | None => false
  end.

Definition getReasoningConfig (originalModel : option string)
    (userConfig : ConfigOptions) : ReasoningConfig :=
  let isLightweight :=
    maybeIncludes originalModel "nano" || maybeIncludes originalModel "mini" in
  let isCodex := maybeIncludes originalModel "codex" in
  let defaultEffort := if isLightweight then E_minimal else E_medium in
  let effort0 :=
    match reasoningEffort userConfig with
    | Some e => e
    | None => defaultEffort
    end in
  let effort1 :=
    match effort0 with
    | E_minimal => if isCodex then E_low else E_minimal
    | e => e
    end in
  {| effort := effort1;
     summary := match reasoningSummary userConfig with
                | Some s => s
                | None => S_auto
                end |}.

(** [const { id, ...itemWithoutId } = item] *)
Definition withoutId (item : jsval) : jsval :=
  JObj (Obj.delete (ownEnumerable item) "id").

Definition filterInput (input : jsval) : Outcome jsval :=
  match input with
  | JArr items =>
      let? kept :=
        ofilterM (fun item =>
                    let? t := prop item "type" in
                    Ok (negb (isStr t "item_reference"))) items in
      let? stripped :=
        omapM (fun item =>
                 let? id := prop item "id" in
                 Ok (if truthy id then withoutId item else item)) kept in
      Ok (JArr stripped)
  | other => Ok other
  end.

Definition LF : string := String (ascii_of_nat 10) "".

Section WithPrompts.

(** [Number.prototype.toString], and the prompt texts and the
    environment the module reads when it is loaded. *)
Variable numberToString : Z -> string.
Variable CODEX_TOOL_PROFILE : option string.
Variable CLAUDE_CODE_TOOL_GUIDE TOOL_REMAP_MESSAGE : string.
Variable CODEX_OPENCODE_BRIDGE : string.
(** What [getOpenCodeCodexPrompt()] resolves to, or that it rejects. *)
Variable getOpenCodeCodexPrompt : Outcome string.

Definition TOOL_PROFILE : string :=
  Js.toLowerCase
    match CODEX_TOOL_PROFILE with
    | Some p => if String.eqb p "" then "opencode" else p
    | None => "opencode"
    end.

Definition TOOL_GUIDE_MESSAGE : option string :=
  if String.eqb TOOL_PROFILE "claude" then Some CLAUDE_CODE_TOOL_GUIDE
  else if String.eqb TOOL_PROFILE "opencode" then Some TOOL_REMAP_MESSAGE
  else None.

(** The string an element contributes to [Array.prototype.join]:
    [ToString] of the element, the empty string for [null] and
    [undefined].  An object is converted through its [toString]; the one it
    inherits answers "[object Object]", but a [toString] of its own (in
    data that [JSON.parse] built it is never a function) leaves nothing
    to call, and the join throws a [TypeError]. *)
Fixpoint joinElem (v : jsval) : Outcome string :=
  match v with
  | JUndefined | JNull => Ok ""
  | JBool b => Ok (if b then "true" else "false")
  | JNum n => Ok (numberToString n)
  | JStr s => Ok s
  | JArr l =>
      let? parts :=
        (fix each (l : list jsval) : Outcome (list string) :=
           match l with
           | [] => Ok []
           | x :: l' =>
               let? s := joinElem x in
               let? rest := each l' in
               Ok (s :: rest)
           end) l in
      Ok (Js.join "," parts)
  | JObj o =>
      if Obj.has o "toString" then Throw "TypeError" else Ok "[object Object]"
  end.

Definition getContentText (item : jsval) : Outcome string :=
  let? content := prop item "content" in
  match content with
  | JStr s => Ok s
  | JArr cs =>
      let? parts :=
        ofilterM (fun c =>
                    let? t := prop c "type" in
                    if isStr t "input_text"
                    then (let? x := prop c "text" in Ok (truthy x))
                    else Ok false) cs in
      let? texts := omapM (fun c => prop c "text") parts in
      let? strings := omapM joinElem texts in
      Ok (Js.join LF strings)
  | _ => Ok ""
  end.

Definition isOpenCodeSystemPrompt (item : jsval) (cachedPrompt : option string)
  : Outcome bool :=
  let? role := prop item "role" in
  let isSystemRole := isStr role "developer" || isStr role "system" in
  if negb isSystemRole then Ok false
  else
    let? contentText := getContentText item in
    if String.eqb contentText "" then Ok false
    else
      let primary :=
        match cachedPrompt with
        | Some cp =>
            if String.eqb cp "" then false
            else String.eqb (Js.trim contentText) (Js.trim cp)
                 || String.eqb (Js.substring0 200 (Js.trim contentText))
                               (Js.substring0 200 (Js.trim cp))
        | None => false
        end in
      Ok (primary
          || Js.startsWith contentText "You are a coding agent running in").

Definition filterOpenCodeSystemPrompts (input : jsval) : Outcome jsval :=
  match input with
  | JArr items =>
      let cachedPrompt :=
        match getOpenCodeCodexPrompt with
        | Ok p => Some p
        | Throw _ => None
        end in
      let? kept :=
        ofilterM (fun item =>
                    let? role := prop item "role" in
                    if isStr role "user" then Ok true
                    else
                      let? sys := isOpenCodeSystemPrompt item cachedPrompt in
                      Ok (negb sys)) items in
      Ok (JArr kept)
  | other => Ok other
  end.

Definition developerMessage (text : string) : jsval :=
  JObj [("type", JStr "message");
        ("role", JStr "developer");
        ("content", JArr [JObj [("type", JStr "input_text");
                                ("text", JStr text)]])].

Definition addCodexBridgeMessage (input : jsval) (hasTools : bool) : jsval :=
  match input with
  | JArr items =>
      if hasTools then JArr (developerMessage CODEX_OPENCODE_BRIDGE :: items)
      else input
  | _ => input
  end.

Definition addToolGuideMessage (input : jsval) (hasTools : bool)
    (messageText : option string) : jsval :=
  match input, messageText with
  | JArr items, Some text =>
      if hasTools && negb (String.eqb text "")
      then JArr (developerMessage text :: items)
      else input
  | _, _ => input
  end.

(** [body.model] as [string | undefined]; a value of another type makes
    [normalizeModel] or [getReasoningConfig] throw. *)
Definition modelOf (body : object) : Outcome (option string) :=
  match Obj.get body "model" with
  | JStr m => Ok (Some m)
  | JUndefined | JNull => Ok None
  | _ => Throw "TypeError"
  end.

Definition transformRequestBody (body : object) (codexInstructions : string)
    (userConfig : UserConfig) (codexMode : bool) : Outcome object :=
  let? originalModel := modelOf body in
  let normalizedModel := normalizeModel originalModel in
  let lookupModel :=
    match originalModel with
    | Some m => if String.eqb m "" then normalizedModel else m
    | None => normalizedModel
    end in
  let modelConfig := getModelConfig lookupModel userConfig in
  let body := Obj.set body "model" (JStr normalizedModel) in
  let body := Obj.set body "store" (JBool false) in
  let body := Obj.set body "stream" (JBool true) in
  let body := Obj.set body "instructions" (JStr codexInstructions) in
  let? body :=
    match Obj.get body "input" with
    | JArr items =>
        (* originalIds: [body.input.filter(item => item.id)] *)
        let? _ := ofilterM (fun item =>
                              let? id := prop item "id" in
                              Ok (truthy id)) items in
        let? filtered := filterInput (JArr items) in
        let hasTools := truthy (Obj.get body "tools") in
        let? rewritten :=
          if codexMode
          then (let? kept := filterOpenCodeSystemPrompts filtered in
                Ok (addCodexBridgeMessage kept hasTools))
          else Ok (addToolGuideMessage filtered hasTools TOOL_GUIDE_MESSAGE) in
        Ok (Obj.set body "input" rewritten)
    | _ => Ok body
    end in
  let reasoningConfig := getReasoningConfig originalModel modelConfig in
  let body :=
    Obj.set body "reasoning"
      (JObj (Obj.assign (ownEnumerable (Obj.get body "reasoning"))
               [("effort", JStr (effortName (effort reasoningConfig)));
                ("summary", JStr (summaryName (summary reasoningConfig)))])) in
  let body :=
    Obj.set body "text"
      (JObj (Obj.assign (ownEnumerable (Obj.get body "text"))
               [("verbosity",
                 JStr (verbosityName
                         match textVerbosity modelConfig with
                         | Some v => v
                         | None => V_medium
                         end))])) in
  let body :=
    Obj.set body "include"
      (JArr (map JStr match include modelConfig with
                      | Some l => l
                      | None => ["reasoning.encrypted_content"]
                      end)) in
  let body := Obj.set body "max_output_tokens" JUndefined in
  let body := Obj.set body "max_completion_tokens" JUndefined in
  Ok body.

End WithPrompts.

End Transform.

(** ** Credentials and the refresh state machine *)

Module Auth.

(** [TokenResult] of the token endpoint. *)
Inductive TokenResult :=
| TokenSuccess (access refresh : string) (expires : Z)
| TokenFailed.

(** [StoredCredentials]: a [TokenSuccess] with the account identifier. *)
Record StoredCredentials := {
  access : string;
  refresh : string;
  expires : Z;
  accountId : string
}.

(** [AuthState.refreshPromise] holds a reference to a promise object; the
    promise itself, with the callers awaiting it, lives in the heap of
    the [World] below. *)
Record AuthState := {
  credentials : option StoredCredentials;
  refreshPromise : option nat
}.

Definition bufferMs : Z := 60000.

Definition hasValidAccess (creds : option StoredCredentials) (now : Z) : bool :=
  match creds with
  | None => false
  | Some c => (now + bufferMs <? expires c)%Z
  end.

(** [JWTPayload], as declared in the types of the repository. *)
Record JWTAuth := { chatgpt_account_id : option string }.
Record JWTPayload := { authClaim : option JWTAuth }.

(** The input and output the state machine performs. *)
Inductive Effect :=
| ReadTokenFile
| WriteTokenFile (c : StoredCredentials)
| RefreshCall (refreshToken : string)
| LoginFlow.

Definition isNetwork (e : Effect) : bool :=
  match e with
  | RefreshCall _ | LoginFlow => true
  | _ => false
  end.

Definition isFileIO (e : Effect) : bool :=
  match e with
  | ReadTokenFile | WriteTokenFile _ => true
  | _ => false
  end.

Definition isRefreshCall (e : Effect) : bool :=
  match e with
  | RefreshCall _ => true
  | _ => false
  end.

Definition refreshCalls (l : list Effect) : nat :=
  List.length (filter isRefreshCall l).

(** Where a call of [ensureFreshCredentials] stands. *)
Inductive Cont :=
| AwaitingRefresh (p : nat)      (* [await authState.refreshPromise] *)
| AwaitingBootstrapRefresh       (* [await refreshCredentials(cached)] *)
| AwaitingLogin                  (* [await interactiveLogin()] *)
| Returned (seen : option StoredCredentials) (* [authState.credentials] then *)
| Rejected (err : string).

(** The process between two turns of the event loop. *)
Record World := {
  authState : AuthState;
  tokenFile : option StoredCredentials; (* what [loadStoredCredentials] reads *)
  clock : Z;                            (* [Date.now()] *)
  effects : list Effect;                (* oldest first *)
  nextPromise : nat;
  reactions : nat -> option (list nat); (* pending promise |-> awaiting callers *)
  conts : nat -> option Cont            (* caller |-> continuation *)
}.

(** What the event loop delivers. *)
Inductive Event :=
| Call (i : nat)
| RefreshSettled (p : nat) (r : TokenResult)
| BootstrapRefreshSettled (i : nat) (r : TokenResult)
| LoginSettled (i : nat) (r : Outcome TokenResult)
| Tick (t : Z).

Definition update {A} (f : nat -> option A) (k : nat) (v : option A)
  : nat -> option A :=
  fun j => if Nat.eqb j k then v else f j.

Definition setCont (i : nat) (c : Cont) (w : World) : World :=
  {| authState := authState w; tokenFile := tokenFile w; clock := clock w;
     effects := effects w; nextPromise := nextPromise w;
     reactions := reactions w; conts := update (conts w) i (Some c) |}.

(** The call of caller [i] returns; its request handler resumes in the same
    turn and reads [authState.credentials]. *)
Definition returns (i : nat) (w : World) : World :=
  setCont i (Returned (credentials (authState w))) w.

Definition setCredentials (c : option StoredCredentials) (w : World) : World :=
  {| authState := {| credentials := c;
                     refreshPromise := refreshPromise (authState w) |};
     tokenFile := tokenFile w; clock := clock w;
     effects := effects w; nextPromise := nextPromise w;
     reactions := reactions w; conts := conts w |}.

Definition setRefreshPromise (p : option nat) (w : World) : World :=
  {| authState := {| credentials := credentials (authState w);
                     refreshPromise := p |};
     tokenFile := tokenFile w; clock := clock w;
     effects := effects w; nextPromise := nextPromise w;
     reactions := reactions w; conts := conts w |}.

Definition emit (e : Effect) (w : World) : World :=
  {| authState := authState w; tokenFile := tokenFile w; clock := clock w;
     effects := effects w ++ [e]; nextPromise := nextPromise w;
     reactions := reactions w; conts := conts w |}.

Definition setReactions (p : nat) (l : option (list nat)) (w : World) : World :=
  {| authState := authState w; tokenFile := tokenFile w; clock := clock w;
     effects := effects w; nextPromise := nextPromise w;
     reactions := update (reactions w) p l; conts := conts w |}.

Definition setClock (t : Z) (w : World) : World :=
  {| authState := authState w; tokenFile := tokenFile w; clock := t;
     effects := effects w; nextPromise := nextPromise w;
     reactions := reactions w; conts := conts w |}.

(** [persistCredentials]: the write is assumed to succeed. *)
Definition persistCredentials (c : StoredCredentials) (w : World) : World :=
  let w := emit (WriteTokenFile c) w in
  {| authState := authState w; tokenFile := Some c; clock := clock w;
     effects := effects w; nextPromise := nextPromise w;
     reactions := reactions w; conts := conts w |}.

(** A new pending promise; returns its reference. *)
Definition newPromise (w : World) : nat * World :=
  let p := nextPromise w in
  (p, {| authState := authState w; tokenFile := tokenFile w; clock := clock w;
         effects := effects w; nextPromise := S p;
         reactions := update (reactions w) p (Some []); conts := conts w |}).

Section WithJWT.

Variable decodeJWT : string -> option JWTPayload.

Definition extractAccountId (accessToken : string) : Outcome string :=
  match decodeJWT accessToken with
  | Some {| authClaim := Some {| chatgpt_account_id := Some a |} |} =>
      if String.eqb a ""
      then Throw "Failed to extract ChatGPT account id from token"
      else Ok a
  | _ => Throw "Failed to extract ChatGPT account id from token"
  end.

(** [refreshCredentials] from the answer of the token endpoint on, before
    the record is persisted. *)
Definition refreshed (r : TokenResult) : Outcome StoredCredentials :=
  match r with
  | TokenFailed => Throw "Token refresh failed"
  | TokenSuccess a rf e =>
      let? acct := extractAccountId a in
      Ok {| access := a; refresh := rf; expires := e; accountId := acct |}
  end.

(** [interactiveLogin] from the end of the browser flow on. *)
Definition loggedIn (r : Outcome TokenResult) : Outcome StoredCredentials :=
  let? tokenResult := r in
  match tokenResult with
  | TokenFailed => Throw "Failed to exchange authorization code for tokens"
  | TokenSuccess a rf e =>
      let? acct := extractAccountId a in
      Ok {| access := a; refresh := rf; expires := e; accountId := acct |}
  end.

(** [bootstrapCredentials] as the last thing caller [i] does, up to its
    first suspension. *)
Definition bootstrapCredentials (i : nat) (w : World) : World :=
  if hasValidAccess (credentials (authState w)) (clock w)
  then returns i w
  else
    let w := emit ReadTokenFile w in
    let cached := tokenFile w in
    if hasValidAccess cached (clock w)
    then returns i (setCredentials cached w)
    else
      match cached with
      | Some c =>
          setCont i AwaitingBootstrapRefresh (emit (RefreshCall (refresh c)) w)
      | None => setCont i AwaitingLogin (emit LoginFlow w)
      end.

(** The code after [await authState.refreshPromise]. *)
Definition afterRefresh (i : nat) (w : World) : World :=
  match credentials (authState w) with
  | None => bootstrapCredentials i w
  | Some _ => returns i w
  end.

(** [ensureFreshCredentials] up to its first suspension. *)
Definition ensureFreshCredentials (i : nat) (w : World) : World :=
  if hasValidAccess (credentials (authState w)) (clock w)
  then returns i w
  else
    match credentials (authState w) with
    | None => bootstrapCredentials i w
    | Some c =>
        let w :=
          match refreshPromise (authState w) with
          | Some _ => w
          | None =>
              let w := emit (RefreshCall (refresh c)) w in
              let (p, w) := newPromise w in
              setRefreshPromise (Some p) w
          end in
        match refreshPromise (authState w) with
        | Some p =>
            match reactions w p with
            | Some waiting =>
                setCont i (AwaitingRefresh p)
                  (setReactions p (Some (waiting ++ [i])%list) w)
            | None => afterRefresh i w
            end
        | None => afterRefresh i w
        end
    end.

(** The [then], [catch] and [finally] callbacks of the shared refresh,
    run when the token endpoint has answered. *)
Definition settleRefresh (p : nat) (r : TokenResult) (w : World) : World :=
  let w :=
    match refreshed r with
    | Ok creds => setCredentials (Some creds) (persistCredentials creds w)
    | Throw _ => setCredentials None w
    end in
  setReactions p None (setRefreshPromise None w).

Definition step (w : World) (e : Event) : World :=
  match e with
  | Tick t => setClock t w
  | Call i =>
      match conts w i with
      | None => ensureFreshCredentials i w
      | Some _ => w
      end
  | RefreshSettled p r =>
      match reactions w p with
      | Some waiting =>
          fold_left (fun w i => afterRefresh i w) waiting (settleRefresh p r w)
      | None => w
      end
  | BootstrapRefreshSettled i r =>
      match conts w i with
      | Some AwaitingBootstrapRefresh =>
          match refreshed r with
          | Ok creds =>
              returns i
                (setCredentials (Some creds) (persistCredentials creds w))
          | Throw _ => setCont i AwaitingLogin (emit LoginFlow w)
          end
      | _ => w
      end
  | LoginSettled i r =>
      match conts w i with
      | Some AwaitingLogin =>
          match loggedIn r with
          | Ok creds =>
              returns i
                (setCredentials (Some creds) (persistCredentials creds w))
          | Throw err => setCont i (Rejected err) w
          end
      | _ => w
      end
  end.

Definition run (w : World) (es : list Event) : World := fold_left step es w.

End WithJWT.

(** The process when the module has been loaded: no credentials, no
    refresh in flight. *)
Definition initial (now : Z) (file : option StoredCredentials) : World :=
  {| authState := {| credentials := None; refreshPromise := None |};
     tokenFile := file; clock := now; effects := []; nextPromise := 0;
     reactions := fun _ => None; conts := fun _ => None |}.

End Auth.

(** ** The proxy server *)

Module Proxy.

Definition Headers : Type := list (string * string).

(** [headers.set(name, value)] *)
Fixpoint hset (h : Headers) (name value : string) : Headers :=
  match h with
  | [] => [(name, value)]
  | (n, v) :: h' =>
      if String.eqb n name then (name, value) :: h'
      else (n, v) :: hset h' name value
  end.

(** A [Response] as [fetch] or [convertSseToJson] hands it over: [body]
    is [None] when there is none, otherwise what reading the stream to its
    end gives.  Whether a reader has since locked the stream is not part of
    the response: the handlers keep it beside the response they hold. *)
Record Response := {
  status : Z;
  statusText : string;
  headers : Headers;
  body : option (Outcome string)
}.

(** [response.ok] *)
Definition ok (r : Response) : bool :=
  ((200 <=? status r) && (status r <=? 299))%Z.

(** [await response.clone().text()], while no reader holds the body. *)
Definition cloneText (r : Response) : Outcome string :=
  match body r with
  | None => Ok ""
  | Some t => t
  end.

(** The body of [r] can no longer be read: there is one, and a reader
    holds it ([r.body.locked]). *)
Definition unreadable (locked : bool) (r : Response) : bool :=
  locked && match body r with Some _ => true | None => false end.

(** What a request handler does to the outside. *)
Inductive Action :=
| SendJson (status : Z) (payload : jsval)   (* [sendJson(res, status, payload)] *)
| Fetch (url : string) (hdrs : Headers) (body : string) (* the upstream call *)
| LogProxyError (entry : object)
| Forward (r : Response)       (* [forwardResponse(r, res)] sends [r] *)
| EndResponse.                              (* [res.end()] *)

(** Handlers: a log of actions and a result or an exception. *)
Definition Eff (A : Type) : Type := (list Action * Outcome A)%type.

Definition ret {A} (a : A) : Eff A := ([], Ok a).

Definition bind {A B} (m : Eff A) (k : A -> Eff B) : Eff B :=
  match m with
  | (l, Ok a) => let (l', r) := k a in ((l ++ l')%list, r)
  | (l, Throw e) => (l, Throw e)
  end.

Definition act (a : Action) : Eff unit := ([a], Ok tt).

Definition lift {A} (o : Outcome A) : Eff A := ([], o).

(** [try { m } catch (e) { h e }] *)
Definition tryCatch {A} (m : Eff A) (h : string -> Eff A) : Eff A :=
  match m with
  | (l, Throw e) => let (l', r) := h e in ((l ++ l')%list, r)
  | done => done
  end.

Declare Scope eff_scope.
Delimit Scope eff_scope with eff.
Notation "'do' x '<-' m ';' k" := (bind m (fun x => k))
  (at level 10, x name, m at level 100, k at level 200) : eff_scope.
Local Open Scope eff_scope.

Definition sendJson (status : Z) (payload : jsval) : Eff unit :=
  act (SendJson status payload).

(** [await forwardResponse(upstream, res)].  Status and headers are set on
    [res]; a response without a body is ended with its text; otherwise
    [Readable.fromWeb] takes a reader on the body and the stream is piped
    to the client.  Taking the reader throws when the stream is locked, and
    nothing has been sent by then. *)
Definition forwardResponse (upstream : Response) (locked : bool) : Eff unit :=
  if unreadable locked upstream
  then lift (Throw "Invalid state: ReadableStream is locked")
  else act (Forward upstream).

Definition errorPayload (message : string) : jsval :=
  JObj [("error", JStr message)].

(** [a ?? b] *)
Definition nullish (a b : jsval) : jsval :=
  match a with
  | JUndefined | JNull => b
  | _ => a
  end.

Definition normalizePath (pathname : string) : string :=
  if negb (Js.startsWith pathname "/") then "/" ++ pathname
  else if Js.startsWith pathname "/v1/" then Js.slice 3 pathname
  else if String.eqb pathname "/v1" then "/"
  else pathname.

(** One request as the server sees it: the request line, and what the
    suspension points of its handler resolve to. *)
Record Exchange := {
  method : string;
  pathname : string;                 (* of [new URL(req.url, ...)] *)
  search : string;
  rawBody : Outcome string;          (* [await readRequestBody(req)] *)
  (* [authState.credentials] when [await ensureFreshCredentials()] has
     returned, or the exception it rejects with *)
  ensured : Outcome (option Auth.StoredCredentials)
}.

(** [transformRequestForCodex]'s result, as far as the handler reads it. *)
Record Transformation := {
  updatedInitBody : option string;   (* [updatedInit?.body] *)
  transformedBody : option object    (* [body] *)
}.

Record ProxyContext := {
  instructions : string;
  userConfig : Transform.UserConfig;
  codexMode : bool
}.

(** How the server decides what answers a request. *)
Inductive Route := ToHealth | ToResponses | ToNotFound.

Definition route (method pathname : string) : Route :=
  let normalized := normalizePath pathname in
  if String.eqb method "GET" && String.eqb normalized "/health" then ToHealth
  else if Js.startsWith normalized "/responses" then ToResponses
  else ToNotFound.

(** [res.headersSent] *)
Definition headersSent (l : list Action) : bool :=
  existsb (fun a => match a with
                    | SendJson _ _ | Forward _ | EndResponse => true
                    | _ => false
                    end) l.

Definition upstreamCalls (l : list Action) : nat :=
  List.length (filter (fun a => match a with Fetch _ _ _ => true | _ => false end) l).

Section WithCollaborators.

(** [process.env] *)
Variable env : string -> option string.
(** [JSON.parse(text) as RequestBody]: the object, or the message of
    the [SyntaxError]. *)
Variable JSON_parse : string -> Outcome object.
Variable JSON_stringify : jsval -> string.
Variable randomUUID : string.
Variable CODEX_BASE_URL : string.
Variable rewriteUrlForCodex : string -> string.
(** [createCodexHeaders(undefined, accountId, access, {model, promptCacheKey})] *)
Variable createCodexHeaders : string -> string -> jsval -> jsval -> Headers.
Variable fetch : string -> Headers -> string -> Outcome Response.
(** [await convertSseToJson(response, response.headers)]: a response of
    its own making, or the exception it rejects with. *)
Variable convertSseToJson : Response -> Outcome Response.
(** Whether [convertSseToJson], when it rejects, has left the body of the
    response it was given locked: it took a reader on the stream, as
    reading the events requires, and has not released it. *)
Variable consumesBody : Response -> bool.
Variable transformRequestForCodex :
  string -> string -> string -> Transform.UserConfig -> bool ->
  Outcome (option Transformation).
(** What [getCodexInstructions()] resolves to at start-up. *)
Variable getCodexInstructions : Outcome string.

Definition envIs (name value : string) : bool :=
  match env name with
  | Some v => String.eqb v value
  | None => false
  end.

Definition FORCE_JSON_RESPONSES : bool := negb (envIs "CODEX_PROXY_FORCE_JSON" "0").

Definition buildCodexUrl (x : Exchange) : string :=
  let normalizedPath := normalizePath (pathname x) in
  let target := CODEX_BASE_URL ++ normalizedPath ++ search x in
  if Js.includes normalizedPath "/codex/" then target
  else rewriteUrlForCodex target.

(** [await fetch(url, { method: "POST", headers, body })] *)
Definition callUpstream (url : string) (h : Headers) (b : string) : Eff Response :=
  do _ <- act (Fetch url h b);
  lift (fetch url h b).

(** [b?.k] *)
Definition optProp (b : option object) (k : string) : jsval :=
  match b with
  | Some o => Obj.get o k
  | None => JUndefined
  end.

(** The [logProxyError] call of both variants, inside its [try]:
    [clone()] throws when a reader holds the body, and reading the clone
    may fail; either way nothing is logged. *)
Definition logUpstreamError (r : Response) (locked : bool)
    (entry : string -> object) : Eff unit :=
  if ok r then ret tt
  else if unreadable locked r then ret tt
  else
    match cloneText r with
    | Ok responseBody => act (LogProxyError (entry (Js.substring0 (80 * 100) responseBody)))
    | Throw _ => ret tt
    end.

(** *** The variant that transforms through [transformRequestForCodex] *)

Definition handleResponsesEndpoint (x : Exchange) (context : ProxyContext)
  : Eff unit :=
  if negb (String.eqb (method x) "POST")
  then sendJson 405 (errorPayload "Method not allowed")
  else
    do rawBody <- lift (rawBody x);
    if String.eqb rawBody ""
    then sendJson 400 (errorPayload "Request body is required")
    else
      match JSON_parse rawBody with
      | Throw message =>
          sendJson 400 (errorPayload ("Invalid JSON body: " ++ message))
      | Ok parsedBody =>
          let parsedBody :=
            if truthy (Obj.get parsedBody "metadata")
            then Obj.delete parsedBody "metadata" else parsedBody in
          let sanitizedBody := JSON_stringify (JObj parsedBody) in
          let traceId :=
            nullish (Obj.get parsedBody "prompt_cache_key") (JStr randomUUID) in
          do credentials <- lift (ensured x);
          match credentials with
          | None => sendJson 401 (errorPayload "Authentication required")
          | Some creds =>
              let codexUrl := buildCodexUrl x in
              do transformation <-
                lift (transformRequestForCodex sanitizedBody codexUrl
                        (instructions context) (userConfig context)
                        (codexMode context));
              let finalBody :=
                match transformation with
                | Some {| updatedInitBody := Some b |} => b
                | _ => sanitizedBody
                end in
              let bodyForHeaders :=
                match transformation with
                | Some t => transformedBody t
                | None => None
                end in
              let effectiveBody :=
                match bodyForHeaders with
                | Some b => b
                | None => parsedBody
                end in
              let hdrs :=
                hset (createCodexHeaders (Auth.accountId creds) (Auth.access creds)
                        (optProp bodyForHeaders "model")
                        (optProp bodyForHeaders "prompt_cache_key"))
                  "content-type" "application/json" in
              do upstreamResponse <- callUpstream codexUrl hdrs finalBody;
              do responseForClient <-
                (if FORCE_JSON_RESPONSES
                 then lift (convertSseToJson upstreamResponse)
                 else ret upstreamResponse);
              (* [responseForClient] is fresh from [fetch] or from the
                 converter: no reader holds its body *)
              do _ <-
                logUpstreamError responseForClient false
                  (fun responseBody =>
                     [("traceId", traceId);
                      ("url", JStr codexUrl);
                      ("status", JNum (status responseForClient));
                      ("statusText", JStr (statusText responseForClient));
                      ("model", nullish (Obj.get effectiveBody "model")
                                  (Obj.get parsedBody "model"));
                      ("hasTools",
                       JBool (truthy (nullish (Obj.get effectiveBody "tools")
                                        (Obj.get parsedBody "tools"))));
                      ("bodyLength",
                       JNum (Z.of_nat (String.length sanitizedBody)));
                      ("responseBody", JStr responseBody)]);
              forwardResponse responseForClient false
          end
      end.

(** *** The minimal variant, which rewrites the body itself *)

Definition DISABLE_CODEX_INSTRUCTIONS : bool :=
  envIs "CODEX_PROXY_DISABLE_CODEX_INSTRUCTIONS" "1".

Definition DISABLE_ENV_OVERRIDE : bool :=
  envIs "CODEX_PROXY_DISABLE_ENV_OVERRIDE" "1".

(** [globalCodexInstructions] once [startServer] has loaded it. *)
Definition globalCodexInstructions : string :=
  match getCodexInstructions with
  | Ok text => text
  | Throw _ => "You are Codex."
  end.

(** What replaces missing instructions. *)
Definition fallbackInstructions : string :=
  if DISABLE_CODEX_INSTRUCTIONS then ""
  else if String.eqb globalCodexInstructions "" then "You are Codex."
  else globalCodexInstructions.

Definition resolveInstructions (parsedBody : object) : object :=
  let own :=
    match Obj.get parsedBody "instructions" with
    | JStr s => s
    | _ => ""
    end in
  let parsedBody :=
    match Obj.get parsedBody "instructions" with
    | JStr s => if String.eqb s "" then Obj.set parsedBody "instructions" (JStr "")
                else parsedBody
    | _ => Obj.set parsedBody "instructions" (JStr "")
    end in
  if String.eqb (Js.trim own) ""
  then Obj.set parsedBody "instructions" (JStr fallbackInstructions)
  else parsedBody.

Definition defaultOverride : string :=
  Js.join " "
    ["[ENVIRONMENT OVERRIDE]";
     "You are running inside Claude Code CLI (not Codex).";
     "Ignore Codex-specific operating rules and tool mappings above.";
     "Follow the client-provided system/developer prompts and the tool schema present in the input items.";
     "When instructions conflict, prefer the client-provided Claude Code guidance."].

Definition envOverrideText : string :=
  match env "ENV_OVERRIDE_TEXT" with
  | Some overrideFromEnv =>
      if String.eqb (Js.trim overrideFromEnv) "" then defaultOverride
      else Js.trim overrideFromEnv
  | None => defaultOverride
  end.

Definition rewriteInput (parsedBody : object) : object :=
  let originalInput :=
    match Obj.get parsedBody "input" with
    | JArr items => items
    | _ => []
    end in
  let newInput :=
    if DISABLE_ENV_OVERRIDE then []
    else [JObj [("type", JStr "message");
                ("role", JStr "developer");
                ("content", JArr [JObj [("type", JStr "input_text");
                                        ("text", JStr envOverrideText)]])]] in
  Obj.set parsedBody "input" (JArr (newInput ++ originalInput)%list).

Definition ensureInclude (parsedBody : object) : object :=
  match Obj.get parsedBody "include" with
  | JArr (_ :: _) => parsedBody
  | _ => Obj.set parsedBody "include" (JArr [JStr "reasoning.encrypted_content"])
  end.

(** The body sent upstream, from the parsed body of the client.
    ([extractInstructionsFromInput] is called too; it reads only, cannot
    throw, and its result is not used.) *)
Definition rewriteBody (parsedBody : object) : object :=
  let parsedBody :=
    if truthy (Obj.get parsedBody "metadata")
    then Obj.delete parsedBody "metadata" else parsedBody in
  let parsedBody := Obj.set parsedBody "store" (JBool false) in
  let parsedBody := Obj.set parsedBody "stream" (JBool true) in
  let parsedBody := resolveInstructions parsedBody in
  let parsedBody := rewriteInput parsedBody in
  ensureInclude parsedBody.

Definition handleResponsesEndpointMinimal (x : Exchange) : Eff unit :=
  if negb (String.eqb (method x) "POST")
  then sendJson 405 (errorPayload "Method not allowed")
  else
    do rawBody <- lift (rawBody x);
    if String.eqb rawBody ""
    then sendJson 400 (errorPayload "Request body is required")
    else
      match JSON_parse rawBody with
      | Throw message =>
          sendJson 400 (errorPayload ("Invalid JSON body: " ++ message))
      | Ok parsed =>
          let clientStreamRequested := truthy (Obj.get parsed "stream") in
          let parsedBody := rewriteBody parsed in
          let sanitizedBody := JSON_stringify (JObj parsedBody) in
          let traceId :=
            nullish (Obj.get parsedBody "prompt_cache_key") (JStr randomUUID) in
          do credentials <- lift (ensured x);
          match credentials with
          | None => sendJson 401 (errorPayload "Authentication required")
          | Some creds =>
              let codexUrl := buildCodexUrl x in
              let hdrs :=
                hset (createCodexHeaders (Auth.accountId creds) (Auth.access creds)
                        (Obj.get parsedBody "model")
                        (Obj.get parsedBody "prompt_cache_key"))
                  "content-type" "application/json" in
              do upstreamResponse <- callUpstream codexUrl hdrs sanitizedBody;
              (* the response for the client, and whether its body is
                 locked: only the upstream response that a failed
                 conversion leaves behind can be *)
              do held <-
                (if negb clientStreamRequested
                 then tryCatch
                        (do converted <- lift (convertSseToJson upstreamResponse);
                         ret (converted, false))
                        (fun _ =>
                           ret (upstreamResponse, consumesBody upstreamResponse))
                 else ret (upstreamResponse, false));
              let responseForClient := fst held in
              let locked := snd held in
              let instr := Obj.get parsedBody "instructions" in
              do _ <-
                logUpstreamError responseForClient locked
                  (fun responseBody =>
                     [("traceId", traceId);
                      ("url", JStr codexUrl);
                      ("status", JNum (status responseForClient));
                      ("statusText", JStr (statusText responseForClient));
                      ("model", nullish (Obj.get parsedBody "model")
                                  (Obj.get parsedBody "model"));
                      ("hasTools",
                       JBool (truthy (nullish (Obj.get parsedBody "tools")
                                        (Obj.get parsedBody "tools"))));
                      ("bodyLength",
                       JNum (Z.of_nat (String.length sanitizedBody)));
                      ("hadInstructions",
                       JBool match instr with JStr _ => true | _ => false end);
                      ("instrLength",
                       JNum match instr with
                            | JStr s => Z.of_nat (String.length s)
                            | _ => 0%Z
                            end);
                      ("include", Obj.get parsedBody "include");
                      ("responseBody", JStr responseBody)]);
              forwardResponse responseForClient locked
          end
      end.

(** *** The request listener of [startServer] *)

(** The [catch] around the listener's body. *)
Definition guarded (attempt : Eff unit) : list Action :=
  match attempt with
  | (done, Ok _) => done
  | (done, Throw _) =>
      if headersSent done then (done ++ [EndResponse])%list
      else (done ++ [SendJson 500 (errorPayload "Internal server error")])%list
  end.

Definition requestListener (handler : Exchange -> Eff unit) (x : Exchange)
  : list Action :=
  guarded
    match route (method x) (pathname x) with
    | ToHealth => sendJson 200 (JObj [("ok", JBool true)])
    | ToResponses => handler x
    | ToNotFound => sendJson 404 (errorPayload "Not found")
    end.

(** The two variants of the server. *)
Definition server (context : ProxyContext) (x : Exchange) : list Action :=
  requestListener (fun x => handleResponsesEndpoint x context) x.

Definition serverMinimal (x : Exchange) : list Action :=
  requestListener handleResponsesEndpointMinimal x.

End WithCollaborators.

(** What a caller of the state machine hands to its request handler. *)
Definition ensuredOf (w : Auth.World) (i : nat)
  : option (Outcome (option Auth.StoredCredentials)) :=
  match Auth.conts w i with
  | Some (Auth.Returned seen) => Some (Ok seen)
  | Some (Auth.Rejected err) => Some (Throw err)
  | _ => None
  end.

End Proxy.

(** ** Vocabulary of the specification *)

Module Spec.

(** An input item of the "server-state-reference" kind. *)
Definition isItemReference (item : object) : bool :=
  isStr (Obj.get item "type") "item_reference".

(** The item carries an identifier field. *)
Definition carriesId (item : object) : bool := Obj.has item "id".

(** The identifier of the item is a non-empty string, or another value
    that counts as true. *)
Definition hasId (item : object) : bool := truthy (Obj.get item "id").

(** The item without its identifier, when it has one. *)
Definition stripped (item : object) : object :=
  if hasId item then Obj.delete item "id" else item.

(** A handler that only answers with one JSON document and calls nothing. *)
Definition AnswersOnly (e : Proxy.Eff unit) (status : Z) (payload : jsval) : Prop :=
  e = ([Proxy.SendJson status payload], Ok tt) /\ Proxy.upstreamCalls (fst e) = 0.

(** The normalized path of a request, in the words of the
    specification: a path that does not begin with a slash is given one;
    a path under the version prefix loses the prefix ("/v1/rest" becomes
    "/rest" and the bare "/v1" becomes "/"); every other path is
    unchanged.  It is written on the characters of the path and shares
    nothing with [Proxy.normalizePath]. *)
Definition normalizedPath (pathname : string) : string :=
  match pathname with
  | String "/"%char (String "v"%char (String "1"%char rest)) =>
      match rest with
      | EmptyString => "/"
      | String "/"%char _ => rest
      | _ => pathname
      end
  | String "/"%char _ => pathname
  | _ => "/" ++ pathname
  end.

(** The normalized path of the request starts with "/responses". *)
Definition proxiedPath (x : Proxy.Exchange) : bool :=
  Js.startsWith (normalizedPath (Proxy.pathname x)) "/responses".

(** The request is a GET whose normalized path is "/health". *)
Definition healthCheck (x : Proxy.Exchange) : bool :=
  String.eqb (Proxy.method x) "GET"
  && String.eqb (normalizedPath (Proxy.pathname x)) "/health".

(** The statuses a handler of the responses endpoint answers with by
    itself; everything else it sends is the upstream's response. *)
Definition ownStatus (a : Proxy.Action) : Prop :=
  match a with
  | Proxy.SendJson s _ => s = 405%Z \/ s = 400%Z \/ s = 401%Z
  | Proxy.EndResponse => False
  | _ => True
  end.

(** The callers that arrive in a sequence of events, in arrival order. *)
Fixpoint callersOf (es : list Auth.Event) : list nat :=
  match es with
  | [] => []
  | Auth.Call i :: es' => i :: callersOf es'
  | _ :: es' => callersOf es'
  end.

(** An event of a window in which callers arrive while credentials [c]
    stay expired: a call, or the clock moving to a time at which [c] is
    still not valid. *)
Definition arrival (c : Auth.StoredCredentials) (e : Auth.Event) : Prop :=
  match e with
  | Auth.Call _ => True
  | Auth.Tick t => Auth.hasValidAccess (Some c) t = false
  | _ => False
  end.

(** Since world [w0], in which credentials [c] were present and expired
    and no refresh was in flight, the callers [ws] (and no others) have
    joined: nothing has changed before the first of them, and from the
    first on exactly one refresh call has been issued and all of them await
    the promise created for it. *)
Definition joining (w0 : Auth.World) (c : Auth.StoredCredentials)
    (ws : list nat) (w : Auth.World) : Prop :=
  Auth.credentials (Auth.authState w) = Some c /\
  Auth.hasValidAccess (Some c) (Auth.clock w) = false /\
  Auth.tokenFile w = Auth.tokenFile w0 /\
  (forall i, ~ In i ws -> Auth.conts w i = Auth.conts w0 i) /\
  (forall i, In i ws ->
             Auth.conts w i = Some (Auth.AwaitingRefresh (Auth.nextPromise w0))) /\
  match ws with
  | [] =>
      Auth.refreshPromise (Auth.authState w) = None /\
      Auth.effects w = Auth.effects w0 /\
      Auth.nextPromise w = Auth.nextPromise w0
  | _ :: _ =>
      Auth.refreshPromise (Auth.authState w) = Some (Auth.nextPromise w0) /\
      Auth.reactions w (Auth.nextPromise w0) = Some ws /\
      Auth.effects w
      = (Auth.effects w0 ++ [Auth.RefreshCall (Auth.refresh c)])%list
  end.

(** Credentials are absent, or valid at the current time. *)
Definition settled (w : Auth.World) : Prop :=
  Auth.credentials (Auth.authState w) = None \/
  Auth.hasValidAccess (Auth.credentials (Auth.authState w)) (Auth.clock w) = true.

(** No call has returned to a handler that then found no credentials. *)
Definition returnsWithCredentials (w : Auth.World) : Prop :=
  forall i, Auth.conts w i <> Some (Auth.Returned None).

(** The caller is somewhere in [bootstrapCredentials] or past it. *)
Definition inFallback (k : option Auth.Cont) : Prop :=
  (exists seen, k = Some (Auth.Returned seen))
  \/ k = Some Auth.AwaitingBootstrapRefresh
  \/ k = Some Auth.AwaitingLogin.

End Spec.

(** ** Sample collaborators, requests and worlds *)

Module Example.

Definition env (_ : string) : option string := None.

(** A stand-in for [JSON.parse] that knows the empty object only. *)
Definition JSON_parse (text : string) : Outcome object :=
  if String.eqb text "{}" then Ok []
  else Throw "Unexpected end of JSON input".

Definition JSON_stringify (_ : jsval) : string := "{}".

Definition randomUUID : string := "00000000-0000-4000-8000-000000000000".

Definition CODEX_BASE_URL : string := "https://chatgpt.com/backend-api".

Definition rewriteUrlForCodex (url : string) : string := url.

Definition createCodexHeaders (accountId access : string) (_ _ : jsval)
  : Proxy.Headers :=
  [("authorization", "Bearer " ++ access); ("chatgpt-account-id", accountId)].

Definition eventStream : Proxy.Response :=
  {| Proxy.status := 200; Proxy.statusText := "OK";
     Proxy.headers := [("content-type", "text/event-stream")];
     Proxy.body := Some (Ok "data: [DONE]") |}.

Definition fetch (_ : string) (_ : Proxy.Headers) (_ : string)
  : Outcome Proxy.Response := Ok eventStream.

Definition convertSseToJson (_ : Proxy.Response) : Outcome Proxy.Response :=
  Throw "Could not find final response in SSE stream".

(** That converter gives up after it has read the whole stream, and
    keeps its reader. *)
Definition consumesBody (_ : Proxy.Response) : bool := true.

Definition transformRequestForCodex (_ _ _ : string) (_ : Transform.UserConfig)
    (_ : bool) : Outcome (option Proxy.Transformation) := Ok None.

Definition getCodexInstructions : Outcome string :=
  Ok "You are Codex, based on GPT-5.".

Definition numberToString (n : Z) : string :=
  NilZero.string_of_int (Z.to_int n).

Definition decodeJWT (_ : string) : option Auth.JWTPayload :=
  Some {| Auth.authClaim := Some {| Auth.chatgpt_account_id := Some "acct-1" |} |}.

Definition context : Proxy.ProxyContext :=
  {| Proxy.instructions := "You are Codex, based on GPT-5.";
     Proxy.userConfig := Transform.emptyUserConfig;
     Proxy.codexMode := true |}.

(** Credentials that expired at time 1000. *)
Definition stale : Auth.StoredCredentials :=
  {| Auth.access := "access-0"; Auth.refresh := "refresh-0";
     Auth.expires := 1000; Auth.accountId := "acct-1" |}.

(** Credentials good until time 9000000. *)
Definition good : Auth.StoredCredentials :=
  {| Auth.access := "access-1"; Auth.refresh := "refresh-1";
     Auth.expires := 9000000; Auth.accountId := "acct-1" |}.

Definition request (method rawBody : string)
    (ensured : Outcome (option Auth.StoredCredentials)) : Proxy.Exchange :=
  {| Proxy.method := method; Proxy.pathname := "/v1/responses";
     Proxy.search := ""; Proxy.rawBody := Ok rawBody;
     Proxy.ensured := ensured |}.

Definition getRequest : Proxy.Exchange := request "GET" "" (Ok (Some good)).
Definition emptyPost : Proxy.Exchange := request "POST" "" (Ok (Some good)).
Definition brokenPost : Proxy.Exchange := request "POST" "{" (Ok (Some good)).
Definition anonymousPost : Proxy.Exchange := request "POST" "{}" (Ok None).
Definition post : Proxy.Exchange := request "POST" "{}" (Ok (Some good)).

(** A request for a path that is neither the health check nor under the
    responses endpoint. *)
Definition stray : Proxy.Exchange :=
  {| Proxy.method := "POST"; Proxy.pathname := "/v1/models";
     Proxy.search := ""; Proxy.rawBody := Ok "{}";
     Proxy.ensured := Ok (Some good) |}.

(** At time 100000 the process holds [stale], which is also what the
    token file holds; no refresh is in flight. *)
Definition expiredWorld : Auth.World :=
  {| Auth.authState := {| Auth.credentials := Some stale;
                          Auth.refreshPromise := None |};
     Auth.tokenFile := Some stale; Auth.clock := 100000;
     Auth.effects := []; Auth.nextPromise := 0;
     Auth.reactions := fun _ => None; Auth.conts := fun _ => None |}.

(** Two callers join the refresh of [expiredWorld]; the token endpoint
    then reports failure. *)
Definition afterFailedRefresh : Auth.World :=
  Auth.step decodeJWT
    (Auth.run decodeJWT expiredWorld [Auth.Call 0; Auth.Call 1])
    (Auth.RefreshSettled 0 Auth.TokenFailed).

(** One caller finds [stale] in [expiredWorld]; the refresh fails, the
    refresh of the record in the token file fails as well, and so does the
    code exchange of the interactive login. *)
Definition afterFailedLogin : Auth.World :=
  Auth.run decodeJWT expiredWorld
    [Auth.Call 0;
     Auth.RefreshSettled 0 Auth.TokenFailed;
     Auth.BootstrapRefreshSettled 0 Auth.TokenFailed;
     Auth.LoginSettled 0 (Ok Auth.TokenFailed)].

(** The request of that caller. *)
Definition rejectedPost : Proxy.Exchange :=
  request "POST" "{}" (Throw "Failed to exchange authorization code for tokens").

(** A first call loads valid credentials from the token file. *)
Definition afterFirstCall : Auth.World :=
  Auth.step decodeJWT (Auth.initial 100000 (Some good)) (Auth.Call 0).

End Example.

(** ** Tool names in the answers of the upstream *)

Module Names.

(** [NAME_MAP], in the order of the source. *)
Definition NAME_MAP : list (string * string) :=
  [("todo_write", "TodoWrite");
   ("todowrite", "TodoWrite");
   ("todo_read", "TodoRead");
   ("todoread", "TodoRead");
   ("exit_plan_mode", "exit_plan_mode");
   ("ls", "LS");
   ("glob", "Glob");
   ("grep", "Grep");
   ("read", "Read");
   ("write", "Write");
   ("edit", "Edit");
   ("multi_edit", "MultiEdit");
   ("multiedit", "MultiEdit");
   ("notebook_read", "NotebookRead");
   ("notebookedit", "NotebookEdit");
   ("notebook_edit", "NotebookEdit");
   ("bash", "Bash");
   ("web_fetch", "WebFetch");
   ("webfetch", "WebFetch");
   ("web_search", "WebSearch");
   ("websearch", "WebSearch");
   ("task", "Task")].

(** The properties an object literal inherits from [Object.prototype];
    each of them holds a function or an object. *)
Definition inherited : list string :=
  ["constructor"; "hasOwnProperty"; "isPrototypeOf"; "propertyIsEnumerable";
   "toLocaleString"; "toString"; "valueOf"; "__proto__";
   "__defineGetter__"; "__defineSetter__"; "__lookupGetter__";
   "__lookupSetter__"].

(** The class [[a-z0-9]] *)
Definition isKeyChar (c : ascii) : bool :=
  let n := nat_of_ascii c in
  (((97 <=? n) && (n <=? 122)) || ((48 <=? n) && (n <=? 57)))%nat.

(** [s.replace(/[^a-z0-9]+/g, "_")]: every maximal run of characters
    outside the class becomes one underscore.  [inRun] tells that the
    character before [s] belongs to such a run. *)
Fixpoint replaceRuns (inRun : bool) (s : string) : string :=
  match s with
  | EmptyString => EmptyString
  | String c s' =>
      if isKeyChar c then String c (replaceRuns false s')
      else if inRun then replaceRuns true s'
      else String "_" (replaceRuns true s')
  end.

Definition canonicalKey (name : jsval) : option string :=
  match name with
  | JStr s =>
      if String.eqb s "" then None
      else Some (replaceRuns false (Js.toLowerCase (Js.trim s)))
  | _ => None
  end.

Fixpoint own (table : list (string * string)) (key : string) : option string :=
  match table with
  | [] => None
  | (k, v) :: table' => if String.eqb k key then Some v else own table' key
  end.

(** What [remapName] returns: a string of the table, a value inherited
    from [Object.prototype], or [null]. *)
Inductive Remapped :=
| ToName (name : string)
| ToInherited (key : string)
| NoName.

(** [NAME_MAP[key] || null] *)
Definition lookupName (key : string) : Remapped :=
  match own NAME_MAP key with
  | Some v => if String.eqb v "" then NoName else ToName v
  | None =>
      if existsb (String.eqb key) inherited then ToInherited key else NoName
  end.

Definition remapName (name : jsval) : Remapped :=
  match canonicalKey name with
  | None => NoName
  | Some key => if String.eqb key "" then NoName else lookupName key
  end.

End Names.

(** ** The guidance the minimal variant reads from the input *)

Module Guide.

(** [c && typeof c === "object"] *)
Definition isObject (c : jsval) : bool :=
  match c with
  | JObj _ | JArr _ => true
  | _ => false
  end.

(** [typeof c.text === "string" ? c.text : ""], for a [c] that passed
    [isObject]. *)
Definition textOf (c : jsval) : string :=
  match c with
  | JObj o => match Obj.get o "text" with
              | JStr s => s
              | _ => ""
              end
  | _ => ""
  end.

Definition extractTextFromContent (content : jsval) : string :=
  match content with
  | JStr s => s
  | JArr cs => Js.join Transform.LF (map textOf (filter isObject cs))
  | _ => ""
  end.

(** The body of the loop of [extractInstructionsFromInput]: what an item
    adds to [parts]. *)
Definition partsOf (item : jsval) : list string :=
  match item with
  | JObj o =>
      if isStr (Obj.get o "role") "developer" || isStr (Obj.get o "role") "system"
      then
        let text := extractTextFromContent (Obj.get o "content") in
        if negb (String.eqb text "") && negb (String.eqb (Js.trim text) "")
        then [Js.trim text]
        else []
      else []
  | _ => []
  end.

Definition extractInstructionsFromInput (input : jsval) : option string :=
  match input with
  | JArr items =>
      match flat_map partsOf items with
      | [] => None
      | parts => Some (Js.join (Transform.LF ++ Transform.LF) parts)
      end
  | _ => None
  end.

End Guide.

(** ** Vocabulary of the further properties *)

Module Obs.

(** The properties [transformRequestBody] assigns. *)
Definition assignedKeys : list string :=
  ["model"; "store"; "stream"; "instructions"; "input"; "reasoning"; "text";
   "include"; "max_output_tokens"; "max_completion_tokens"].

(** The properties the minimal handler deletes or assigns. *)
Definition rewrittenKeys : list string :=
  ["metadata"; "store"; "stream"; "instructions"; "input"; "include"].

(** [body.model] when it is a string. *)
Definition modelName (body : object) : option string :=
  match Obj.get body "model" with
  | JStr m => Some m
  | _ => None
  end.

(** The name under which the options of the model are looked up:
    [originalModel || normalizedModel]. *)
Definition configKey (body : object) : string :=
  match Obj.get body "model" with
  | JStr m => if String.eqb m "" then Transform.normalizeModel (Some m) else m
  | _ => Transform.normalizeModel None
  end.

(** The value is neither [null] nor [undefined]. *)
Definition defined (v : jsval) : bool :=
  match v with
  | JUndefined | JNull => false
  | _ => true
  end.

(** A value [Array.prototype.join] can turn into a string: no object in
    it has a [toString] of its own. *)
Fixpoint printable (v : jsval) : bool :=
  match v with
  | JArr l => forallb printable l
  | JObj o => negb (Obj.has o "toString")
  | _ => true
  end.

(** A part of a content list that can be read and whose text can be
    joined with the others. *)
Definition readablePart (c : jsval) : bool :=
  match prop c "text" with
  | Ok text => printable text
  | Throw _ => false
  end.

(** An input item whose properties can be read: it is defined, and when
    it is an object whose content is a list, the parts of the list are
    defined and their texts can be joined. *)
Definition readable (item : jsval) : bool :=
  match item with
  | JUndefined | JNull => false
  | JObj o =>
      match Obj.get o "content" with
      | JArr cs => forallb readablePart cs
      | _ => true
      end
  | _ => true
  end.

(** The item has the role of a developer or system message. *)
Definition systemRole (item : object) : bool :=
  isStr (Obj.get item "role") "developer" || isStr (Obj.get item "role") "system".

(** The message [addCodexBridgeMessage] and [addToolGuideMessage] insert. *)
Definition developerItem (text : string) : object :=
  [("type", JStr "message");
   ("role", JStr "developer");
   ("content", JArr [JObj [("type", JStr "input_text"); ("text", JStr text)]])].

(** The minimal variant is left with a response it cannot forward: the
    client did not ask for a stream, the conversion failed, and the
    converter has left the body of the upstream response locked. *)
Definition stranded (wantsStream : bool) (conversion : Outcome Proxy.Response)
    (locked : bool) (upstream : Proxy.Response) : bool :=
  negb wantsStream &&
  match conversion with
  | Ok _ => false
  | Throw _ => Proxy.unreadable locked upstream
  end.

(** The action answers the client. *)
Definition isResponse (a : Proxy.Action) : bool :=
  match a with
  | Proxy.SendJson _ _ | Proxy.Forward _ | Proxy.EndResponse => true
  | _ => false
  end.

Definition responses (l : list Proxy.Action) : nat :=
  List.length (filter isResponse l).

(** The client is answered once, by the last action. *)
Definition AnsweredOnce (l : list Proxy.Action) : Prop :=
  exists before a, l = (before ++ [a])%list /\ isResponse a = true /\
                   responses before = 0.

(** A string of characters of [[a-z0-9_]] without two underscores in a
    row; [afterUnderscore] tells that the character before is one. *)
Fixpoint keyShaped (afterUnderscore : bool) (s : string) : bool :=
  match s with
  | EmptyString => true
  | String c s' =>
      if Names.isKeyChar c then keyShaped false s'
      else Ascii.eqb c "_" && negb afterUnderscore && keyShaped true s'
  end.


(** A promise of the heap is pending. *)
Definition pending (w : Auth.World) (p : nat) : Prop := Auth.reactions w p <> None.

(** At most one refresh is in flight: the pending promises are the one
    [authState.refreshPromise] refers to, and a caller that awaits a refresh
    is among the callers that promise will resume. *)
Definition OneInFlight (w : Auth.World) : Prop :=
  (forall p, pending w p <-> Auth.refreshPromise (Auth.authState w) = Some p) /\
  (forall i p, Auth.conts w i = Some (Auth.AwaitingRefresh p) ->
               exists waiting, Auth.reactions w p = Some waiting /\ In i waiting).

(** The credentials in memory, when there are some, are the record of the
    token file. *)
Definition MirrorsDisk (w : Auth.World) : Prop :=
  forall c, Auth.credentials (Auth.authState w) = Some c -> Auth.tokenFile w = Some c.

(** What the process writes to the token file carries the account
    identifier of its access token. *)
Definition accounted (decodeJWT : string -> option Auth.JWTPayload)
    (e : Auth.Effect) : Prop :=
  match e with
  | Auth.WriteTokenFile c =>
      Auth.extractAccountId decodeJWT (Auth.access c) = Ok (Auth.accountId c) /\
      Auth.accountId c <> ""
  | _ => True
  end.

End Obs.

(** ** Further samples *)

Module Sample.

(** An upstream that cannot be reached. *)
Definition unreachable (_ : string) (_ : Proxy.Headers) (_ : string)
  : Outcome Proxy.Response := Throw "fetch failed".

(** An upstream that refuses the request. *)
Definition refusal : Proxy.Response :=
  {| Proxy.status := 400; Proxy.statusText := "Bad Request";
     Proxy.headers := [("content-type", "application/json")];
     Proxy.body := Some (Ok "{}") |}.

Definition refusing (_ : string) (_ : Proxy.Headers) (_ : string)
  : Outcome Proxy.Response := Ok refusal.

(** A stand-in for [JSON.parse] that knows two documents. *)
Definition JSON_parse (text : string) : Outcome object :=
  if String.eqb text "{}" then Ok []
  else if String.eqb text "{stream}" then Ok [("stream", JBool true)]
  else Throw "Unexpected token".

Definition streamingPost : Proxy.Exchange :=
  Example.request "POST" "{stream}" (Ok (Some Example.good)).

(** A conversation of a user message with an identifier, a reference to
    server state, and a system prompt. *)
Definition userItem : object :=
  [("id", JStr "msg_1"); ("type", JStr "message"); ("role", JStr "user");
   ("content", JStr "hello")].

Definition referenceItem : object :=
  [("type", JStr "item_reference"); ("id", JStr "rs_1")].

Definition promptItem : object :=
  [("type", JStr "message"); ("role", JStr "system");
   ("content", JStr "You are a coding agent running in the opencode CLI.")].

Definition conversation : object :=
  [("model", JStr "gpt-5-codex-low");
   ("input", JArr [JObj userItem; JObj referenceItem; JObj promptItem]);
   ("tools", JArr [JObj [("type", JStr "function")]]);
   ("reasoning", JObj [("effort", JStr "high"); ("encrypted", JBool true)]);
   ("include", JArr [JStr "file_search_call.results"]);
   ("metadata", JObj [("user", JStr "u-1")]);
   ("prompt_cache_key", JStr "session-1")].

(** A configuration with an entry for the name the client uses. *)
Definition perModel : Transform.UserConfig :=
  {| Transform.global :=
       {| Transform.reasoningEffort := Some Transform.E_medium;
          Transform.reasoningSummary := None;
          Transform.textVerbosity := None;
          Transform.include := None |};
     Transform.models :=
       [("gpt-5-codex-low",
         {| Transform.options :=
              Some {| Transform.reasoningEffort := Some Transform.E_low;
                      Transform.reasoningSummary := Some Transform.S_concise;
                      Transform.textVerbosity := None;
                      Transform.include := None |} |})] |}.

(** The two servers with the sample collaborators, for a given upstream. *)
Definition server
    (fetch : string -> Proxy.Headers -> string -> Outcome Proxy.Response)
    (x : Proxy.Exchange) : list Proxy.Action :=
  Proxy.server Example.env JSON_parse Example.JSON_stringify Example.randomUUID
    Example.CODEX_BASE_URL Example.rewriteUrlForCodex Example.createCodexHeaders
    fetch Example.convertSseToJson Example.transformRequestForCodex
    Example.context x.

Definition serverMinimal
    (fetch : string -> Proxy.Headers -> string -> Outcome Proxy.Response)
    (x : Proxy.Exchange) : list Proxy.Action :=
  Proxy.serverMinimal Example.env JSON_parse Example.JSON_stringify
    Example.randomUUID Example.CODEX_BASE_URL Example.rewriteUrlForCodex
    Example.createCodexHeaders fetch Example.convertSseToJson Example.consumesBody
    Example.getCodexInstructions x.

(** The upstream call of the sample requests. *)
Definition upstreamUrl : string := "https://chatgpt.com/backend-api/responses".

Definition upstreamHeaders : Proxy.Headers :=
  [("authorization", "Bearer access-1"); ("chatgpt-account-id", "acct-1");
   ("content-type", "application/json")].

(** A process that starts without a token file; its first caller logs in. *)
Definition afterLogin : Auth.World :=
  Auth.run Example.decodeJWT (Auth.initial 100000 None)
    [Auth.Call 0;
     Auth.LoginSettled 0 (Ok (Auth.TokenSuccess "access-1" "refresh-1" 9000000))].

(** The transformer with sample prompt texts; the cached prompt of the
    host is not available. *)
Definition transform :=
  Transform.transformRequestBody Example.numberToString None "guide" "remap"
    "bridge" (Throw "unavailable").

Definition transformed (mode : bool) : object :=
  match transform conversation "You are Codex." perModel mode with
  | Ok out => out
  | Throw _ => []
  end.

End Sample.

(** * Properties *)

(** ** Strings *)

Lemma startsWith_spec (s p : string) :
  Js.startsWith s p = true <-> exists t, s = p ++ t.
Proof.
  revert s; induction p as [|a p IH]; intros s; simpl.
  - split; [intros _; now exists s | reflexivity].
  - destruct s as [|b s].
    + split; [discriminate | intros [t H]; discriminate].
    + rewrite andb_true_iff, IH. split.
      * intros [Hab [t ->]]. apply Ascii.eqb_eq in Hab as ->. now exists t.
      * intros [t H]. injection H as -> ->. split; [apply Ascii.eqb_refl | now exists t].
Qed.

Lemma includes_spec (s p : string) :
  Js.includes s p = true <-> exists pre post, s = pre ++ p ++ post.
Proof.
  induction s as [|c s IH].
  - cbn [Js.includes]. rewrite orb_false_r, startsWith_spec. split.
    + intros [t ->]. now exists "", t.
    + intros [pre [post H]]. destruct pre; [now exists post | discriminate].
  - cbn [Js.includes]. rewrite orb_true_iff, startsWith_spec, IH. split.
    + intros [[t ->] | [pre [post ->]]].
      * now exists "", t.
      * now exists (String c pre), post.
    + intros [pre [post H]]. destruct pre as [|c' pre].
      * left. now exists post.
      * right. injection H as -> ->. now exists pre, post.
Qed.

Lemma toLowerCase_app (a b : string) :
  Js.toLowerCase (a ++ b) = Js.toLowerCase a ++ Js.toLowerCase b.
Proof. induction a as [|c a IH]; simpl; [reflexivity | now rewrite IH]. Qed.

Lemma toLowerCase_split (m x y : string) :
  Js.toLowerCase m = x ++ y ->
  exists a b, m = a ++ b /\ Js.toLowerCase a = x /\ Js.toLowerCase b = y.
Proof.
  revert m; induction x as [|c x IH]; intros m H.
  - now exists "", m.
  - destruct m as [|d m]; [discriminate|].
    simpl in H. injection H as Hc Hrest.
    destruct (IH m Hrest) as [a [b [-> [Ha Hb]]]].
    exists (String d a), b. simpl. now rewrite Ha, Hc.
Qed.

Lemma same_ci_lower (s t : string) :
  Js.same_ci s t <-> Js.toLowerCase s = Js.toLowerCase t.
Proof.
  split.
  - induction 1 as [|a b s t Hab _ IH]; simpl; [reflexivity | now rewrite Hab, IH].
  - revert t; induction s as [|a s IH]; intros [|b t] H; try discriminate.
    + constructor.
    + simpl in H. injection H as Hab Hst. constructor; auto.
Qed.

(** Searching the lower-cased name for a lower-case pattern is searching
    the name with the letter case ignored. *)
Lemma includes_lower_ci (m p : string) :
  Js.toLowerCase p = p ->
  Js.includes (Js.toLowerCase m) p = true <-> Js.contains_ci m p.
Proof.
  intros Hp. rewrite includes_spec. unfold Js.contains_ci. split.
  - intros [pre' [post' H]].
    apply toLowerCase_split in H as [pre [rest [-> [_ H]]]].
    apply toLowerCase_split in H as [mid [post [-> [Hmid _]]]].
    exists pre, mid, post. split; [reflexivity|].
    apply same_ci_lower. now rewrite Hp.
  - intros [pre [mid [post [-> H]]]].
    apply same_ci_lower in H. rewrite Hp in H.
    exists (Js.toLowerCase pre), (Js.toLowerCase post).
    now rewrite !toLowerCase_app, H.
Qed.

Lemma includes_lower_ci_false (m p : string) :
  Js.toLowerCase p = p ->
  Js.includes (Js.toLowerCase m) p = false <-> ~ Js.contains_ci m p.
Proof.
  intros Hp. rewrite <- (includes_lower_ci m p Hp).
  destruct (Js.includes (Js.toLowerCase m) p); split; congruence.
Qed.

(** ** Model normalization *)

(** C8. The normalized model is the codex variant when the name contains
    "codex" in any letter case; it is the base variant when the name does not
    but contains "gpt-5" or "gpt 5" in any letter case; and it is the base
    variant for every other name and for an absent name. *)
Theorem normalizeModel_spec (model : option string) :
  (forall m, model = Some m -> Js.contains_ci m "codex" ->
             Transform.normalizeModel model = Transform.CODEX_MODEL) /\
  (forall m, model = Some m -> ~ Js.contains_ci m "codex" ->
             Js.contains_ci m "gpt-5" \/ Js.contains_ci m "gpt 5" ->
             Transform.normalizeModel model = Transform.BASE_MODEL) /\
  (model = None \/
   (exists m, model = Some m /\ ~ Js.contains_ci m "codex" /\
              ~ Js.contains_ci m "gpt-5" /\ ~ Js.contains_ci m "gpt 5") ->
   Transform.normalizeModel model = Transform.BASE_MODEL).
Proof.
  assert (Hbase : forall m, ~ Js.contains_ci m "codex" ->
                            Transform.normalizeModel (Some m) = Transform.BASE_MODEL).
  { intros m Hc. unfold Transform.normalizeModel.
    apply includes_lower_ci_false in Hc; [|reflexivity]. rewrite Hc.
    destruct (String.eqb m ""); [reflexivity|].
    now destruct (_ || _). }
  split; [|split].
  - intros m -> Hc. unfold Transform.normalizeModel.
    destruct (String.eqb_spec m "") as [->|_].
    + destruct Hc as [pre [mid [post [H Hci]]]].
      destruct pre; [|discriminate]. destruct mid; [inversion Hci | discriminate].
    + apply includes_lower_ci in Hc; [|reflexivity]. now rewrite Hc.
  - intros m -> Hc _. now apply Hbase.
  - intros [-> | [m [-> [Hc _]]]]; [reflexivity | now apply Hbase].
Qed.

Lemma normalizeModel_spec_witness :
  Transform.normalizeModel (Some "gpt-5-Codex-high") = Transform.CODEX_MODEL /\
  Transform.normalizeModel (Some "GPT 5") = Transform.BASE_MODEL /\
  Transform.normalizeModel (@None string) = Transform.BASE_MODEL.
Proof.
  split; [|split].
  - apply (proj1 (normalizeModel_spec (Some "gpt-5-Codex-high"))
             "gpt-5-Codex-high" eq_refl).
    exists "gpt-5-", "Codex", "-high". split; [reflexivity|].
    repeat constructor.
  - apply (proj1 (proj2 (normalizeModel_spec (Some "GPT 5"))) "GPT 5" eq_refl).
    + intros H. apply includes_lower_ci in H; [discriminate | reflexivity].
    + right. exists "", "GPT 5", "". split; [reflexivity|]. repeat constructor.
  - apply (proj2 (proj2 (normalizeModel_spec None))). now left.
Defined.

(** ** Reasoning effort *)

Lemma getReasoningConfig_downgrades (m : string) (cfg : Transform.ConfigOptions) :
  Js.includes m "codex" = true ->
  Transform.effort (Transform.getReasoningConfig (Some m) cfg) <> Transform.E_minimal.
Proof.
  intros H. unfold Transform.getReasoningConfig. cbn [Transform.maybeIncludes Transform.effort].
  rewrite H.
  destruct (Transform.reasoningEffort cfg) as [[]|];
    try discriminate; destruct (_ || _); discriminate.
Qed.

(** C4, at the input where the code departs from it.  The name
    "gpt-5-Codex-mini" normalizes to the codex variant and its effort
    resolves to "minimal" by the lightweight default; the transformed body
    carries the codex model with effort "minimal", not "low": the test for
    the codex variant in [getReasoningConfig] is sensitive to letter case. *)
Theorem codex_minimal_not_downgraded :
  Js.contains_ci "gpt-5-Codex-mini" "codex" /\
  Transform.normalizeModel (Some "gpt-5-Codex-mini") = Transform.CODEX_MODEL /\
  Transform.effort
    (Transform.getReasoningConfig (Some "gpt-5-Codex-mini") Transform.noOptions)
  = Transform.E_minimal /\
  forall nts profile guide remap bridge prompt instr mode,
  exists out,
    Transform.transformRequestBody nts profile guide remap bridge prompt
      [("model", JStr "gpt-5-Codex-mini"); ("input", JArr [])]
      instr Transform.emptyUserConfig mode = Ok out /\
    Obj.get out "model" = JStr "gpt-5-codex" /\
    Obj.get out "reasoning"
    = JObj [("effort", JStr "minimal"); ("summary", JStr "auto")].
Proof.
  split; [|split; [|split]].
  - exists "gpt-5-", "Codex", "-mini". split; [reflexivity | repeat constructor].
  - reflexivity.
  - reflexivity.
  - intros. destruct mode; eexists; (split; [reflexivity | split; reflexivity]).
Qed.

(** ** Input filtering *)

Lemma ofilterM_map {A B} (p : B -> Outcome bool) (f : A -> B) (q : A -> bool)
    (l : list A) :
  (forall a, p (f a) = Ok (q a)) ->
  ofilterM p (map f l) = Ok (map f (filter q l)).
Proof.
  intros H. induction l as [|a l IH]; simpl; [reflexivity|].
  rewrite H, IH. simpl. now destruct (q a).
Qed.

Lemma omapM_map {A B} (g : B -> Outcome B) (f : A -> B) (h : A -> A) (l : list A) :
  (forall a, g (f a) = Ok (f (h a))) ->
  omapM g (map f l) = Ok (map f (map h l)).
Proof.
  intros H. induction l as [|a l IH]; simpl; [reflexivity|].
  now rewrite H, IH.
Qed.

Lemma get_delete_same (o : object) (k : string) :
  Obj.get (Obj.delete o k) k = JUndefined.
Proof.
  induction o as [|[k' v] o IH]; simpl; [reflexivity|].
  destruct (String.eqb k' k) eqn:E; [assumption|]. simpl. now rewrite E.
Qed.

Lemma get_delete_other (o : object) (k j : string) :
  j <> k -> Obj.get (Obj.delete o k) j = Obj.get o j.
Proof.
  intros Hjk. induction o as [|[k' v] o IH]; simpl; [reflexivity|].
  destruct (String.eqb_spec k' k) as [->|Hk]; simpl.
  - destruct (String.eqb_spec k j) as [->|_]; [congruence | assumption].
  - now rewrite IH.
Qed.

Lemma filterInput_objects (items : list object) :
  Transform.filterInput (JArr (map JObj items))
  = Ok (JArr (map JObj
                (map Spec.stripped
                   (filter (fun o => negb (Spec.isItemReference o)) items)))).
Proof.
  unfold Transform.filterInput.
  rewrite (ofilterM_map _ JObj (fun o => negb (Spec.isItemReference o)))
    by reflexivity.
  cbn [obind].
  rewrite (omapM_map _ JObj Spec.stripped).
  - reflexivity.
  - intros o. unfold Spec.stripped, Spec.hasId. simpl.
    now destruct (truthy (Obj.get o "id")).
Qed.

(** C5, as the code has it.  On a list of input items the filter returns,
    in their original order and with nothing merged or dropped, the items
    whose type is not "item_reference"; an item whose identifier is a
    non-empty string (or another value that counts as true) comes back
    without its [id] field and otherwise unchanged, every other item comes
    back as it is; no returned item has such an identifier. *)
Theorem filterInput_spec (items : list object) :
  exists out,
    Transform.filterInput (JArr (map JObj items)) = Ok (JArr (map JObj out)) /\
    Forall2 (fun o o' => (forall k, k <> "id" -> Obj.get o' k = Obj.get o k) /\
                         if Spec.hasId o then o' = Obj.delete o "id" else o' = o)
            (filter (fun o => negb (Spec.isItemReference o)) items) out /\
    Forall (fun o' => Spec.hasId o' = false) out.
Proof.
  eexists. split; [apply filterInput_objects|]. split.
  - induction (filter _ items) as [|o l IH]; simpl; constructor; [|exact IH].
    unfold Spec.stripped. destruct (Spec.hasId o); split; auto.
    intros k Hk. now apply get_delete_other.
  - apply Forall_forall. intros o' Hin.
    apply in_map_iff in Hin as [o [<- _]].
    unfold Spec.stripped. destruct (Spec.hasId o) eqn:E; [|exact E].
    unfold Spec.hasId. now rewrite get_delete_same.
Qed.

(** C5 as stated fails: an item whose identifier is the empty string is
    returned with its identifier field. *)
Lemma filterInput_keeps_empty_id :
  Transform.filterInput
    (JArr [JObj [("id", JStr ""); ("type", JStr "message"); ("role", JStr "user")]])
  = Ok (JArr [JObj [("id", JStr ""); ("type", JStr "message"); ("role", JStr "user")]])
  /\ Spec.carriesId [("id", JStr ""); ("type", JStr "message"); ("role", JStr "user")]
     = true.
Proof. split; reflexivity. Qed.

(** ** Credential validity *)

(** C6. A credential record is valid at time [now] exactly when
    [expires - now > 60000]. *)
Theorem hasValidAccess_iff (creds : Auth.StoredCredentials) (now : Z) :
  Auth.hasValidAccess (Some creds) now = true <-> (Auth.expires creds - now > 60000)%Z.
Proof.
  unfold Auth.hasValidAccess, Auth.bufferMs. rewrite Z.ltb_lt. lia.
Qed.

Lemma get_set_same (o : object) (k : string) (v : jsval) :
  Obj.get (Obj.set o k v) k = v.
Proof.
  induction o as [|[k' v'] o IH]; simpl.
  - now rewrite String.eqb_refl.
  - destruct (String.eqb k' k) eqn:E; simpl.
    + now rewrite String.eqb_refl.
    + now rewrite E.
Qed.

Lemma get_set_other (o : object) (k j : string) (v : jsval) :
  j <> k -> Obj.get (Obj.set o k v) j = Obj.get o j.
Proof.
  intros Hjk. induction o as [|[k' v'] o IH]; simpl.
  - destruct (String.eqb_spec k j); [congruence | reflexivity].
  - destruct (String.eqb_spec k' k) as [->|Hk]; simpl.
    + destruct (String.eqb_spec k j); [congruence|].
      destruct (String.eqb_spec k j); [congruence | reflexivity].
    + now rewrite IH.
Qed.

(** ** Path normalization *)

Ltac each_char c := destruct c as [[] [] [] [] [] [] [] []]; try reflexivity.

(** [normalizePath] computes the normalized path of the specification. *)
Lemma normalizePath_normalized (pathname : string) :
  Proxy.normalizePath pathname = Spec.normalizedPath pathname.
Proof.
  destruct pathname as [|c1 p]; [reflexivity|]. each_char c1.
  destruct p as [|c2 p]; [reflexivity|]. each_char c2.
  destruct p as [|c3 p]; [reflexivity|]. each_char c3.
  destruct p as [|c4 p]; [reflexivity|]. each_char c4.
Qed.

(** ** Dispatch and the request handlers *)

Section ProxyFacts.

Variable env : string -> option string.
Variable JSON_parse : string -> Outcome object.
Variable JSON_stringify : jsval -> string.
Variable randomUUID : string.
Variable CODEX_BASE_URL : string.
Variable rewriteUrlForCodex : string -> string.
Variable createCodexHeaders : string -> string -> jsval -> jsval -> Proxy.Headers.
Variable fetch : string -> Proxy.Headers -> string -> Outcome Proxy.Response.
Variable convertSseToJson : Proxy.Response -> Outcome Proxy.Response.
Variable consumesBody : Proxy.Response -> bool.
Variable transformRequestForCodex :
  string -> string -> string -> Transform.UserConfig -> bool ->
  Outcome (option Proxy.Transformation).
Variable getCodexInstructions : Outcome string.

Local Abbreviation handle :=
  (Proxy.handleResponsesEndpoint env JSON_parse JSON_stringify randomUUID
     CODEX_BASE_URL rewriteUrlForCodex createCodexHeaders fetch convertSseToJson
     transformRequestForCodex).
Local Abbreviation handleMinimal :=
  (Proxy.handleResponsesEndpointMinimal env JSON_parse JSON_stringify randomUUID
     CODEX_BASE_URL rewriteUrlForCodex createCodexHeaders fetch convertSseToJson
     consumesBody getCodexInstructions).
Local Abbreviation server :=
  (Proxy.server env JSON_parse JSON_stringify randomUUID
     CODEX_BASE_URL rewriteUrlForCodex createCodexHeaders fetch convertSseToJson
     transformRequestForCodex).
Local Abbreviation serverMinimal :=
  (Proxy.serverMinimal env JSON_parse JSON_stringify randomUUID
     CODEX_BASE_URL rewriteUrlForCodex createCodexHeaders fetch convertSseToJson
     consumesBody getCodexInstructions).

Lemma bind_Forall {A B} (P : Proxy.Action -> Prop) (m : Proxy.Eff A)
    (k : A -> Proxy.Eff B) :
  Forall P (fst m) -> (forall a, Forall P (fst (k a))) ->
  Forall P (fst (Proxy.bind m k)).
Proof.
  intros Hm Hk. destruct m as [l [a|e]]; cbn in *; [|exact Hm].
  specialize (Hk a). destruct (k a) as [l' r]. cbn in *.
  apply Forall_app. now split.
Qed.

Lemma tryCatch_Forall {A} (P : Proxy.Action -> Prop) (m : Proxy.Eff A)
    (h : string -> Proxy.Eff A) :
  Forall P (fst m) -> (forall e, Forall P (fst (h e))) ->
  Forall P (fst (Proxy.tryCatch m h)).
Proof.
  intros Hm Hh. destruct m as [l [a|e]]; cbn in *; [exact Hm|].
  specialize (Hh e). destruct (h e) as [l' r]. cbn in *.
  apply Forall_app. now split.
Qed.

Ltac walk :=
  repeat first
    [ apply bind_Forall; [|intros ?]
    | apply tryCatch_Forall; [|intros ?]
    | match goal with
      | |- Forall _ (fst (if ?c then _ else _)) => destruct c
      | |- Forall _ (fst (match ?c with _ => _ end)) => destruct c
      end
    | progress cbv zeta
    | progress unfold Proxy.callUpstream, Proxy.logUpstreamError,
        Proxy.forwardResponse, Proxy.sendJson, Proxy.act, Proxy.lift, Proxy.ret
    | progress cbn [fst] ];
  repeat match goal with
         | |- Forall _ (_ :: _) => apply Forall_cons
         | |- Forall _ [] => apply Forall_nil
         end;
  cbn; auto.

Lemma handle_ownStatus (x : Proxy.Exchange) (context : Proxy.ProxyContext) :
  Forall Spec.ownStatus (fst (handle x context)).
Proof. unfold Proxy.handleResponsesEndpoint. walk. Qed.

Lemma handleMinimal_ownStatus (x : Proxy.Exchange) :
  Forall Spec.ownStatus (fst (handleMinimal x)).
Proof. unfold Proxy.handleResponsesEndpointMinimal. walk. Qed.

Lemma health_not_proxied (x : Proxy.Exchange) :
  Spec.healthCheck x = true -> Spec.proxiedPath x = false.
Proof.
  unfold Spec.healthCheck, Spec.proxiedPath. intros H.
  apply andb_true_iff in H as [_ H]. apply String.eqb_eq in H. now rewrite H.
Qed.

Lemma route_cases (x : Proxy.Exchange) :
  Proxy.route (Proxy.method x) (Proxy.pathname x)
  = if Spec.healthCheck x then Proxy.ToHealth
    else if Spec.proxiedPath x then Proxy.ToResponses
    else Proxy.ToNotFound.
Proof.
  unfold Proxy.route, Spec.healthCheck, Spec.proxiedPath.
  now rewrite normalizePath_normalized.
Qed.

Lemma guarded_In (P : Proxy.Action -> Prop) (e : Proxy.Eff unit) (a : Proxy.Action) :
  Forall P (fst e) -> In a (Proxy.guarded e) ->
  P a \/ a = Proxy.EndResponse
  \/ a = Proxy.SendJson 500 (Proxy.errorPayload "Internal server error").
Proof.
  intros HP Hin. destruct e as [l [u|err]]; cbn in *.
  - left. rewrite Forall_forall in HP. auto.
  - destruct (Proxy.headersSent l);
      apply in_app_or in Hin as [Hin | [<- | []]]; auto;
      left; rewrite Forall_forall in HP; auto.
Qed.

Lemma route_examples (m : string) :
  Proxy.route m "/responses/extra" = Proxy.ToResponses /\
  Proxy.route m "/responsesfoo" = Proxy.ToResponses /\
  Proxy.route m "/v1/responses" = Proxy.ToResponses.
Proof.
  unfold Proxy.route. cbn. now destruct (m =? "GET")%string.
Qed.

Lemma own_404 (e : Proxy.Eff unit) (payload : jsval) :
  Forall Spec.ownStatus (fst e) ->
  ~ In (Proxy.SendJson 404 payload) (Proxy.guarded e).
Proof.
  intros Hown Hin.
  apply (guarded_In Spec.ownStatus) in Hin; [|exact Hown].
  cbn in Hin. destruct Hin as [[H|[H|H]]|[H|H]]; discriminate.
Qed.

Lemma server_404 (context : Proxy.ProxyContext) (x : Proxy.Exchange)
    (payload : jsval) :
  In (Proxy.SendJson 404 payload) (server context x) \/
  In (Proxy.SendJson 404 payload) (serverMinimal x) ->
  Proxy.route (Proxy.method x) (Proxy.pathname x) = Proxy.ToNotFound.
Proof.
  unfold Proxy.server, Proxy.serverMinimal, Proxy.requestListener.
  destruct (Proxy.route _ _); [| |reflexivity]; intros [H|H]; exfalso.
  - cbn in H. destruct H as [H|[]]. discriminate.
  - cbn in H. destruct H as [H|[]]. discriminate.
  - revert H. apply own_404, handle_ownStatus.
  - revert H. apply own_404, handleMinimal_ownStatus.
Qed.

Lemma proxiedPath_prefix (x : Proxy.Exchange) :
  Spec.proxiedPath x = true
  <-> exists rest, Spec.normalizedPath (Proxy.pathname x) = "/responses" ++ rest.
Proof. apply startsWith_spec. Qed.

Lemma normalizedPath_cases (pathname : string) :
  (forall rest, pathname = "/v1/" ++ rest ->
                Spec.normalizedPath pathname = "/" ++ rest) /\
  (pathname = "/v1" -> Spec.normalizedPath pathname = "/") /\
  (Js.startsWith pathname "/" = true ->
   Js.startsWith pathname "/v1/" = false -> pathname <> "/v1" ->
   Spec.normalizedPath pathname = pathname) /\
  (Js.startsWith pathname "/" = false ->
   Spec.normalizedPath pathname = "/" ++ pathname).
Proof.
  rewrite <- normalizePath_normalized. unfold Proxy.normalizePath.
  split; [|split; [|split]].
  - now intros rest ->.
  - now intros ->.
  - intros -> -> Hne. apply String.eqb_neq in Hne. now rewrite Hne.
  - now intros ->.
Qed.

Lemma route_not_found (m : string) :
  Proxy.route m "/" = Proxy.ToNotFound /\
  Proxy.route m "/other" = Proxy.ToNotFound /\
  Proxy.route m "/v1" = Proxy.ToNotFound /\
  Proxy.route m "/v1responses" = Proxy.ToNotFound /\
  Proxy.route m "/v2/responses" = Proxy.ToNotFound /\
  Proxy.route m "/api/responses" = Proxy.ToNotFound /\
  Proxy.route m "/response" = Proxy.ToNotFound.
Proof.
  unfold Proxy.route. cbn. now rewrite !andb_false_r.
Qed.

(** C10. The normalized path of a request is its path with a leading
    slash ensured and the version prefix stripped, as the specification
    words it.  A request goes to the handler of the responses endpoint
    exactly when that path starts with "/responses": "/responses/extra"
    and "/responsesfoo" are proxied for every method, and so is
    "/v1/responses".  The server answers 404 only when the normalized path
    fails that test and the request is not a GET of "/health", and in that
    case it answers 404 "Not found" and nothing else: so it does for "/",
    "/other", "/v1", "/v1responses", "/v2/responses" and "/response", and
    for "/health" under another method than GET. *)
Theorem dispatch_rule (context : Proxy.ProxyContext) (x : Proxy.Exchange) :
  (forall pathname,
      Proxy.normalizePath pathname = Spec.normalizedPath pathname /\
      (forall rest, pathname = "/v1/" ++ rest ->
                    Proxy.normalizePath pathname = "/" ++ rest) /\
      (pathname = "/v1" -> Proxy.normalizePath pathname = "/") /\
      (Js.startsWith pathname "/" = true ->
       Js.startsWith pathname "/v1/" = false -> pathname <> "/v1" ->
       Proxy.normalizePath pathname = pathname) /\
      (Js.startsWith pathname "/" = false ->
       Proxy.normalizePath pathname = "/" ++ pathname)) /\
  (Spec.proxiedPath x = true
   <-> exists rest,
         Spec.normalizedPath (Proxy.pathname x) = "/responses" ++ rest) /\
  (Proxy.route (Proxy.method x) (Proxy.pathname x) = Proxy.ToResponses
   <-> Spec.proxiedPath x = true) /\
  (Spec.proxiedPath x = true ->
   server context x = Proxy.guarded (handle x context) /\
   serverMinimal x = Proxy.guarded (handleMinimal x)) /\
  (forall payload,
      In (Proxy.SendJson 404 payload) (server context x) \/
      In (Proxy.SendJson 404 payload) (serverMinimal x) ->
      Spec.proxiedPath x = false /\ Spec.healthCheck x = false) /\
  (Spec.proxiedPath x = false -> Spec.healthCheck x = false ->
   server context x = [Proxy.SendJson 404 (Proxy.errorPayload "Not found")] /\
   serverMinimal x = [Proxy.SendJson 404 (Proxy.errorPayload "Not found")]) /\
  (forall m, Proxy.route m "/responses/extra" = Proxy.ToResponses /\
             Proxy.route m "/responsesfoo" = Proxy.ToResponses /\
             Proxy.route m "/v1/responses" = Proxy.ToResponses) /\
  (forall m, Proxy.route m "/" = Proxy.ToNotFound /\
             Proxy.route m "/other" = Proxy.ToNotFound /\
             Proxy.route m "/v1" = Proxy.ToNotFound /\
             Proxy.route m "/v1responses" = Proxy.ToNotFound /\
             Proxy.route m "/v2/responses" = Proxy.ToNotFound /\
             Proxy.route m "/api/responses" = Proxy.ToNotFound /\
             Proxy.route m "/response" = Proxy.ToNotFound) /\
  Proxy.route "POST" "/health" = Proxy.ToNotFound /\
  Proxy.route "GET" "/v1/health" = Proxy.ToHealth.
Proof.
  pose proof (health_not_proxied x) as Hh.
  pose proof (route_cases x) as Hr.
  split; [|split; [|split; [|split; [|split; [|split; [|split; [|split]]]]]]].
  - intros pathname. rewrite normalizePath_normalized.
    split; [reflexivity | apply normalizedPath_cases].
  - apply proxiedPath_prefix.
  - rewrite Hr. destruct (Spec.healthCheck x), (Spec.proxiedPath x);
      split; intros H; try discriminate; auto.
    now specialize (Hh eq_refl).
  - intros Hp.
    unfold Proxy.server, Proxy.serverMinimal, Proxy.requestListener.
    rewrite Hr, Hp.
    destruct (Spec.healthCheck x); [specialize (Hh eq_refl); congruence|].
    now split.
  - intros payload H. apply server_404 in H. rewrite Hr in H.
    destruct (Spec.healthCheck x), (Spec.proxiedPath x);
      try discriminate; now split.
  - intros Hp He.
    unfold Proxy.server, Proxy.serverMinimal, Proxy.requestListener.
    rewrite Hr, Hp, He. now split.
  - apply route_examples.
  - apply route_not_found.
  - split; reflexivity.
Qed.

(** The answers the handlers give before any upstream call.  At the
    responses endpoint a method other than POST is answered 405 "Method not
    allowed"; a POST with an empty body 400 "Request body is required"; a
    POST whose body does not parse 400 with a message that begins "Invalid
    JSON body:"; a POST that finds [authState.credentials] absent once
    [ensureFreshCredentials] has returned 401 "Authentication required".
    In each of these cases only that answer is produced and no upstream
    call.  A POST whose [ensureFreshCredentials] rejects makes the handler
    throw before any upstream call, and the listener answers 500 "Internal
    server error". *)
Theorem error_mapping (context : Proxy.ProxyContext) (x : Proxy.Exchange) :
  (Proxy.method x <> "POST" ->
   Spec.AnswersOnly (handle x context) 405 (Proxy.errorPayload "Method not allowed") /\
   Spec.AnswersOnly (handleMinimal x) 405 (Proxy.errorPayload "Method not allowed")) /\
  (Proxy.method x = "POST" -> Proxy.rawBody x = Ok "" ->
   Spec.AnswersOnly (handle x context) 400
     (Proxy.errorPayload "Request body is required") /\
   Spec.AnswersOnly (handleMinimal x) 400
     (Proxy.errorPayload "Request body is required")) /\
  (forall raw message,
      Proxy.method x = "POST" -> Proxy.rawBody x = Ok raw -> raw <> "" ->
      JSON_parse raw = Throw message ->
      Spec.AnswersOnly (handle x context) 400
        (Proxy.errorPayload ("Invalid JSON body: " ++ message)) /\
      Spec.AnswersOnly (handleMinimal x) 400
        (Proxy.errorPayload ("Invalid JSON body: " ++ message))) /\
  (forall raw parsed,
      Proxy.method x = "POST" -> Proxy.rawBody x = Ok raw -> raw <> "" ->
      JSON_parse raw = Ok parsed ->
      Proxy.ensured x = Ok None ->
      Spec.AnswersOnly (handle x context) 401
        (Proxy.errorPayload "Authentication required") /\
      Spec.AnswersOnly (handleMinimal x) 401
        (Proxy.errorPayload "Authentication required")) /\
  (forall raw parsed err,
      Proxy.method x = "POST" -> Proxy.rawBody x = Ok raw -> raw <> "" ->
      JSON_parse raw = Ok parsed ->
      Proxy.ensured x = Throw err ->
      handle x context = ([], Throw err) /\
      handleMinimal x = ([], Throw err) /\
      Proxy.guarded (handle x context)
      = [Proxy.SendJson 500 (Proxy.errorPayload "Internal server error")] /\
      Proxy.guarded (handleMinimal x)
      = [Proxy.SendJson 500 (Proxy.errorPayload "Internal server error")]).
Proof.
  unfold Spec.AnswersOnly, Proxy.handleResponsesEndpoint,
    Proxy.handleResponsesEndpointMinimal.
  split; [|split; [|split; [|split]]].
  - intros Hm. apply String.eqb_neq in Hm. rewrite Hm. cbn. auto.
  - intros Hm Hraw. rewrite Hm, Hraw. cbn. auto.
  - intros raw message Hm Hraw Hne Hparse.
    apply String.eqb_neq in Hne. rewrite Hm, Hraw. cbn. rewrite Hne, Hparse.
    cbn. auto.
  - intros raw parsed Hm Hraw Hne Hparse Hauth.
    apply String.eqb_neq in Hne. rewrite Hm, Hraw. cbn. rewrite Hne, Hparse, Hauth.
    cbn. auto.
  - intros raw parsed err Hm Hraw Hne Hparse Hauth.
    apply String.eqb_neq in Hne. rewrite Hm, Hraw. cbn. rewrite Hne, Hparse, Hauth.
    cbn. auto.
Qed.

Lemma guarded_Ok (e : Proxy.Eff unit) (u : unit) :
  snd e = Ok u -> Proxy.guarded e = fst e.
Proof. destruct e as [l o]. cbn. now intros ->. Qed.

Lemma bind_lift_Ok {A B} (a : A) (k : A -> Proxy.Eff B) :
  Proxy.bind (Proxy.lift (Ok a)) k = k a.
Proof. cbn. now destruct (k a). Qed.

Lemma fst_bind {A B} (m : Proxy.Eff A) (k : A -> Proxy.Eff B) :
  fst (Proxy.bind m k)
  = (fst m ++ match snd m with Ok a => fst (k a) | Throw _ => [] end)%list.
Proof.
  destruct m as [l [a|e]]; cbn; [now destruct (k a) | now rewrite app_nil_r].
Qed.

Lemma snd_bind {A B} (m : Proxy.Eff A) (k : A -> Proxy.Eff B) :
  snd (Proxy.bind m k)
  = match snd m with Ok a => snd (k a) | Throw e => Throw e end.
Proof. destruct m as [l [a|e]]; cbn; [now destruct (k a) | reflexivity]. Qed.

(** Only the guard behind [ensureFreshCredentials] answers 401. *)
Lemma handle_401 (x : Proxy.Exchange) (context : Proxy.ProxyContext) :
  Forall (fun a => match a with
                   | Proxy.SendJson s _ => s = 401%Z -> Proxy.ensured x = Ok None
                   | _ => True
                   end) (fst (handle x context)).
Proof.
  unfold Proxy.handleResponsesEndpoint.
  destruct (negb (String.eqb (Proxy.method x) "POST"));
    [repeat constructor; discriminate|].
  destruct (Proxy.rawBody x) as [raw|err];
    [rewrite bind_lift_Ok | constructor].
  destruct (String.eqb raw ""); [repeat constructor; discriminate|].
  destruct (JSON_parse raw) as [parsed|message];
    [|repeat constructor; discriminate].
  cbv zeta.
  destruct (Proxy.ensured x) as [[creds|]|err];
    [rewrite bind_lift_Ok | repeat constructor | constructor].
  walk.
Qed.

Lemma handleMinimal_401 (x : Proxy.Exchange) :
  Forall (fun a => match a with
                   | Proxy.SendJson s _ => s = 401%Z -> Proxy.ensured x = Ok None
                   | _ => True
                   end) (fst (handleMinimal x)).
Proof.
  unfold Proxy.handleResponsesEndpointMinimal.
  destruct (negb (String.eqb (Proxy.method x) "POST"));
    [repeat constructor; discriminate|].
  destruct (Proxy.rawBody x) as [raw|err];
    [rewrite bind_lift_Ok | constructor].
  destruct (String.eqb raw ""); [repeat constructor; discriminate|].
  destruct (JSON_parse raw) as [parsed|message];
    [|repeat constructor; discriminate].
  cbv zeta.
  destruct (Proxy.ensured x) as [[creds|]|err];
    [rewrite bind_lift_Ok | repeat constructor | constructor].
  walk.
Qed.

Lemma server_401 (context : Proxy.ProxyContext) (x : Proxy.Exchange)
    (payload : jsval) :
  In (Proxy.SendJson 401 payload) (server context x) \/
  In (Proxy.SendJson 401 payload) (serverMinimal x) ->
  Proxy.ensured x = Ok None.
Proof.
  unfold Proxy.server, Proxy.serverMinimal, Proxy.requestListener.
  destruct (Proxy.route _ _).
  - intros [[H|[]]|[H|[]]]; discriminate.
  - intros [H|H];
      [apply (guarded_In _ _ _ (handle_401 x context)) in H
      |apply (guarded_In _ _ _ (handleMinimal_401 x)) in H];
      destruct H as [H|[H|H]]; try discriminate; exact (H eq_refl).
  - intros [[H|[]]|[H|[]]]; discriminate.
Qed.

Lemma proxied_servers (context : Proxy.ProxyContext) (x : Proxy.Exchange) :
  Spec.proxiedPath x = true ->
  server context x = Proxy.guarded (handle x context) /\
  serverMinimal x = Proxy.guarded (handleMinimal x).
Proof.
  intros Hp. pose proof (health_not_proxied x) as Hh.
  unfold Proxy.server, Proxy.serverMinimal, Proxy.requestListener.
  rewrite route_cases, Hp.
  destruct (Spec.healthCheck x); [specialize (Hh eq_refl); congruence|].
  now split.
Qed.

(** A call that rejects: the handler throws before it has done anything,
    and the listener answers 500. *)
Lemma rejected_call_500 (context : Proxy.ProxyContext) (x : Proxy.Exchange)
    (raw : string) (parsed : object) (err : string) :
  Spec.proxiedPath x = true -> Proxy.method x = "POST" ->
  Proxy.rawBody x = Ok raw -> raw <> "" -> JSON_parse raw = Ok parsed ->
  Proxy.ensured x = Throw err ->
  server context x
  = [Proxy.SendJson 500 (Proxy.errorPayload "Internal server error")] /\
  serverMinimal x
  = [Proxy.SendJson 500 (Proxy.errorPayload "Internal server error")].
Proof.
  intros Hp Hm Hraw Hne Hparse Hauth.
  destruct (proxied_servers context x Hp) as [-> ->].
  apply String.eqb_neq in Hne.
  unfold Proxy.handleResponsesEndpoint, Proxy.handleResponsesEndpointMinimal.
  rewrite Hm, Hraw. cbn. rewrite Hne, Hparse, Hauth. cbn. auto.
Qed.

Local Abbreviation rewriteBody := (Proxy.rewriteBody env getCodexInstructions).
Local Abbreviation fallback := (Proxy.fallbackInstructions env getCodexInstructions).

Lemma get_resolveInstructions (b : object) :
  Obj.get (Proxy.resolveInstructions env getCodexInstructions b) "instructions"
  = JStr match Obj.get b "instructions" with
         | JStr s => if String.eqb (Js.trim s) "" then fallback else s
         | _ => fallback
         end.
Proof.
  unfold Proxy.resolveInstructions.
  destruct (Obj.get b "instructions") as [| | | |s| |] eqn:E;
    try (cbn; now rewrite get_set_same).
  destruct (String.eqb_spec s "") as [->|Hs].
  - cbn. now rewrite get_set_same.
  - destruct (String.eqb (Js.trim s) ""); [now rewrite get_set_same | exact E].
Qed.

Lemma get_rewriteBody_instructions (parsed : object) :
  Obj.get (rewriteBody parsed) "instructions"
  = JStr match Obj.get parsed "instructions" with
         | JStr s => if String.eqb (Js.trim s) "" then fallback else s
         | _ => fallback
         end.
Proof.
  unfold Proxy.rewriteBody, Proxy.ensureInclude, Proxy.rewriteInput.
  match goal with
  | |- Obj.get match ?c with _ => _ end _ = _ =>
      assert (Hinc : forall o, Obj.get match c with
                                       | JArr (_ :: _) => o
                                       | _ => Obj.set o "include"
                                                (JArr [JStr "reasoning.encrypted_content"])
                                       end "instructions"
                               = Obj.get o "instructions")
  end.
  { intros o. destruct (Obj.get _ "include") as [| | | | |[|? ?]|];
      try reflexivity; now rewrite get_set_other by discriminate. }
  rewrite Hinc. rewrite get_set_other by discriminate.
  rewrite get_resolveInstructions.
  rewrite !get_set_other by discriminate.
  destruct (truthy (Obj.get parsed "metadata"));
    [now rewrite get_delete_other by discriminate | reflexivity].
Qed.

Lemma transformRequestBody_instructions
    nts profile guide remap bridge prompt body instr cfg mode out :
  Transform.transformRequestBody nts profile guide remap bridge prompt
    body instr cfg mode = Ok out ->
  Obj.get out "instructions" = JStr instr.
Proof.
  unfold Transform.transformRequestBody.
  destruct (Transform.modelOf body) as [originalModel|]; [|discriminate].
  cbn [obind].
  match goal with
  | |- obind ?m _ = _ -> _ =>
      assert (Hm : forall b, m = Ok b -> Obj.get b "instructions" = JStr instr);
      [|destruct m as [b|]; [specialize (Hm b eq_refl)|discriminate]]
  end.
  - intros b.
    destruct (Obj.get _ "input") as [| | | | |items|];
      try (intros Hb; injection Hb as <-; now rewrite get_set_same).
    destruct (ofilterM _ items); [|discriminate]. cbn [obind].
    destruct (Transform.filterInput (JArr items)); [|discriminate]. cbn [obind].
    destruct mode.
    + destruct (Transform.filterOpenCodeSystemPrompts _ _ _); [|discriminate].
      cbn [obind]. intros Hb; injection Hb as <-.
      rewrite get_set_other by discriminate. now rewrite get_set_same.
    + cbn [obind]. intros Hb; injection Hb as <-.
      rewrite get_set_other by discriminate. now rewrite get_set_same.
  - cbn [obind]. intros Hout. injection Hout as <-.
    now rewrite !get_set_other by discriminate.
Qed.

(** C3, as the code has it.  The body the minimal handler sends upstream
    keeps the caller's instructions when they are a string with a
    character that is not white space; otherwise its instructions are the
    empty string when instruction injection is disabled, else the cached
    instruction text, or "You are Codex." when that text is empty or could
    not be loaded.  [transformRequestBody], on the other hand, always
    replaces the instructions by the instruction text it is given. *)
Theorem instructions_resolution (parsed : object) :
  Obj.get (rewriteBody parsed) "instructions"
  = JStr match Obj.get parsed "instructions" with
         | JStr s => if String.eqb (Js.trim s) "" then fallback else s
         | _ => fallback
         end /\
  fallback
  = (if Proxy.envIs env "CODEX_PROXY_DISABLE_CODEX_INSTRUCTIONS" "1" then ""
     else match getCodexInstructions with
          | Ok "" | Throw _ => "You are Codex."
          | Ok text => text
          end) /\
  forall nts profile guide remap bridge prompt body instr cfg mode,
    match Transform.transformRequestBody nts profile guide remap bridge prompt
            body instr cfg mode with
    | Ok out => Obj.get out "instructions" = JStr instr
    | Throw _ => True
    end.
Proof.
  split; [apply get_rewriteBody_instructions|]. split.
  - unfold Proxy.fallbackInstructions, Proxy.DISABLE_CODEX_INSTRUCTIONS,
      Proxy.globalCodexInstructions.
    destruct (Proxy.envIs _ _ _); [reflexivity|].
    destruct getCodexInstructions as [[|c t]|]; reflexivity.
  - intros. destruct (Transform.transformRequestBody _ _ _ _ _ _ _ _ _ _) eqn:E;
      [|exact I].
    eapply transformRequestBody_instructions; eassumption.
Qed.

End ProxyFacts.

(** ** The credential state machine *)

(** C7. When the credentials in memory are valid at the time of the call,
    [ensureFreshCredentials] returns at once; it performs no network call
    and no file input or output, and it leaves the credentials, the refresh
    handle, the token file and the pending promises as they were. *)
Theorem fast_path (decodeJWT : string -> option Auth.JWTPayload)
    (w : Auth.World) (i : nat) :
  Auth.conts w i = None ->
  Auth.hasValidAccess (Auth.credentials (Auth.authState w)) (Auth.clock w) = true ->
  Auth.conts (Auth.step decodeJWT w (Auth.Call i)) i
  = Some (Auth.Returned (Auth.credentials (Auth.authState w))) /\
  Auth.effects (Auth.step decodeJWT w (Auth.Call i)) = Auth.effects w /\
  Auth.authState (Auth.step decodeJWT w (Auth.Call i)) = Auth.authState w /\
  Auth.tokenFile (Auth.step decodeJWT w (Auth.Call i)) = Auth.tokenFile w /\
  Auth.reactions (Auth.step decodeJWT w (Auth.Call i)) = Auth.reactions w.
Proof.
  intros Hfresh Hvalid. cbn [Auth.step]. rewrite Hfresh.
  unfold Auth.ensureFreshCredentials. rewrite Hvalid. cbn.
  unfold Auth.update. rewrite Nat.eqb_refl. repeat split.
Qed.

Section SingleFlight.

Variable decodeJWT : string -> option Auth.JWTPayload.
Variable w0 : Auth.World.
Variable c : Auth.StoredCredentials.

Local Abbreviation step := (Auth.step decodeJWT).
Local Abbreviation run := (Auth.run decodeJWT).

Lemma joining_tick (ws : list nat) (w : Auth.World) (t : Z) :
  Spec.joining w0 c ws w -> Auth.hasValidAccess (Some c) t = false ->
  Spec.joining w0 c ws (step w (Auth.Tick t)).
Proof.
  intros (Hc & _ & Hf & Hout & Hin & Hws) Ht.
  repeat split; assumption.
Qed.

Lemma joining_call (ws : list nat) (w : Auth.World) (i : nat) :
  Spec.joining w0 c ws w -> ~ In i ws -> Auth.conts w0 i = None ->
  Spec.joining w0 c (ws ++ [i]) (step w (Auth.Call i)).
Proof.
  intros (Hc & Hexp & Hf & Hout & Hin & Hws) Hi Hfresh.
  assert (Hnone : Auth.conts w i = None) by (now rewrite Hout).
  cbn [Auth.step]. rewrite Hnone. unfold Auth.ensureFreshCredentials.
  rewrite Hc, Hexp.
  destruct ws as [|j ws].
  - destruct Hws as (Hp & He & Hn). rewrite Hp. cbn.
    unfold Auth.update. rewrite Hn, Nat.eqb_refl. cbn.
    unfold Spec.joining. cbn. unfold Auth.update. rewrite ?Nat.eqb_refl.
    repeat split; try assumption.
    + intros k Hk. cbn in Hk.
      destruct (Nat.eqb_spec k i) as [->|_]; [tauto | now apply Hout].
    + intros k [<-|[]]. now rewrite Nat.eqb_refl.
    + now rewrite He.
  - destruct Hws as (Hp & Hr & He). rewrite Hp. cbn. rewrite Hp, Hr. cbn.
    unfold Spec.joining. cbn. unfold Auth.update. rewrite ?Nat.eqb_refl.
    repeat split; try assumption.
    + intros k Hk.
      destruct (Nat.eqb_spec k i) as [->|_].
      * exfalso. apply Hk. cbn. right. apply in_or_app. right. now left.
      * apply Hout. intros Hk'. apply Hk. cbn in *.
        destruct Hk' as [->|Hk']; [now left | right; apply in_or_app; now left].
    + intros k Hk.
      destruct (Nat.eqb_spec k i) as [->|Hne]; [reflexivity|].
      apply Hin. cbn in *. destruct Hk as [->|Hk]; [now left|].
      apply in_app_or in Hk as [Hk|[->|[]]]; [now right | congruence].
Qed.

Lemma joining_run (es : list Auth.Event) :
  forall (ws : list nat) (w : Auth.World),
    Spec.joining w0 c ws w ->
    Forall (Spec.arrival c) es ->
    NoDup (ws ++ Spec.callersOf es) ->
    (forall i, In i (Spec.callersOf es) -> Auth.conts w0 i = None) ->
    Spec.joining w0 c (ws ++ Spec.callersOf es) (run w es).
Proof.
  induction es as [|e es IH]; intros ws w Hj Harr Hnd Hfresh.
  - cbn. now rewrite app_nil_r.
  - inversion Harr as [|? ? He Hes]; subst.
    destruct e as [i| | | |t]; try contradiction; cbn [Spec.callersOf] in *.
    + change (run w (Auth.Call i :: es)) with (run (step w (Auth.Call i)) es).
      replace (ws ++ i :: Spec.callersOf es)%list
        with ((ws ++ [i]) ++ Spec.callersOf es)%list
        by (now rewrite <- app_assoc).
      apply IH; try assumption.
      * apply joining_call; [assumption| |apply Hfresh; now left].
        apply NoDup_remove_2 in Hnd. intros Hi. apply Hnd.
        apply in_or_app. now left.
      * now rewrite <- app_assoc.
      * intros k Hk. apply Hfresh. now right.
    + change (run w (Auth.Tick t :: es)) with (run (step w (Auth.Tick t)) es).
      apply IH; try assumption. now apply joining_tick.
Qed.

Lemma resume_returned (ws : list nat) :
  forall (w : Auth.World) (fresh : Auth.StoredCredentials),
    Auth.credentials (Auth.authState w) = Some fresh ->
    Auth.authState (fold_left (fun w i => Auth.afterRefresh i w) ws w)
    = Auth.authState w /\
    Auth.effects (fold_left (fun w i => Auth.afterRefresh i w) ws w)
    = Auth.effects w /\
    forall i, In i ws ->
              Auth.conts (fold_left (fun w i => Auth.afterRefresh i w) ws w) i
              = Some (Auth.Returned (Some fresh)).
Proof.
  induction ws as [|j ws IH] using rev_ind; intros w fresh Hc.
  - cbn. repeat split. intros i [].
  - rewrite fold_left_app. cbn [fold_left].
    destruct (IH w fresh Hc) as (Ha & He & Hk).
    set (W := fold_left _ ws w) in *.
    assert (Hs : Auth.afterRefresh j W = Auth.returns j W).
    { unfold Auth.afterRefresh. now rewrite Ha, Hc. }
    rewrite Hs. unfold Auth.returns. cbn. rewrite Ha, Hc.
    repeat split; try assumption.
    intros i Hi. unfold Auth.update.
    destruct (Nat.eqb_spec i j) as [->|Hne]; [reflexivity|].
    apply in_app_or in Hi as [Hi|[->|[]]]; [now apply Hk | congruence].
Qed.

Lemma afterRefresh_bootstrap (i : nat) (w : Auth.World) :
  Spec.settled w -> Auth.afterRefresh i w = Auth.bootstrapCredentials i w.
Proof.
  unfold Auth.afterRefresh, Auth.bootstrapCredentials.
  intros [Hn|Hv]; [now rewrite Hn|]. rewrite Hv.
  destruct (Auth.credentials (Auth.authState w)); [reflexivity|discriminate].
Qed.

Lemma bootstrap_effect (i : nat) (w : Auth.World) :
  Spec.settled w ->
  Spec.settled (Auth.bootstrapCredentials i w) /\
  Auth.refreshPromise (Auth.authState (Auth.bootstrapCredentials i w))
  = Auth.refreshPromise (Auth.authState w) /\
  Spec.inFallback (Auth.conts (Auth.bootstrapCredentials i w) i) /\
  forall k, k <> i ->
            Auth.conts (Auth.bootstrapCredentials i w) k = Auth.conts w k.
Proof.
  intros Hs.
  assert (Hother : forall (k : nat) (f : nat -> option Auth.Cont) (v : option Auth.Cont),
             k <> i -> Auth.update f i v k = f k).
  { intros k f v Hk. unfold Auth.update. apply Nat.eqb_neq in Hk. now rewrite Hk. }
  assert (Hsame : forall (f : nat -> option Auth.Cont) (v : option Auth.Cont),
             Auth.update f i v i = v).
  { intros f v. unfold Auth.update. now rewrite Nat.eqb_refl. }
  unfold Auth.bootstrapCredentials, Auth.returns, Spec.settled, Spec.inFallback in *.
  destruct (Auth.hasValidAccess (Auth.credentials (Auth.authState w)) (Auth.clock w))
    eqn:Hv; cbn.
  - rewrite Hsame. split; [now right|]. split; [reflexivity|].
    split; [left; eauto|]. intros k Hk. now apply Hother.
  - destruct Hs as [Hn|?]; [|discriminate].
    destruct (Auth.hasValidAccess (Auth.tokenFile w) (Auth.clock w)) eqn:Hf; cbn.
    + rewrite Hsame. split; [now right|]. split; [reflexivity|].
      split; [left; eauto|]. intros k Hk. now apply Hother.
    + destruct (Auth.tokenFile w); cbn; rewrite Hsame;
        (split; [now left|]); (split; [reflexivity|]);
        (split; [right; auto|]); intros k Hk; now apply Hother.
Qed.

Lemma resume_fallback (ws : list nat) :
  forall w : Auth.World,
    Spec.settled w ->
    fold_left (fun w i => Auth.afterRefresh i w) ws w
    = fold_left (fun w i => Auth.bootstrapCredentials i w) ws w /\
    Spec.settled (fold_left (fun w i => Auth.bootstrapCredentials i w) ws w) /\
    Auth.refreshPromise
      (Auth.authState (fold_left (fun w i => Auth.bootstrapCredentials i w) ws w))
    = Auth.refreshPromise (Auth.authState w) /\
    forall i, In i ws ->
              Spec.inFallback
                (Auth.conts
                   (fold_left (fun w i => Auth.bootstrapCredentials i w) ws w) i).
Proof.
  induction ws as [|j ws IH] using rev_ind; intros w Hs.
  - cbn. repeat split; auto. intros i [].
  - rewrite !fold_left_app. cbn [fold_left].
    destruct (IH w Hs) as (Heq & Hs' & Hp & Hk).
    destruct (bootstrap_effect j _ Hs') as (Hs'' & Hp' & Hj & Hother).
    rewrite Heq, (afterRefresh_bootstrap j _ Hs').
    repeat split; try assumption.
    + now rewrite Hp'.
    + intros i Hi.
      destruct (Nat.eq_dec i j) as [->|Hne]; [exact Hj|].
      rewrite Hother by assumption.
      apply in_app_or in Hi as [Hi|[->|[]]]; [now apply Hk | congruence].
Qed.

Local Abbreviation p0 := (Auth.nextPromise w0).
Local Abbreviation resumed := (fold_left (fun w i => Auth.afterRefresh i w)).
Local Abbreviation bootstrapped :=
  (fold_left (fun w i => Auth.bootstrapCredentials i w)).

(** C1, as the code has it.  Let credentials be present and expired and
    no refresh be in flight, and let callers arrive, at times at which the
    credentials are still expired, before the refresh settles.  Then
    exactly one refresh call is issued while they arrive and nothing else
    is read or written; all callers await the one promise recorded as the
    handle.  When the refresh settles the handle is cleared before the
    first waiter resumes.  On success every caller returns, all see the
    new credentials, and the refresh call stays the only network call.  On
    failure the credentials are cleared and every caller, in arrival
    order, runs [bootstrapCredentials] itself. *)
Theorem single_flight_refresh (es : list Auth.Event) (r : Auth.TokenResult) :
  Auth.credentials (Auth.authState w0) = Some c ->
  Auth.hasValidAccess (Some c) (Auth.clock w0) = false ->
  Auth.refreshPromise (Auth.authState w0) = None ->
  Forall (Spec.arrival c) es ->
  NoDup (Spec.callersOf es) ->
  Spec.callersOf es <> [] ->
  (forall i, In i (Spec.callersOf es) -> Auth.conts w0 i = None) ->
  (* while the callers arrive *)
  Auth.effects (run w0 es)
  = (Auth.effects w0 ++ [Auth.RefreshCall (Auth.refresh c)])%list /\
  Auth.refreshPromise (Auth.authState (run w0 es)) = Some p0 /\
  Auth.reactions (run w0 es) p0 = Some (Spec.callersOf es) /\
  (forall i, In i (Spec.callersOf es) ->
             Auth.conts (run w0 es) i = Some (Auth.AwaitingRefresh p0)) /\
  (* when the refresh settles *)
  step (run w0 es) (Auth.RefreshSettled p0 r)
  = resumed (Spec.callersOf es) (Auth.settleRefresh decodeJWT p0 r (run w0 es)) /\
  Auth.refreshPromise
    (Auth.authState (Auth.settleRefresh decodeJWT p0 r (run w0 es))) = None /\
  Auth.refreshPromise
    (Auth.authState (step (run w0 es) (Auth.RefreshSettled p0 r))) = None /\
  match Auth.refreshed decodeJWT r with
  | Ok fresh =>
      Auth.credentials
        (Auth.authState (step (run w0 es) (Auth.RefreshSettled p0 r)))
      = Some fresh /\
      (forall i, In i (Spec.callersOf es) ->
                 Auth.conts (step (run w0 es) (Auth.RefreshSettled p0 r)) i
                 = Some (Auth.Returned (Some fresh))) /\
      (forall i, In i (Spec.callersOf es) ->
                 Proxy.ensuredOf (step (run w0 es) (Auth.RefreshSettled p0 r)) i
                 = Some (Ok (Some fresh))) /\
      Auth.effects (step (run w0 es) (Auth.RefreshSettled p0 r))
      = (Auth.effects w0
         ++ [Auth.RefreshCall (Auth.refresh c); Auth.WriteTokenFile fresh])%list
  | Throw _ =>
      Auth.credentials
        (Auth.authState (Auth.settleRefresh decodeJWT p0 r (run w0 es))) = None /\
      step (run w0 es) (Auth.RefreshSettled p0 r)
      = bootstrapped (Spec.callersOf es)
          (Auth.settleRefresh decodeJWT p0 r (run w0 es)) /\
      (forall i, In i (Spec.callersOf es) ->
                 Spec.inFallback
                   (Auth.conts (step (run w0 es) (Auth.RefreshSettled p0 r)) i))
  end.
Proof.
  intros Hc Hexp Hp Harr Hnd Hne Hfresh.
  assert (Hj0 : Spec.joining w0 c [] w0)
    by (unfold Spec.joining; repeat split; auto; intros ? []).
  pose proof (joining_run es [] w0 Hj0 Harr Hnd Hfresh) as Hj.
  cbn [app] in Hj.
  destruct Hj as (Hc1 & Hexp1 & Hf1 & Hout1 & Hin1 & Hws).
  destruct (Spec.callersOf es) as [|j ws] eqn:Ecallers; [congruence|].
  destruct Hws as (Hp1 & Hr1 & He1).
  split; [exact He1|]. split; [exact Hp1|]. split; [exact Hr1|].
  split; [exact Hin1|].
  assert (Hstep : step (run w0 es) (Auth.RefreshSettled p0 r)
                  = resumed (j :: ws)
                      (Auth.settleRefresh decodeJWT p0 r (run w0 es))).
  { cbn [Auth.step]. now rewrite Hr1. }
  split; [exact Hstep|]. split; [reflexivity|].
  rewrite Hstep.
  unfold Auth.settleRefresh.
  destruct (Auth.refreshed decodeJWT r) as [fresh|err].
  - match goal with
    | |- context [resumed _ ?settledW] =>
        destruct (resume_returned (j :: ws) settledW fresh eq_refl)
          as (Ha & He & Hk)
    end.
    split; [now rewrite Ha|]. split; [now rewrite Ha|]. split; [exact Hk|].
    split; [intros i Hi; unfold Proxy.ensuredOf; now rewrite (Hk i Hi)|].
    rewrite He. cbn. now rewrite He1, <- app_assoc.
  - match goal with
    | |- context [resumed _ ?settledW] =>
        destruct (resume_fallback (j :: ws) settledW (or_introl eq_refl))
          as (Heq & _ & Hpr & Hk)
    end.
    rewrite Heq, Hpr. repeat split. exact Hk.
Qed.

End SingleFlight.

(** *** A call never returns without credentials *)

Lemma setCont_keeps (i : nat) (k : Auth.Cont) (w : Auth.World) :
  k <> Auth.Returned None ->
  Spec.returnsWithCredentials w ->
  Spec.returnsWithCredentials (Auth.setCont i k w).
Proof.
  intros Hk Hw j. cbn. unfold Auth.update.
  destruct (Nat.eqb j i); [congruence | apply Hw].
Qed.

Lemma returns_keeps (i : nat) (w : Auth.World) :
  Auth.credentials (Auth.authState w) <> None ->
  Spec.returnsWithCredentials w ->
  Spec.returnsWithCredentials (Auth.returns i w).
Proof.
  intros Hc Hw. apply setCont_keeps; [congruence | exact Hw].
Qed.

Lemma valid_present (creds : option Auth.StoredCredentials) (now : Z) :
  Auth.hasValidAccess creds now = true -> creds <> None.
Proof. now destruct creds. Qed.

Lemma bootstrap_keeps (i : nat) (w : Auth.World) :
  Spec.returnsWithCredentials w ->
  Spec.returnsWithCredentials (Auth.bootstrapCredentials i w).
Proof.
  intros Hw. unfold Auth.bootstrapCredentials.
  destruct (Auth.hasValidAccess (Auth.credentials (Auth.authState w)) (Auth.clock w))
    eqn:Hv.
  - apply returns_keeps; [now apply valid_present in Hv | exact Hw].
  - cbn [Auth.emit Auth.tokenFile Auth.clock].
    destruct (Auth.hasValidAccess (Auth.tokenFile w) (Auth.clock w)) eqn:Hf.
    + apply returns_keeps; [now apply valid_present in Hf | exact Hw].
    + destruct (Auth.tokenFile w); apply setCont_keeps; try discriminate; exact Hw.
Qed.

Lemma afterRefresh_keeps (i : nat) (w : Auth.World) :
  Spec.returnsWithCredentials w ->
  Spec.returnsWithCredentials (Auth.afterRefresh i w).
Proof.
  intros Hw. unfold Auth.afterRefresh.
  destruct (Auth.credentials (Auth.authState w)) eqn:Hc.
  - apply returns_keeps; [congruence | exact Hw].
  - now apply bootstrap_keeps.
Qed.

Lemma ensureFresh_keeps (i : nat) (w : Auth.World) :
  Spec.returnsWithCredentials w ->
  Spec.returnsWithCredentials (Auth.ensureFreshCredentials i w).
Proof.
  intros Hw. unfold Auth.ensureFreshCredentials.
  destruct (Auth.hasValidAccess (Auth.credentials (Auth.authState w)) (Auth.clock w))
    eqn:Hv.
  - apply returns_keeps; [now apply valid_present in Hv | exact Hw].
  - destruct (Auth.credentials (Auth.authState w)) as [creds|] eqn:Hc;
      [|now apply bootstrap_keeps].
    destruct (Auth.refreshPromise (Auth.authState w)) as [p|] eqn:Hp; cbn.
    + rewrite Hp.
      destruct (Auth.reactions w p); [|now apply afterRefresh_keeps].
      apply setCont_keeps; [discriminate | exact Hw].
    + unfold Auth.update. rewrite Nat.eqb_refl.
      apply setCont_keeps; [discriminate | exact Hw].
Qed.

(** Whatever the event loop delivers, [ensureFreshCredentials] returns
    with credentials in [authState] or it does not return: it awaits, or it
    rejects. *)
Lemma step_keeps (decodeJWT : string -> option Auth.JWTPayload)
    (w : Auth.World) (e : Auth.Event) :
  Spec.returnsWithCredentials w ->
  Spec.returnsWithCredentials (Auth.step decodeJWT w e).
Proof.
  intros Hw. destruct e as [i|p r|i r|i r|t]; cbn [Auth.step].
  - destruct (Auth.conts w i); [exact Hw | now apply ensureFresh_keeps].
  - destruct (Auth.reactions w p) as [waiting|]; [|exact Hw].
    assert (Hs : Spec.returnsWithCredentials (Auth.settleRefresh decodeJWT p r w)).
    { unfold Auth.settleRefresh. destruct (Auth.refreshed decodeJWT r); exact Hw. }
    generalize dependent (Auth.settleRefresh decodeJWT p r w).
    induction waiting as [|j waiting IH]; intros w' Hw'; cbn [fold_left];
      [exact Hw'|].
    apply IH. now apply afterRefresh_keeps.
  - destruct (Auth.conts w i) as [[]|]; try exact Hw.
    destruct (Auth.refreshed decodeJWT r).
    + apply returns_keeps; [discriminate | exact Hw].
    + apply setCont_keeps; [discriminate | exact Hw].
  - destruct (Auth.conts w i) as [[]|]; try exact Hw.
    destruct (Auth.loggedIn decodeJWT r).
    + apply returns_keeps; [discriminate | exact Hw].
    + apply setCont_keeps; [discriminate | exact Hw].
  - exact Hw.
Qed.

Lemma run_keeps (decodeJWT : string -> option Auth.JWTPayload)
    (es : list Auth.Event) (w : Auth.World) :
  Spec.returnsWithCredentials w ->
  Spec.returnsWithCredentials (Auth.run decodeJWT w es).
Proof.
  revert w. induction es as [|e es IH]; intros w Hw; [exact Hw|].
  apply IH. now apply step_keeps.
Qed.

(** ** Instances and counterexamples *)

(** C1 as stated fails.  Two callers find the credentials present and
    expired; the one shared refresh fails; each caller then runs
    [bootstrapCredentials], finds the same expired record in the token file
    and issues a refresh call of its own: three refresh calls, not one. *)
Lemma refresh_failure_repeats_refresh :
  Auth.credentials (Auth.authState Example.expiredWorld) = Some Example.stale /\
  Auth.hasValidAccess (Some Example.stale) (Auth.clock Example.expiredWorld) = false /\
  Auth.effects Example.afterFailedRefresh
  = [Auth.RefreshCall "refresh-0";
     Auth.ReadTokenFile; Auth.RefreshCall "refresh-0";
     Auth.ReadTokenFile; Auth.RefreshCall "refresh-0"] /\
  Auth.refreshCalls (Auth.effects Example.afterFailedRefresh) = 3.
Proof. repeat split. Qed.

Lemma single_flight_refresh_witness :
  Auth.effects
    (Auth.run Example.decodeJWT Example.expiredWorld
       [Auth.Call 0; Auth.Tick 100500; Auth.Call 1])
  = [Auth.RefreshCall "refresh-0"] /\
  Auth.credentials
    (Auth.authState
       (Auth.step Example.decodeJWT
          (Auth.run Example.decodeJWT Example.expiredWorld
             [Auth.Call 0; Auth.Tick 100500; Auth.Call 1])
          (Auth.RefreshSettled 0 (Auth.TokenSuccess "access-1" "refresh-1" 9000000))))
  = Some Example.good.
Proof.
  assert (Hnd : NoDup [0; 1]).
  { constructor; [intros [H|[]]; discriminate|].
    constructor; [intros []|constructor]. }
  destruct (single_flight_refresh Example.decodeJWT Example.expiredWorld
              Example.stale [Auth.Call 0; Auth.Tick 100500; Auth.Call 1]
              (Auth.TokenSuccess "access-1" "refresh-1" 9000000)
              eq_refl eq_refl eq_refl)
    as (He & _ & _ & _ & _ & _ & _ & Hc & _).
  - repeat constructor.
  - exact Hnd.
  - discriminate.
  - intros i _. reflexivity.
  - split; [exact He | exact Hc].
Defined.

Lemma fast_path_witness :
  Auth.hasValidAccess
    (Auth.credentials (Auth.authState Example.afterFirstCall))
    (Auth.clock Example.afterFirstCall) = true /\
  Auth.effects (Auth.step Example.decodeJWT Example.afterFirstCall (Auth.Call 1))
  = Auth.effects Example.afterFirstCall.
Proof.
  split; [reflexivity|].
  exact (proj1 (proj2 (fast_path Example.decodeJWT Example.afterFirstCall 1
                         eq_refl eq_refl))).
Defined.

(** C3 as stated fails: [transformRequestBody] replaces the caller's
    non-empty instructions by the instruction text it is given. *)
Lemma transformRequestBody_overwrites_instructions :
  Transform.transformRequestBody Example.numberToString None "" "" ""
    (Throw "unavailable")
    [("model", JStr "gpt-5"); ("instructions", JStr "Answer in French.")]
    "You are Codex." Transform.emptyUserConfig true
  = Ok [("model", JStr "gpt-5"); ("instructions", JStr "You are Codex.");
        ("store", JBool false); ("stream", JBool true);
        ("reasoning", JObj [("effort", JStr "medium"); ("summary", JStr "auto")]);
        ("text", JObj [("verbosity", JStr "medium")]);
        ("include", JArr [JStr "reasoning.encrypted_content"]);
        ("max_output_tokens", JUndefined);
        ("max_completion_tokens", JUndefined)].
Proof. reflexivity. Qed.

Lemma dispatch_rule_witness :
  Proxy.normalizePath "/v1/responses" = "/responses" /\
  Spec.proxiedPath Example.post = true /\
  Proxy.server Example.env Example.JSON_parse Example.JSON_stringify
    Example.randomUUID Example.CODEX_BASE_URL Example.rewriteUrlForCodex
    Example.createCodexHeaders Example.fetch Example.convertSseToJson
    Example.transformRequestForCodex Example.context Example.post
  = Proxy.guarded
      (Proxy.handleResponsesEndpoint Example.env Example.JSON_parse
         Example.JSON_stringify Example.randomUUID Example.CODEX_BASE_URL
         Example.rewriteUrlForCodex Example.createCodexHeaders Example.fetch
         Example.convertSseToJson Example.transformRequestForCodex
         Example.post Example.context) /\
  Proxy.normalizePath "/v1/models" = "/models" /\
  Spec.proxiedPath Example.stray = false /\
  Proxy.server Example.env Example.JSON_parse Example.JSON_stringify
    Example.randomUUID Example.CODEX_BASE_URL Example.rewriteUrlForCodex
    Example.createCodexHeaders Example.fetch Example.convertSseToJson
    Example.transformRequestForCodex Example.context Example.stray
  = [Proxy.SendJson 404 (Proxy.errorPayload "Not found")].
Proof.
  pose proof (dispatch_rule Example.env Example.JSON_parse
                Example.JSON_stringify Example.randomUUID
                Example.CODEX_BASE_URL Example.rewriteUrlForCodex
                Example.createCodexHeaders Example.fetch
                Example.convertSseToJson Example.consumesBody
                Example.transformRequestForCodex
                Example.getCodexInstructions Example.context) as rule.
  destruct (rule Example.post) as (Hpath & _ & _ & Hproxied & _).
  destruct (rule Example.stray) as (_ & _ & _ & _ & _ & Hstray & _).
  split; [exact (proj1 (proj2 (Hpath "/v1/responses")) "responses" eq_refl)|].
  split; [reflexivity|].
  split; [exact (proj1 (Hproxied eq_refl))|].
  split; [exact (proj1 (proj2 (Hpath "/v1/models")) "models" eq_refl)|].
  split; [reflexivity|].
  exact (proj1 (Hstray eq_refl eq_refl)).
Defined.

Lemma error_mapping_witness :
  Spec.AnswersOnly
    (Proxy.handleResponsesEndpointMinimal Example.env Example.JSON_parse
       Example.JSON_stringify Example.randomUUID Example.CODEX_BASE_URL
       Example.rewriteUrlForCodex Example.createCodexHeaders Example.fetch
       Example.convertSseToJson Example.consumesBody Example.getCodexInstructions Example.getRequest)
    405 (Proxy.errorPayload "Method not allowed") /\
  Spec.AnswersOnly
    (Proxy.handleResponsesEndpointMinimal Example.env Example.JSON_parse
       Example.JSON_stringify Example.randomUUID Example.CODEX_BASE_URL
       Example.rewriteUrlForCodex Example.createCodexHeaders Example.fetch
       Example.convertSseToJson Example.consumesBody Example.getCodexInstructions Example.emptyPost)
    400 (Proxy.errorPayload "Request body is required") /\
  Spec.AnswersOnly
    (Proxy.handleResponsesEndpointMinimal Example.env Example.JSON_parse
       Example.JSON_stringify Example.randomUUID Example.CODEX_BASE_URL
       Example.rewriteUrlForCodex Example.createCodexHeaders Example.fetch
       Example.convertSseToJson Example.consumesBody Example.getCodexInstructions Example.brokenPost)
    400 (Proxy.errorPayload "Invalid JSON body: Unexpected end of JSON input") /\
  Spec.AnswersOnly
    (Proxy.handleResponsesEndpointMinimal Example.env Example.JSON_parse
       Example.JSON_stringify Example.randomUUID Example.CODEX_BASE_URL
       Example.rewriteUrlForCodex Example.createCodexHeaders Example.fetch
       Example.convertSseToJson Example.consumesBody Example.getCodexInstructions Example.anonymousPost)
    401 (Proxy.errorPayload "Authentication required").
Proof.
  pose (thm := error_mapping Example.env Example.JSON_parse Example.JSON_stringify
                 Example.randomUUID Example.CODEX_BASE_URL
                 Example.rewriteUrlForCodex Example.createCodexHeaders
                 Example.fetch Example.convertSseToJson Example.consumesBody
                 Example.transformRequestForCodex Example.getCodexInstructions
                 Example.context).
  split; [|split; [|split]].
  - apply (proj1 (thm Example.getRequest)). discriminate.
  - apply (proj1 (proj2 (thm Example.emptyPost))); reflexivity.
  - apply (proj1 (proj2 (proj2 (thm Example.brokenPost))) "{");
      try reflexivity. discriminate.
  - apply (proj1 (proj2 (proj2 (proj2 (thm Example.anonymousPost)))) "{}" []);
      try reflexivity. discriminate.
Defined.

(** ** Further instances *)

(** In the variant that converts under [CODEX_PROXY_FORCE_JSON] there is no
    [catch] around the conversion: its failure reaches the listener. *)
Lemma forced_conversion_failure_is_answered_500 :
  Proxy.server Example.env Example.JSON_parse Example.JSON_stringify
    Example.randomUUID Example.CODEX_BASE_URL Example.rewriteUrlForCodex
    Example.createCodexHeaders Example.fetch Example.convertSseToJson
    Example.transformRequestForCodex Example.context Example.post
  = [Proxy.Fetch "https://chatgpt.com/backend-api/responses"
       [("authorization", "Bearer access-1"); ("chatgpt-account-id", "acct-1");
        ("content-type", "application/json")] "{}";
     Proxy.SendJson 500 (Proxy.errorPayload "Internal server error")].
Proof. reflexivity. Qed.

(** A part whose text is an object with a [toString] of its own cannot
    be joined: reading the text of the message throws. *)
Lemma unprintable_text_throws :
  Transform.getContentText Example.numberToString
    (JObj [("role", JStr "developer");
           ("content",
            JArr [JObj [("type", JStr "input_text");
                        ("text", JObj [("toString", JNum 1)])]])])
  = Throw "TypeError" /\
  Transform.getContentText Example.numberToString
    (JObj [("role", JStr "developer");
           ("content",
            JArr [JObj [("type", JStr "input_text");
                        ("text", JObj [("valueOf", JNum 1)])]])])
  = Ok "[object Object]".
Proof. split; reflexivity. Qed.

Lemma normalizePath_examples :
  Proxy.normalizePath "/v1/responses" = "/responses" /\
  Proxy.normalizePath "/v1" = "/" /\
  Proxy.normalizePath "/other" = "/other" /\
  Proxy.normalizePath "health" = "/health".
Proof. repeat split. Qed.

Lemma health_example :
  Proxy.serverMinimal Example.env Example.JSON_parse Example.JSON_stringify
    Example.randomUUID Example.CODEX_BASE_URL Example.rewriteUrlForCodex
    Example.createCodexHeaders Example.fetch Example.convertSseToJson Example.consumesBody
    Example.getCodexInstructions
    {| Proxy.method := "GET"; Proxy.pathname := "/health"; Proxy.search := "";
       Proxy.rawBody := Ok ""; Proxy.ensured := Ok None |}
  = [Proxy.SendJson 200 (JObj [("ok", JBool true)])].
Proof. reflexivity. Qed.

Lemma getReasoningConfig_examples :
  Transform.getReasoningConfig (Some "gpt-5-codex-mini") Transform.noOptions
  = {| Transform.effort := Transform.E_low; Transform.summary := Transform.S_auto |} /\
  Transform.getReasoningConfig (Some "gpt-5-nano") Transform.noOptions
  = {| Transform.effort := Transform.E_minimal; Transform.summary := Transform.S_auto |} /\
  Transform.getReasoningConfig (Some "gpt-5") Transform.noOptions
  = {| Transform.effort := Transform.E_medium; Transform.summary := Transform.S_auto |}.
Proof. repeat split. Qed.

(** * Further properties *)

(** ** Filters that may throw *)

Lemma ofilterM_Ok {A} (p : A -> Outcome bool) (l r : list A) :
  ofilterM p l = Ok r ->
  r = filter (fun a => match p a with Ok b => b | Throw _ => false end) l.
Proof.
  revert r; induction l as [|a l IH]; intros r; simpl.
  - now intros [= <-].
  - destruct (p a) as [b|]; [|discriminate]. cbn [obind].
    destruct (ofilterM p l) as [rest|]; [|discriminate]. cbn [obind].
    intros [= <-]. rewrite <- (IH rest eq_refl). reflexivity.
Qed.

Lemma ofilterM_total {A} (p : A -> Outcome bool) (l : list A) :
  (forall a, In a l -> exists b, p a = Ok b) -> exists r, ofilterM p l = Ok r.
Proof.
  induction l as [|a l IH]; intros H; simpl; [now eexists|].
  destruct (H a (or_introl eq_refl)) as [b ->].
  destruct IH as [r ->]; [intros x Hx; apply H; now right|].
  cbn. now eexists.
Qed.

Lemma omapM_total {A B} (f : A -> Outcome B) (P : B -> Prop) (l : list A) :
  (forall a, In a l -> exists b, f a = Ok b /\ P b) ->
  exists r, omapM f l = Ok r /\ Forall P r.
Proof.
  induction l as [|a l IH]; intros H; simpl; [now eexists|].
  destruct (H a (or_introl eq_refl)) as [b [-> Hb]].
  destruct IH as [r [-> Hr]]; [intros x Hx; apply H; now right|].
  cbn. eexists. split; [reflexivity | now constructor].
Qed.

Lemma ofilterM_throws {A} (p : A -> Outcome bool) (err : string) (l : list A) :
  (forall a e, p a = Throw e -> e = err) ->
  (exists a, In a l /\ p a = Throw err) ->
  ofilterM p l = Throw err.
Proof.
  intros Hall. induction l as [|a l IH]; intros [x [Hin Hx]]; [destruct Hin|].
  simpl. destruct (p a) as [b|e] eqn:Ea.
  - cbn [obind]. rewrite IH; [reflexivity|].
    destruct Hin as [->|Hin]; [congruence | now exists x].
  - cbn. now rewrite (Hall a e Ea).
Qed.

Lemma filter_map_comm {A B} (f : A -> B) (q : B -> bool) (l : list A) :
  filter q (map f l) = map f (filter (fun a => q (f a)) l).
Proof.
  induction l as [|a l IH]; simpl; [reflexivity|].
  destruct (q (f a)); simpl; now rewrite IH.
Qed.

(** ** Reasoning effort, for every model name *)

(** X8. An effort configured as "low", "medium" or "high" is used as it
    is, whatever the model.  For a model whose name contains "codex" in
    lower case the effort is never "minimal": a configured "minimal" becomes
    "low".  The effort is "minimal" only for a name without "codex" in
    lower case, when "minimal" is configured or when nothing is configured
    and the name contains "nano" or "mini". *)
Theorem getReasoningConfig_effort (originalModel : option string)
    (cfg : Transform.ConfigOptions) :
  (forall e, Transform.reasoningEffort cfg = Some e -> e <> Transform.E_minimal ->
             Transform.effort (Transform.getReasoningConfig originalModel cfg) = e) /\
  (Transform.maybeIncludes originalModel "codex" = true ->
   Transform.effort (Transform.getReasoningConfig originalModel cfg)
   <> Transform.E_minimal /\
   (Transform.reasoningEffort cfg = Some Transform.E_minimal ->
    Transform.effort (Transform.getReasoningConfig originalModel cfg)
    = Transform.E_low)) /\
  (Transform.effort (Transform.getReasoningConfig originalModel cfg)
   = Transform.E_minimal ->
   Transform.maybeIncludes originalModel "codex" = false /\
   (Transform.reasoningEffort cfg = Some Transform.E_minimal \/
    Transform.reasoningEffort cfg = None /\
    (Transform.maybeIncludes originalModel "nano"
     || Transform.maybeIncludes originalModel "mini") = true)).
Proof.
  unfold Transform.getReasoningConfig. cbn [Transform.effort].
  split; [|split].
  - intros e -> He. now destruct e.
  - intros ->. split.
    + destruct (Transform.reasoningEffort cfg) as [[]|];
        try discriminate; destruct (_ || _); discriminate.
    + now intros ->.
  - destruct (Transform.maybeIncludes originalModel "codex");
      destruct (Transform.reasoningEffort cfg) as [[]|];
      try discriminate; destruct (_ || _); try discriminate; auto.
Qed.

Lemma getReasoningConfig_effort_witness :
  Transform.effort
    (Transform.getReasoningConfig (Some "gpt-5-codex-mini")
       (Transform.getModelConfig "gpt-5-codex-low" Sample.perModel))
  = Transform.E_low /\
  Transform.effort
    (Transform.getReasoningConfig (Some "gpt-5-codex-mini") Transform.noOptions)
  <> Transform.E_minimal.
Proof.
  split.
  - apply (proj1 (getReasoningConfig_effort (Some "gpt-5-codex-mini")
                    (Transform.getModelConfig "gpt-5-codex-low" Sample.perModel))
             Transform.E_low eq_refl).
    discriminate.
  - exact (proj1 (proj1 (proj2 (getReasoningConfig_effort
                                  (Some "gpt-5-codex-mini") Transform.noOptions))
                    eq_refl)).
Defined.

(** ** The transformed body *)

Lemma modelOf_Ok (body : object) (originalModel : option string) :
  Transform.modelOf body = Ok originalModel ->
  originalModel = Obs.modelName body /\
  match originalModel with
  | Some m => if String.eqb m "" then Transform.normalizeModel originalModel else m
  | None => Transform.normalizeModel originalModel
  end = Obs.configKey body.
Proof.
  unfold Transform.modelOf, Obs.modelName, Obs.configKey.
  destruct (Obj.get body "model"); intros [= <-]; split; reflexivity.
Qed.

Lemma not_assigned (k : string) :
  ~ In k Obs.assignedKeys ->
  k <> "model" /\ k <> "store" /\ k <> "stream" /\ k <> "instructions" /\
  k <> "input" /\ k <> "reasoning" /\ k <> "text" /\ k <> "include" /\
  k <> "max_output_tokens" /\ k <> "max_completion_tokens".
Proof.
  intros H. repeat split; intros ->; apply H; cbn; tauto.
Qed.

Section TransformFacts.

Variable numberToString : Z -> string.
Variable CODEX_TOOL_PROFILE : option string.
Variable CLAUDE_CODE_TOOL_GUIDE TOOL_REMAP_MESSAGE : string.
Variable CODEX_OPENCODE_BRIDGE : string.
Variable getOpenCodeCodexPrompt : Outcome string.

Local Abbreviation transform :=
  (Transform.transformRequestBody numberToString CODEX_TOOL_PROFILE
     CLAUDE_CODE_TOOL_GUIDE TOOL_REMAP_MESSAGE CODEX_OPENCODE_BRIDGE
     getOpenCodeCodexPrompt).
Local Abbreviation filterPrompts :=
  (Transform.filterOpenCodeSystemPrompts numberToString getOpenCodeCodexPrompt).
Local Abbreviation guide :=
  (Transform.TOOL_GUIDE_MESSAGE CODEX_TOOL_PROFILE CLAUDE_CODE_TOOL_GUIDE
     TOOL_REMAP_MESSAGE).

(** Every property of a transformed body. *)
Lemma transform_fields (body : object) (instr : string)
    (cfg : Transform.UserConfig) (mode : bool) (out : object) :
  transform body instr cfg mode = Ok out ->
  Transform.modelOf body = Ok (Obs.modelName body) /\
  Obj.get out "model" = JStr (Transform.normalizeModel (Obs.modelName body)) /\
  Obj.get out "store" = JBool false /\
  Obj.get out "stream" = JBool true /\
  Obj.get out "instructions" = JStr instr /\
  Obj.get out "reasoning"
  = JObj (Obj.assign (ownEnumerable (Obj.get body "reasoning"))
            [("effort",
              JStr (Transform.effortName
                      (Transform.effort
                         (Transform.getReasoningConfig (Obs.modelName body)
                            (Transform.getModelConfig (Obs.configKey body) cfg)))));
             ("summary",
              JStr (Transform.summaryName
                      (Transform.summary
                         (Transform.getReasoningConfig (Obs.modelName body)
                            (Transform.getModelConfig (Obs.configKey body) cfg)))))]) /\
  Obj.get out "text"
  = JObj (Obj.assign (ownEnumerable (Obj.get body "text"))
            [("verbosity",
              JStr (Transform.verbosityName
                      match Transform.textVerbosity
                              (Transform.getModelConfig (Obs.configKey body) cfg) with
                      | Some v => v
                      | None => Transform.V_medium
                      end))]) /\
  Obj.get out "include"
  = JArr (map JStr
            match Transform.include
                    (Transform.getModelConfig (Obs.configKey body) cfg) with
            | Some l => l
            | None => ["reasoning.encrypted_content"]
            end) /\
  Obj.get out "max_output_tokens" = JUndefined /\
  Obj.get out "max_completion_tokens" = JUndefined /\
  (forall k, ~ In k Obs.assignedKeys -> Obj.get out k = Obj.get body k) /\
  match Obj.get body "input" with
  | JArr items =>
      exists filtered,
        Transform.filterInput (JArr items) = Ok filtered /\
        if mode
        then exists kept,
            filterPrompts filtered = Ok kept /\
            Obj.get out "input"
            = Transform.addCodexBridgeMessage CODEX_OPENCODE_BRIDGE kept
                (truthy (Obj.get body "tools"))
        else Obj.get out "input"
             = Transform.addToolGuideMessage filtered
                 (truthy (Obj.get body "tools")) guide
  | other => Obj.get out "input" = other
  end.
Proof.
  unfold Transform.transformRequestBody.
  destruct (Transform.modelOf body) as [originalModel|] eqn:Hmodel; [|discriminate].
  destruct (modelOf_Ok body originalModel Hmodel) as [-> Hkey].
  cbn [obind]. rewrite Hkey.
  set (base := Obj.set (Obj.set (Obj.set (Obj.set body "model" _) "store" _)
                          "stream" _) "instructions" _).
  assert (Hbase : forall k, k <> "model" -> k <> "store" -> k <> "stream" ->
                            k <> "instructions" -> Obj.get base k = Obj.get body k).
  { intros k H1 H2 H3 H4. unfold base. now rewrite !get_set_other by assumption. }
  rewrite !(Hbase "input") by discriminate.
  rewrite !(Hbase "tools") by discriminate.
  match goal with
  | |- obind ?m _ = _ -> _ =>
      assert (Hmid : forall b, m = Ok b ->
                (forall k, k <> "input" -> Obj.get b k = Obj.get base k) /\
                match Obj.get body "input" with
                | JArr items =>
                    exists filtered,
                      Transform.filterInput (JArr items) = Ok filtered /\
                      if mode
                      then exists kept,
                          filterPrompts filtered = Ok kept /\
                          Obj.get b "input"
                          = Transform.addCodexBridgeMessage CODEX_OPENCODE_BRIDGE kept
                              (truthy (Obj.get body "tools"))
                      else Obj.get b "input"
                           = Transform.addToolGuideMessage filtered
                               (truthy (Obj.get body "tools")) guide
                | other => Obj.get b "input" = other
                end);
      [|destruct m as [b|]; [specialize (Hmid b eq_refl)|discriminate]]
  end.
  - intros b.
    destruct (Obj.get body "input") as [| | | | |items|] eqn:Hinput;
      try (intros [= <-]; split; [reflexivity | now rewrite Hbase by discriminate]).
    destruct (ofilterM _ items); [|discriminate]. cbn [obind].
    destruct (Transform.filterInput (JArr items)) as [filtered|] eqn:Hfiltered;
      [|discriminate].
    cbn [obind]. destruct mode.
    + destruct (Transform.filterOpenCodeSystemPrompts _ _ filtered) as [kept|]
        eqn:Hkept; [|discriminate].
      cbn [obind]. intros [= <-]. split.
      * intros k Hk. now rewrite get_set_other.
      * exists filtered. split; [reflexivity|]. exists kept.
        split; [exact Hkept | now rewrite get_set_same].
    + cbn [obind]. intros [= <-]. split.
      * intros k Hk. now rewrite get_set_other.
      * exists filtered. split; [reflexivity | now rewrite get_set_same].
  - destruct Hmid as [Hframe Hin]. cbn [obind]. intros [= <-].
    assert (Hb : forall k, k <> "input" -> k <> "model" -> k <> "store" ->
                           k <> "stream" -> k <> "instructions" ->
                           Obj.get b k = Obj.get body k).
    { intros k H0 H1 H2 H3 H4. rewrite Hframe by assumption. now apply Hbase. }
    split; [reflexivity|].
    split. { rewrite !get_set_other by discriminate. rewrite Hframe by discriminate.
             unfold base. rewrite !get_set_other by discriminate.
             now rewrite get_set_same. }
    split. { rewrite !get_set_other by discriminate. rewrite Hframe by discriminate.
             unfold base. rewrite !get_set_other by discriminate.
             now rewrite get_set_same. }
    split. { rewrite !get_set_other by discriminate. rewrite Hframe by discriminate.
             unfold base. rewrite !get_set_other by discriminate.
             now rewrite get_set_same. }
    split. { rewrite !get_set_other by discriminate. rewrite Hframe by discriminate.
             unfold base. now rewrite get_set_same. }
    split. { rewrite !get_set_other by discriminate. rewrite get_set_same.
             now rewrite Hb by discriminate. }
    split. { rewrite !get_set_other by discriminate. rewrite get_set_same.
             rewrite get_set_other by discriminate.
             now rewrite Hb by discriminate. }
    split. { rewrite !get_set_other by discriminate. now rewrite get_set_same. }
    split. { rewrite !get_set_other by discriminate. now rewrite get_set_same. }
    split. { now rewrite get_set_same. }
    split. { intros k Hk. apply not_assigned in Hk.
             destruct Hk as (H1 & H2 & H3 & H4 & H5 & H6 & H7 & H8 & H9 & H10).
             rewrite !get_set_other by assumption. now apply Hb. }
    destruct (Obj.get body "input");
      rewrite !get_set_other by discriminate; exact Hin.
Qed.

Lemma prop_defined (v : jsval) (k : string) :
  Obs.defined v = true -> exists x, prop v k = Ok x.
Proof. destruct v; try discriminate; intros _; cbn; eauto. Qed.

Lemma prop_throws (v : jsval) (k e : string) :
  prop v k = Throw e -> e = "TypeError".
Proof. destruct v; cbn; congruence. Qed.

Lemma readable_defined (item : jsval) :
  Obs.readable item = true -> Obs.defined item = true.
Proof. now destruct item. Qed.

Lemma filterInput_readable (items : list jsval) :
  forallb Obs.readable items = true ->
  exists items',
    Transform.filterInput (JArr items) = Ok (JArr items') /\
    Forall (fun item => Obs.readable item = true) items'.
Proof.
  intros Hall. rewrite forallb_forall in Hall. unfold Transform.filterInput.
  match goal with
  | |- context [ofilterM ?p items] =>
      destruct (ofilterM_total p items) as [kept Hkept]
  end.
  { intros a Ha.
    destruct (prop_defined a "type" (readable_defined a (Hall a Ha))) as [t ->].
    cbn. eauto. }
  rewrite Hkept. cbn [obind].
  apply ofilterM_Ok in Hkept.
  match goal with
  | |- context [omapM ?f kept] =>
      destruct (omapM_total f (fun item => Obs.readable item = true) kept)
        as [stripped [Hstripped Hreadable]]
  end.
  { intros a Ha. rewrite Hkept in Ha. apply filter_In in Ha as [Ha _].
    specialize (Hall a Ha).
    destruct a as [| | | | | |o]; try discriminate; cbn; eauto.
    destruct (truthy (Obj.get o "id")); eexists; (split; [reflexivity|]);
      [|exact Hall].
    cbn in Hall |- *. now rewrite get_delete_other by discriminate. }
  rewrite Hstripped. cbn. eauto.
Qed.

Lemma joinElem_printable :
  forall v : jsval,
    Obs.printable v = true ->
    exists s, Transform.joinElem numberToString v = Ok s.
Proof.
  fix IH 1. intros [| |b|n|s|l|o] Hp; cbn; eauto.
  - match goal with
    | |- context [obind (?each l)] =>
        assert (exists parts, each l = Ok parts) as [parts ->]
    end; [|cbn; eauto].
    cbn in Hp. induction l as [|x l IHl]; [eauto|].
    cbn in Hp. apply andb_prop in Hp as [Hx Hl].
    destruct (IH x Hx) as [sx ->]. destruct (IHl Hl) as [rest ->].
    cbn. eauto.
  - cbn in Hp. destruct (Obj.has o "toString"); [discriminate | eauto].
Qed.

Lemma readablePart_defined (c : jsval) :
  Obs.readablePart c = true -> Obs.defined c = true.
Proof. now destruct c. Qed.

Lemma getContentText_readable (item : jsval) :
  Obs.readable item = true ->
  exists s, Transform.getContentText numberToString item = Ok s.
Proof.
  intros Hr. unfold Transform.getContentText.
  destruct item as [| | | | | |o]; try discriminate; cbn; eauto.
  cbn in Hr. destruct (Obj.get o "content") as [| | | |s|cs|]; eauto.
  rewrite forallb_forall in Hr.
  match goal with
  | |- context [ofilterM ?p cs] => destruct (ofilterM_total p cs) as [parts Hparts]
  end.
  { intros c Hc.
    destruct (prop_defined c "type" (readablePart_defined c (Hr c Hc))) as [t ->].
    cbn [obind]. destruct (isStr t "input_text"); [|eauto].
    destruct (prop_defined c "text" (readablePart_defined c (Hr c Hc)))
      as [x ->].
    cbn. eauto. }
  rewrite Hparts. cbn [obind]. apply ofilterM_Ok in Hparts.
  destruct (omapM_total (fun c => prop c "text")
              (fun text => Obs.printable text = true) parts)
    as [texts [-> Htexts]].
  { intros c Hc. rewrite Hparts in Hc. apply filter_In in Hc as [Hc _].
    specialize (Hr c Hc). unfold Obs.readablePart in Hr.
    destruct (prop c "text") as [x|]; [eauto | discriminate]. }
  cbn [obind]. rewrite Forall_forall in Htexts.
  destruct (omapM_total (Transform.joinElem numberToString) (fun _ => True) texts)
    as [strings [-> _]]; [|cbn; eauto].
  intros text Htext. destruct (joinElem_printable text (Htexts text Htext)) as [s ->].
  eauto.
Qed.

Lemma isOpenCodeSystemPrompt_readable (item : jsval) (cached : option string) :
  Obs.readable item = true ->
  exists b, Transform.isOpenCodeSystemPrompt numberToString item cached = Ok b.
Proof.
  intros Hr. unfold Transform.isOpenCodeSystemPrompt.
  destruct (prop_defined item "role" (readable_defined item Hr)) as [role ->].
  cbn [obind]. destruct (negb _); [eauto|].
  destruct (getContentText_readable item Hr) as [s ->]. cbn [obind].
  destruct (String.eqb s ""); eauto.
Qed.

Lemma filterPrompts_readable (items : list jsval) :
  Forall (fun item => Obs.readable item = true) items ->
  exists kept, filterPrompts (JArr items) = Ok (JArr kept).
Proof.
  intros Hall. rewrite Forall_forall in Hall.
  unfold Transform.filterOpenCodeSystemPrompts.
  match goal with
  | |- context [ofilterM ?p items] => destruct (ofilterM_total p items) as [kept ->]
  end; [|cbn; eauto].
  intros a Ha.
  destruct (prop_defined a "role" (readable_defined a (Hall a Ha))) as [role ->].
  cbn [obind]. destruct (isStr role "user"); [eauto|].
  destruct (isOpenCodeSystemPrompt_readable a
              match getOpenCodeCodexPrompt with Ok p => Some p | Throw _ => None end
              (Hall a Ha)) as [b ->].
  cbn. eauto.
Qed.

Lemma normalizeModel_two (model : option string) :
  Transform.normalizeModel model = "gpt-5" \/
  Transform.normalizeModel model = "gpt-5-codex".
Proof.
  unfold Transform.normalizeModel. destruct model as [m|]; [|now left].
  destruct (String.eqb m ""); [now left|].
  destruct (Js.includes (Js.toLowerCase m) "codex"); [now right|].
  destruct (_ || _); now left.
Qed.

(** X1. Whatever the caller sent, a transformed body asks for a
    stateless, streamed answer ([store] is false, [stream] is true); its
    model is the normalized name, one of "gpt-5" and "gpt-5-codex"; its
    [include] list is the one configured for the model, or
    ["reasoning.encrypted_content"], and not the caller's; and both token
    limits are [undefined], so that they are not serialized. *)
Theorem transformRequestBody_forces (body : object) (instr : string)
    (cfg : Transform.UserConfig) (mode : bool) (out : object) :
  transform body instr cfg mode = Ok out ->
  Obj.get out "store" = JBool false /\
  Obj.get out "stream" = JBool true /\
  Obj.get out "model" = JStr (Transform.normalizeModel (Obs.modelName body)) /\
  (Obj.get out "model" = JStr "gpt-5" \/ Obj.get out "model" = JStr "gpt-5-codex") /\
  Obj.get out "include"
  = JArr (map JStr
            match Transform.include
                    (Transform.getModelConfig (Obs.configKey body) cfg) with
            | Some l => l
            | None => ["reasoning.encrypted_content"]
            end) /\
  Obj.get out "max_output_tokens" = JUndefined /\
  Obj.get out "max_completion_tokens" = JUndefined.
Proof.
  intros H. apply transform_fields in H.
  destruct H as (_ & Hmodel & Hstore & Hstream & _ & _ & _ & Hinc & Hmax & Hmax' & _).
  repeat split; try assumption.
  rewrite Hmodel.
  destruct (normalizeModel_two (Obs.modelName body)) as [-> | ->]; auto.
Qed.

(** X2. [transformRequestBody] touches ten properties of the body
    (model, store, stream, instructions, input, reasoning, text, include
    and the two token limits); every other property of the caller's body,
    such as the tools or the prompt cache key, comes back with the value the
    caller gave it. *)
Theorem transformRequestBody_frame (body : object) (instr : string)
    (cfg : Transform.UserConfig) (mode : bool) (out : object) (k : string) :
  transform body instr cfg mode = Ok out ->
  ~ In k Obs.assignedKeys ->
  Obj.get out k = Obj.get body k.
Proof.
  intros H Hk. apply transform_fields in H.
  destruct H as (_ & _ & _ & _ & _ & _ & _ & _ & _ & _ & Hframe & _).
  now apply Hframe.
Qed.

(** X3. The reasoning and text settings are merged into what the caller
    sent: the effort and the summary are those resolved for the caller's
    model name, with the options configured under that name (not under the
    normalized name); the verbosity is the configured one or "medium"; every
    other entry of the caller's [reasoning] and [text] objects is kept. *)
Theorem transformRequestBody_merges (body : object) (instr : string)
    (cfg : Transform.UserConfig) (mode : bool) (out : object) :
  transform body instr cfg mode = Ok out ->
  exists reasoning text,
    Obj.get out "reasoning" = JObj reasoning /\
    Obj.get out "text" = JObj text /\
    Obj.get reasoning "effort"
    = JStr (Transform.effortName
              (Transform.effort
                 (Transform.getReasoningConfig (Obs.modelName body)
                    (Transform.getModelConfig (Obs.configKey body) cfg)))) /\
    Obj.get reasoning "summary"
    = JStr (Transform.summaryName
              (Transform.summary
                 (Transform.getReasoningConfig (Obs.modelName body)
                    (Transform.getModelConfig (Obs.configKey body) cfg)))) /\
    (forall k, k <> "effort" -> k <> "summary" ->
               Obj.get reasoning k
               = Obj.get (ownEnumerable (Obj.get body "reasoning")) k) /\
    Obj.get text "verbosity"
    = JStr (Transform.verbosityName
              match Transform.textVerbosity
                      (Transform.getModelConfig (Obs.configKey body) cfg) with
              | Some v => v
              | None => Transform.V_medium
              end) /\
    (forall k, k <> "verbosity" ->
               Obj.get text k = Obj.get (ownEnumerable (Obj.get body "text")) k).
Proof.
  intros H. apply transform_fields in H.
  destruct H as (_ & _ & _ & _ & _ & Hr & Ht & _).
  eexists. eexists. split; [exact Hr|]. split; [exact Ht|].
  unfold Obj.assign. cbn [fold_left fst snd].
  split. { rewrite get_set_other by discriminate. apply get_set_same. }
  split. { apply get_set_same. }
  split. { intros k H1 H2. now rewrite !get_set_other by assumption. }
  split. { apply get_set_same. }
  intros k H1. now rewrite get_set_other by assumption.
Qed.

(** X4. An input list that holds [null] makes [transformRequestBody]
    throw a [TypeError]: the identifier of every item is read before
    anything is filtered. *)
Theorem transformRequestBody_null_item (body : object) (instr : string)
    (cfg : Transform.UserConfig) (mode : bool) (items : list jsval) :
  Obj.get body "input" = JArr items ->
  In JNull items ->
  transform body instr cfg mode = Throw "TypeError".
Proof.
  intros Hinput Hnull. unfold Transform.transformRequestBody.
  destruct (Transform.modelOf body) as [originalModel|e] eqn:Hmodel.
  - cbn [obind]. rewrite !get_set_other by discriminate. rewrite Hinput.
    rewrite (ofilterM_throws _ "TypeError" items); [reflexivity| |].
    + intros a e. destruct (prop a "id") eqn:E; [discriminate|].
      cbn. intros [= <-]. now apply prop_throws in E.
    + exists JNull. now split.
  - cbn. unfold Transform.modelOf in Hmodel.
    destruct (Obj.get body "model"); congruence.
Qed.

(** X5. [transformRequestBody] returns a body whenever the model, if
    there is one, is a string, and the input, if it is a list, holds no
    [null] and no message whose content list holds [null] or a part whose
    text cannot be joined (an object with a [toString] property of its
    own, at any depth of lists). *)
Theorem transformRequestBody_total (body : object) (instr : string)
    (cfg : Transform.UserConfig) (mode : bool) :
  (Obs.defined (Obj.get body "model") = true ->
   exists m, Obj.get body "model" = JStr m) ->
  (forall items, Obj.get body "input" = JArr items ->
                 forallb Obs.readable items = true) ->
  exists out, transform body instr cfg mode = Ok out.
Proof.
  intros Hmodel Hreadable. unfold Transform.transformRequestBody.
  assert (Hm : exists originalModel, Transform.modelOf body = Ok originalModel).
  { unfold Transform.modelOf.
    destruct (Obj.get body "model") eqn:E; eauto;
      destruct (Hmodel eq_refl) as [m Hm]; discriminate. }
  destruct Hm as [originalModel ->]. cbn [obind].
  rewrite !get_set_other by discriminate.
  destruct (Obj.get body "input") as [| | | | |items|] eqn:Hinput;
    try (cbn; now eexists).
  specialize (Hreadable items eq_refl).
  match goal with
  | |- context [ofilterM ?p items] => destruct (ofilterM_total p items) as [ids ->]
  end.
  { intros a Ha. rewrite forallb_forall in Hreadable.
    destruct (prop_defined a "id" (readable_defined a (Hreadable a Ha))) as [x ->].
    cbn. eauto. }
  cbn [obind].
  destruct (filterInput_readable items Hreadable) as [items' [-> Hitems']].
  cbn [obind]. destruct mode; [|cbn; now eexists].
  destruct (filterPrompts_readable items' Hitems') as [kept ->].
  cbn. now eexists.
Qed.

Lemma filterPrompts_objects (items : list object) (kept : jsval) :
  filterPrompts (JArr (map JObj items)) = Ok kept ->
  exists keep,
    kept = JArr (map JObj (filter keep items)) /\
    (forall o, Obs.systemRole o = false -> keep o = true) /\
    (forall o s, Obs.systemRole o = true -> Obj.get o "content" = JStr s ->
                 Js.startsWith s "You are a coding agent running in" = true ->
                 keep o = false).
Proof.
  unfold Transform.filterOpenCodeSystemPrompts.
  match goal with
  | |- context [ofilterM ?p _] => set (test := p)
  end.
  destruct (ofilterM test (map JObj items)) as [r|] eqn:Hr; [|discriminate].
  cbn [obind]. intros [= <-]. apply ofilterM_Ok in Hr.
  rewrite filter_map_comm in Hr.
  eexists. split; [now rewrite Hr|]. split.
  - intros o Ho. unfold test, Transform.isOpenCodeSystemPrompt. cbn [prop obind].
    destruct (isStr (Obj.get o "role") "user"); [reflexivity|].
    unfold Obs.systemRole in Ho. now rewrite Ho.
  - intros o s Ho Hs Hsig.
    unfold test, Transform.isOpenCodeSystemPrompt, Transform.getContentText.
    cbn [prop obind]. unfold Obs.systemRole in Ho. rewrite Ho, Hs.
    assert (Hu : isStr (Obj.get o "role") "user" = false).
    { destruct (Obj.get o "role") as [| | | |role| |]; try reflexivity.
      cbn in Ho, Hs |- *. destruct (String.eqb_spec role "user") as [->|]; [|reflexivity].
      discriminate. }
    rewrite Hu. cbn [negb obind].
    destruct (String.eqb_spec s "") as [->|_]; [discriminate|].
    cbn [obind]. rewrite Hsig. now rewrite orb_true_r.
Qed.

Lemma filter_all {A} (l : list A) : filter (fun _ => true) l = l.
Proof. induction l as [|a l IH]; simpl; [reflexivity | now rewrite IH]. Qed.

Lemma transform_input_shape (body : object) (instr : string)
    (cfg : Transform.UserConfig) (mode : bool) (out : object)
    (items : list object) :
  Obj.get body "input" = JArr (map JObj items) ->
  transform body instr cfg mode = Ok out ->
  exists before keep,
    Obj.get out "input"
    = JArr (map JObj
              (before
               ++ filter keep
                    (map Spec.stripped
                       (filter (fun o => negb (Spec.isItemReference o)) items)))%list) /\
    (forall o, mode = false \/ Obs.systemRole o = false -> keep o = true) /\
    (forall o s, mode = true -> Obs.systemRole o = true ->
                 Obj.get o "content" = JStr s ->
                 Js.startsWith s "You are a coding agent running in" = true ->
                 keep o = false) /\
    (before = [] \/
     truthy (Obj.get body "tools") = true /\
     exists text, before = [Obs.developerItem text]) /\
    (truthy (Obj.get body "tools") = true -> mode = true ->
     before = [Obs.developerItem CODEX_OPENCODE_BRIDGE]).
Proof.
  intros Hinput H. apply transform_fields in H.
  destruct H as (_ & _ & _ & _ & _ & _ & _ & _ & _ & _ & _ & Hin).
  rewrite Hinput in Hin. destruct Hin as [filtered [Hfiltered Hin]].
  rewrite filterInput_objects in Hfiltered. injection Hfiltered as <-.
  set (L := map Spec.stripped _).
  destruct mode.
  - destruct Hin as [kept [Hkept Hin]].
    apply filterPrompts_objects in Hkept as [keep [-> [Hother Hsig]]].
    rewrite Hin. unfold Transform.addCodexBridgeMessage.
    destruct (truthy (Obj.get body "tools")).
    + exists [Obs.developerItem CODEX_OPENCODE_BRIDGE], keep.
      split; [reflexivity|]. split; [intros o [?|?]; [discriminate | auto]|].
      split; [intros o s _; apply Hsig|].
      split; [right; split; [reflexivity | now eexists] | reflexivity].
    + exists [], keep.
      split; [reflexivity|]. split; [intros o [?|?]; [discriminate | auto]|].
      split; [intros o s _; apply Hsig|].
      split; [now left | discriminate].
  - rewrite Hin. unfold Transform.addToolGuideMessage.
    destruct guide as [text|];
      [destruct (truthy (Obj.get body "tools") && negb (String.eqb text "")) eqn:E|].
    + apply andb_true_iff in E as [Htools _].
      exists [Obs.developerItem text], (fun _ => true). rewrite filter_all.
      split; [reflexivity|]. split; [reflexivity|].
      split; [discriminate|].
      split; [right; split; [exact Htools | now eexists] | discriminate].
    + exists [], (fun _ => true). rewrite filter_all.
      split; [reflexivity|]. split; [reflexivity|].
      split; [discriminate|]. split; [now left | discriminate].
    + exists [], (fun _ => true). rewrite filter_all.
      split; [reflexivity|]. split; [reflexivity|].
      split; [discriminate|]. split; [now left | discriminate].
Qed.

Lemma stripped_clean (o : object) :
  Spec.isItemReference o = false ->
  Spec.hasId (Spec.stripped o) = false /\
  Spec.isItemReference (Spec.stripped o) = false.
Proof.
  intros Hr. unfold Spec.stripped. destruct (Spec.hasId o) eqn:E; [|now split].
  unfold Spec.hasId, Spec.isItemReference.
  rewrite get_delete_same, get_delete_other by discriminate. now split.
Qed.

(** X6. When the input is a list of objects, the input of a transformed
    body is a list of objects none of which is a reference to server state
    or has an identifier; this holds in both modes, with and without the
    inserted developer message. *)
Theorem transformed_input_stateless (body : object) (instr : string)
    (cfg : Transform.UserConfig) (mode : bool) (out : object)
    (items : list object) :
  Obj.get body "input" = JArr (map JObj items) ->
  transform body instr cfg mode = Ok out ->
  exists sent,
    Obj.get out "input" = JArr (map JObj sent) /\
    Forall (fun o => Spec.hasId o = false /\ Spec.isItemReference o = false) sent.
Proof.
  intros Hinput H.
  destruct (transform_input_shape body instr cfg mode out items Hinput H)
    as (before & keep & Hout & _ & _ & Hbefore & _).
  eexists. split; [exact Hout|]. apply Forall_app. split.
  - destruct Hbefore as [-> | [_ [text ->]]]; repeat constructor.
  - apply Forall_forall. intros o Ho. apply filter_In in Ho as [Ho _].
    apply in_map_iff in Ho as [o' [<- Ho']]. apply filter_In in Ho' as [_ Ho'].
    apply stripped_clean. now destruct (Spec.isItemReference o').
Qed.

(** X7. When the input is a list of objects, the input of a transformed
    body is the caller's items in their order, without the references to
    server state and each without its identifier, behind at most one inserted
    developer message, which is there only when the body has tools.  Outside
    codex mode none of those items is dropped.  In codex mode an item is
    dropped only if its role is "developer" or "system"; such an item is
    dropped when its content is a string that starts with "You are a coding
    agent running in"; and with tools the inserted message is the bridge
    prompt. *)
Theorem transformed_input_order (body : object) (instr : string)
    (cfg : Transform.UserConfig) (mode : bool) (out : object)
    (items : list object) :
  Obj.get body "input" = JArr (map JObj items) ->
  transform body instr cfg mode = Ok out ->
  exists before keep,
    Obj.get out "input"
    = JArr (map JObj
              (before
               ++ filter keep
                    (map Spec.stripped
                       (filter (fun o => negb (Spec.isItemReference o)) items)))%list) /\
    (forall o, mode = false \/ Obs.systemRole o = false -> keep o = true) /\
    (forall o s, mode = true -> Obs.systemRole o = true ->
                 Obj.get o "content" = JStr s ->
                 Js.startsWith s "You are a coding agent running in" = true ->
                 keep o = false) /\
    (before = [] \/
     truthy (Obj.get body "tools") = true /\
     exists text, before = [Obs.developerItem text]) /\
    (truthy (Obj.get body "tools") = true -> mode = true ->
     before = [Obs.developerItem CODEX_OPENCODE_BRIDGE]).
Proof. apply transform_input_shape. Qed.

End TransformFacts.

Lemma transformRequestBody_forces_witness :
  Sample.transform Sample.conversation "You are Codex." Sample.perModel true
  = Ok (Sample.transformed true) /\
  Obj.get (Sample.transformed true) "store" = JBool false /\
  Obj.get (Sample.transformed true) "model" = JStr "gpt-5-codex" /\
  Obj.get (Sample.transformed true) "include"
  = JArr [JStr "reasoning.encrypted_content"].
Proof.
  pose (thm := transformRequestBody_forces Example.numberToString None
                 "guide" "remap" "bridge" (Throw "unavailable")
                 Sample.conversation "You are Codex." Sample.perModel true
                 (Sample.transformed true) eq_refl).
  split; [reflexivity|].
  split; [exact (proj1 thm)|].
  split; [exact (proj1 (proj2 (proj2 thm)))|].
  exact (proj1 (proj2 (proj2 (proj2 (proj2 thm))))).
Defined.

Lemma transformRequestBody_frame_witness :
  ~ In "prompt_cache_key" Obs.assignedKeys /\
  Obj.get (Sample.transformed false) "prompt_cache_key" = JStr "session-1".
Proof.
  assert (H : ~ In "prompt_cache_key" Obs.assignedKeys).
  { cbn. intros Hin.
    repeat (destruct Hin as [Hin|Hin]; [discriminate|]). exact Hin. }
  split; [exact H|].
  exact (transformRequestBody_frame Example.numberToString None
           "guide" "remap" "bridge" (Throw "unavailable")
           Sample.conversation "You are Codex." Sample.perModel false
           (Sample.transformed false) "prompt_cache_key" eq_refl H).
Defined.

Lemma transformRequestBody_merges_witness :
  Obj.get (Sample.transformed true) "reasoning"
  = JObj [("effort", JStr "low"); ("encrypted", JBool true);
          ("summary", JStr "concise")] /\
  exists reasoning,
    Obj.get (Sample.transformed true) "reasoning" = JObj reasoning /\
    Obj.get reasoning "encrypted" = JBool true.
Proof.
  split; [reflexivity|].
  destruct (transformRequestBody_merges Example.numberToString None
              "guide" "remap" "bridge" (Throw "unavailable")
              Sample.conversation "You are Codex." Sample.perModel true
              (Sample.transformed true) eq_refl)
    as (reasoning & text & Hr & _ & _ & _ & Hkeep & _).
  exists reasoning. split; [exact Hr|].
  rewrite (Hkeep "encrypted"); [reflexivity | discriminate | discriminate].
Defined.

Lemma transformRequestBody_null_item_witness :
  Sample.transform [("input", JArr [JObj Sample.userItem; JNull])]
    "You are Codex." Transform.emptyUserConfig true
  = Throw "TypeError".
Proof.
  apply (transformRequestBody_null_item Example.numberToString None
           "guide" "remap" "bridge" (Throw "unavailable")
           [("input", JArr [JObj Sample.userItem; JNull])]
           "You are Codex." Transform.emptyUserConfig true
           [JObj Sample.userItem; JNull] eq_refl).
  right. now left.
Defined.

Lemma transformRequestBody_total_witness :
  exists out,
    Sample.transform Sample.conversation "You are Codex." Sample.perModel true
    = Ok out.
Proof.
  apply (transformRequestBody_total Example.numberToString None
           "guide" "remap" "bridge" (Throw "unavailable")
           Sample.conversation "You are Codex." Sample.perModel true).
  - intros _. now exists "gpt-5-codex-low".
  - intros items [= <-]. reflexivity.
Defined.

Lemma transformed_input_stateless_witness :
  exists sent,
    Obj.get (Sample.transformed true) "input" = JArr (map JObj sent) /\
    Forall (fun o => Spec.hasId o = false /\ Spec.isItemReference o = false) sent.
Proof.
  exact (transformed_input_stateless Example.numberToString None
           "guide" "remap" "bridge" (Throw "unavailable")
           Sample.conversation "You are Codex." Sample.perModel true
           (Sample.transformed true)
           [Sample.userItem; Sample.referenceItem; Sample.promptItem]
           eq_refl eq_refl).
Defined.

Lemma transformed_input_order_witness :
  Obj.get (Sample.transformed true) "input"
  = JArr [JObj (Obs.developerItem "bridge");
          JObj [("type", JStr "message"); ("role", JStr "user");
                ("content", JStr "hello")]] /\
  exists before keep,
    Obj.get (Sample.transformed true) "input"
    = JArr (map JObj
              (before
               ++ filter keep
                    (map Spec.stripped
                       (filter (fun o => negb (Spec.isItemReference o))
                          [Sample.userItem; Sample.referenceItem;
                           Sample.promptItem])))%list) /\
    keep Sample.promptItem = false /\
    before = [Obs.developerItem "bridge"].
Proof.
  split; [reflexivity|].
  destruct (transformed_input_order Example.numberToString None
              "guide" "remap" "bridge" (Throw "unavailable")
              Sample.conversation "You are Codex." Sample.perModel true
              (Sample.transformed true)
              [Sample.userItem; Sample.referenceItem; Sample.promptItem]
              eq_refl eq_refl)
    as (before & keep & Hout & _ & Hsig & _ & Hbridge).
  exists before, keep. split; [exact Hout|]. split.
  - apply (Hsig Sample.promptItem
             "You are a coding agent running in the opencode CLI.");
      reflexivity.
  - apply Hbridge; reflexivity.
Defined.

(** ** What the handlers do, path by path *)

Lemma substring0_length (n : nat) (s : string) :
  String.length (Js.substring0 n s) <= n.
Proof.
  revert s; induction n as [|n IH]; intros [|c s]; simpl; try lia.
  specialize (IH s). lia.
Qed.


Lemma quiet_log (a : Proxy.Action) (log : list Proxy.Action) :
  Obs.isResponse a = false ->
  (log = [] \/ exists entry, log = [Proxy.LogProxyError entry]) ->
  Obs.responses (a :: log) = 0.
Proof.
  intros Ha [-> | [entry ->]]; unfold Obs.responses; cbn; now rewrite Ha.
Qed.

Lemma In_fetch_log (a : Proxy.Action) (log : list Proxy.Action)
    (answer : Proxy.Response) (url : string) (hdrs : Proxy.Headers)
    (sent : string) :
  (log = [] \/ exists entry, log = [Proxy.LogProxyError entry]) ->
  In (Proxy.Fetch url hdrs sent) ((a :: log) ++ [Proxy.Forward answer])%list ->
  a = Proxy.Fetch url hdrs sent.
Proof.
  intros [-> | [entry ->]]; cbn; intuition discriminate.
Qed.

Lemma In_forward_log (a : Proxy.Action) (log : list Proxy.Action)
    (answer r : Proxy.Response) :
  Obs.isResponse a = false ->
  (log = [] \/ exists entry, log = [Proxy.LogProxyError entry]) ->
  In (Proxy.Forward r) ((a :: log) ++ [Proxy.Forward answer])%list ->
  r = answer.
Proof.
  intros Ha [-> | [entry ->]]; cbn; intros [H|H]; subst; try discriminate;
    intuition (try discriminate; congruence).
Qed.

Lemma get_ensureInclude_other (b : object) (k : string) :
  k <> "include" -> Obj.get (Proxy.ensureInclude b) k = Obj.get b k.
Proof.
  intros Hk. unfold Proxy.ensureInclude.
  destruct (Obj.get b "include") as [| | | | |[|? ?]|]; try reflexivity;
    now rewrite get_set_other.
Qed.

Lemma not_rewritten (k : string) :
  ~ In k Obs.rewrittenKeys ->
  k <> "metadata" /\ k <> "store" /\ k <> "stream" /\ k <> "instructions" /\
  k <> "input" /\ k <> "include".
Proof. intros H. repeat split; intros ->; apply H; cbn; tauto. Qed.

Section ProxyTraces.

Variable env : string -> option string.
Variable JSON_parse : string -> Outcome object.
Variable JSON_stringify : jsval -> string.
Variable randomUUID : string.
Variable CODEX_BASE_URL : string.
Variable rewriteUrlForCodex : string -> string.
Variable createCodexHeaders : string -> string -> jsval -> jsval -> Proxy.Headers.
Variable fetch : string -> Proxy.Headers -> string -> Outcome Proxy.Response.
Variable convertSseToJson : Proxy.Response -> Outcome Proxy.Response.
Variable consumesBody : Proxy.Response -> bool.
Variable transformRequestForCodex :
  string -> string -> string -> Transform.UserConfig -> bool ->
  Outcome (option Proxy.Transformation).
Variable getCodexInstructions : Outcome string.

Local Abbreviation handle :=
  (Proxy.handleResponsesEndpoint env JSON_parse JSON_stringify randomUUID
     CODEX_BASE_URL rewriteUrlForCodex createCodexHeaders fetch convertSseToJson
     transformRequestForCodex).
Local Abbreviation handleMinimal :=
  (Proxy.handleResponsesEndpointMinimal env JSON_parse JSON_stringify randomUUID
     CODEX_BASE_URL rewriteUrlForCodex createCodexHeaders fetch convertSseToJson
     consumesBody getCodexInstructions).
Local Abbreviation server :=
  (Proxy.server env JSON_parse JSON_stringify randomUUID
     CODEX_BASE_URL rewriteUrlForCodex createCodexHeaders fetch convertSseToJson
     transformRequestForCodex).
Local Abbreviation serverMinimal :=
  (Proxy.serverMinimal env JSON_parse JSON_stringify randomUUID
     CODEX_BASE_URL rewriteUrlForCodex createCodexHeaders fetch convertSseToJson
     consumesBody getCodexInstructions).
Local Abbreviation rewriteBody := (Proxy.rewriteBody env getCodexInstructions).
Local Abbreviation buildCodexUrl :=
  (Proxy.buildCodexUrl CODEX_BASE_URL rewriteUrlForCodex).

(** The paths of the minimal handler. *)
Lemma handleMinimal_traces (x : Proxy.Exchange) :
  (exists s message,
      handleMinimal x = ([Proxy.SendJson s (Proxy.errorPayload message)], Ok tt) /\
      (s = 405 \/ s = 400 \/ s = 401)%Z) \/
  (exists err, handleMinimal x = ([], Throw err)) \/
  (exists raw parsed creds,
      Proxy.method x = "POST" /\ Proxy.rawBody x = Ok raw /\ raw <> "" /\
      JSON_parse raw = Ok parsed /\ Proxy.ensured x = Ok (Some creds) /\
      let url := buildCodexUrl x in
      let hdrs :=
        Proxy.hset
          (createCodexHeaders (Auth.accountId creds) (Auth.access creds)
             (Obj.get (rewriteBody parsed) "model")
             (Obj.get (rewriteBody parsed) "prompt_cache_key"))
          "content-type" "application/json" in
      let sent := JSON_stringify (JObj (rewriteBody parsed)) in
      match fetch url hdrs sent with
      | Throw err => handleMinimal x = ([Proxy.Fetch url hdrs sent], Throw err)
      | Ok upstream =>
          if Obs.stranded (truthy (Obj.get parsed "stream"))
               (convertSseToJson upstream) (consumesBody upstream) upstream
          then
            handleMinimal x
            = ([Proxy.Fetch url hdrs sent],
               Throw "Invalid state: ReadableStream is locked")
          else
          let answer :=
            if truthy (Obj.get parsed "stream") then upstream
            else match convertSseToJson upstream with
                 | Ok converted => converted
                 | Throw _ => upstream
                 end in
          exists log,
            handleMinimal x
            = ((Proxy.Fetch url hdrs sent :: log) ++ [Proxy.Forward answer], Ok tt)%list /\
            (log = [] /\
             (Proxy.ok answer = true \/ exists err, Proxy.cloneText answer = Throw err)
             \/
             exists entry text,
               log = [Proxy.LogProxyError entry] /\
               Proxy.ok answer = false /\
               Proxy.cloneText answer = Ok text /\
               Obj.get entry "url" = JStr url /\
               Obj.get entry "status" = JNum (Proxy.status answer) /\
               Obj.get entry "responseBody" = JStr (Js.substring0 (80 * 100) text))
      end).
Proof.
  unfold Proxy.handleResponsesEndpointMinimal.
  destruct (String.eqb_spec (Proxy.method x) "POST") as [Hm|Hm]; cbn [negb];
    [|left; exists 405%Z; eexists; split; [reflexivity | auto]].
  destruct (Proxy.rawBody x) as [raw|err] eqn:Hraw;
    [|right; left; exists err; reflexivity].
  rewrite bind_lift_Ok.
  destruct (String.eqb_spec raw "") as [->|Hne];
    [left; exists 400%Z; eexists; split; [reflexivity | auto]|].
  destruct (JSON_parse raw) as [parsed|message] eqn:Hparse;
    [|left; exists 400%Z; eexists; split; [reflexivity | auto]].
  cbv zeta.
  destruct (Proxy.ensured x) as [[creds|]|err] eqn:Hauth;
    [rewrite bind_lift_Ok
    |left; exists 401%Z; eexists; split; [reflexivity | auto]
    |right; left; exists err; reflexivity].
  right; right. exists raw, parsed, creds.
  do 5 (split; [first [assumption | reflexivity]|]).
  unfold Proxy.callUpstream.
  destruct (fetch _ _ _) as [upstream|err] eqn:Hfetch; [|reflexivity].
  unfold Proxy.logUpstreamError, Proxy.forwardResponse, Proxy.tryCatch,
    Obs.stranded.
  cbn [Proxy.bind Proxy.act Proxy.lift].
  destruct (truthy (Obj.get parsed "stream")); cbn [negb andb];
    [|destruct (convertSseToJson upstream) as [converted|?];
      [|cbn [Proxy.bind Proxy.lift Proxy.ret fst snd];
        destruct (Proxy.unreadable (consumesBody upstream) upstream);
        [cbn; now destruct (Proxy.ok upstream)|]]]; cbn;
    match goal with
    | |- context [Proxy.ok ?r] =>
        destruct (Proxy.ok r) eqn:Hok;
        [exists []
        |destruct (Proxy.cloneText r) as [text|?] eqn:Hclone;
         [eexists [Proxy.LogProxyError _] | exists []]]
    end; cbn; (split; [reflexivity|]);
    first [ left; split; [reflexivity|]; first [now left | right; now eexists]
          | right; do 2 eexists; repeat split; reflexivity ].
Qed.

(** The paths of the handler that transforms through
    [transformRequestForCodex]. *)
Lemma handle_traces (x : Proxy.Exchange) (context : Proxy.ProxyContext) :
  (exists s message,
      handle x context = ([Proxy.SendJson s (Proxy.errorPayload message)], Ok tt) /\
      (s = 405 \/ s = 400 \/ s = 401)%Z) \/
  (exists err, handle x context = ([], Throw err)) \/
  (exists raw parsed creds transformation,
      Proxy.method x = "POST" /\ Proxy.rawBody x = Ok raw /\ raw <> "" /\
      JSON_parse raw = Ok parsed /\ Proxy.ensured x = Ok (Some creds) /\
      let sanitized :=
        JSON_stringify
          (JObj (if truthy (Obj.get parsed "metadata")
                 then Obj.delete parsed "metadata" else parsed)) in
      let url := buildCodexUrl x in
      transformRequestForCodex sanitized url (Proxy.instructions context)
        (Proxy.userConfig context) (Proxy.codexMode context)
      = Ok transformation /\
      let bodyForHeaders :=
        match transformation with
        | Some t => Proxy.transformedBody t
        | None => None
        end in
      let hdrs :=
        Proxy.hset
          (createCodexHeaders (Auth.accountId creds) (Auth.access creds)
             (Proxy.optProp bodyForHeaders "model")
             (Proxy.optProp bodyForHeaders "prompt_cache_key"))
          "content-type" "application/json" in
      let sent :=
        match transformation with
        | Some {| Proxy.updatedInitBody := Some b |} => b
        | _ => sanitized
        end in
      match fetch url hdrs sent with
      | Throw err => handle x context = ([Proxy.Fetch url hdrs sent], Throw err)
      | Ok upstream =>
          match (if Proxy.FORCE_JSON_RESPONSES env
                 then convertSseToJson upstream else Ok upstream) with
          | Throw err => handle x context = ([Proxy.Fetch url hdrs sent], Throw err)
          | Ok answer =>
              exists log,
                handle x context
                = ((Proxy.Fetch url hdrs sent :: log) ++ [Proxy.Forward answer],
                   Ok tt)%list /\
                (log = [] /\
                 (Proxy.ok answer = true \/
                  exists err, Proxy.cloneText answer = Throw err)
                 \/
                 exists entry text,
                   log = [Proxy.LogProxyError entry] /\
                   Proxy.ok answer = false /\
                   Proxy.cloneText answer = Ok text /\
                   Obj.get entry "url" = JStr url /\
                   Obj.get entry "status" = JNum (Proxy.status answer) /\
                   Obj.get entry "responseBody"
                   = JStr (Js.substring0 (80 * 100) text))
          end
      end).
Proof.
  unfold Proxy.handleResponsesEndpoint.
  destruct (String.eqb_spec (Proxy.method x) "POST") as [Hm|Hm]; cbn [negb];
    [|left; exists 405%Z; eexists; split; [reflexivity | auto]].
  destruct (Proxy.rawBody x) as [raw|err] eqn:Hraw;
    [|right; left; exists err; reflexivity].
  rewrite bind_lift_Ok.
  destruct (String.eqb_spec raw "") as [->|Hne];
    [left; exists 400%Z; eexists; split; [reflexivity | auto]|].
  destruct (JSON_parse raw) as [parsed|message] eqn:Hparse;
    [|left; exists 400%Z; eexists; split; [reflexivity | auto]].
  cbv zeta.
  destruct (Proxy.ensured x) as [[creds|]|err] eqn:Hauth;
    [rewrite bind_lift_Ok
    |left; exists 401%Z; eexists; split; [reflexivity | auto]
    |right; left; exists err; reflexivity].
  destruct (transformRequestForCodex _ _ _ _ _) as [transformation|err] eqn:Htr;
    [rewrite bind_lift_Ok | right; left; exists err; reflexivity].
  right; right. exists raw, parsed, creds, transformation.
  do 5 (split; [first [assumption | reflexivity]|]).
  split; [exact Htr|].
  unfold Proxy.callUpstream.
  destruct (fetch _ _ _) as [upstream|err] eqn:Hfetch; [|reflexivity].
  unfold Proxy.logUpstreamError.
  cbn [Proxy.bind Proxy.act Proxy.lift].
  destruct (Proxy.FORCE_JSON_RESPONSES env);
    [destruct (convertSseToJson upstream) as [converted|?]; [|reflexivity]|];
    cbn;
    match goal with
    | |- context [Proxy.ok ?r] =>
        destruct (Proxy.ok r) eqn:Hok;
        [exists []
        |destruct (Proxy.cloneText r) as [text|?] eqn:Hclone;
         [eexists [Proxy.LogProxyError _] | exists []]]
    end; cbn; (split; [reflexivity|]);
    first [ left; split; [reflexivity|]; first [now left | right; now eexists]
          | right; do 2 eexists; repeat split; reflexivity ].
Qed.

(** The answers of the server of the minimal variant. *)
Lemma serverMinimal_traces (x : Proxy.Exchange) :
  (Spec.healthCheck x = true /\
   serverMinimal x = [Proxy.SendJson 200 (JObj [("ok", JBool true)])]) \/
  (exists s message,
      serverMinimal x = [Proxy.SendJson s (Proxy.errorPayload message)] /\
      (s = 500%Z /\ message = "Internal server error" \/
       s = 404%Z /\ message = "Not found" \/
       s = 405%Z \/ s = 400%Z \/ s = 401%Z)) \/
  (Spec.proxiedPath x = true /\
   exists raw parsed creds,
      Proxy.method x = "POST" /\ Proxy.rawBody x = Ok raw /\ raw <> "" /\
      JSON_parse raw = Ok parsed /\ Proxy.ensured x = Ok (Some creds) /\
      let url := buildCodexUrl x in
      let hdrs :=
        Proxy.hset
          (createCodexHeaders (Auth.accountId creds) (Auth.access creds)
             (Obj.get (rewriteBody parsed) "model")
             (Obj.get (rewriteBody parsed) "prompt_cache_key"))
          "content-type" "application/json" in
      let sent := JSON_stringify (JObj (rewriteBody parsed)) in
      match fetch url hdrs sent with
      | Throw _ =>
          serverMinimal x
          = [Proxy.Fetch url hdrs sent;
             Proxy.SendJson 500 (Proxy.errorPayload "Internal server error")]
      | Ok upstream =>
          if Obs.stranded (truthy (Obj.get parsed "stream"))
               (convertSseToJson upstream) (consumesBody upstream) upstream
          then
            serverMinimal x
            = [Proxy.Fetch url hdrs sent;
               Proxy.SendJson 500 (Proxy.errorPayload "Internal server error")]
          else
          let answer :=
            if truthy (Obj.get parsed "stream") then upstream
            else match convertSseToJson upstream with
                 | Ok converted => converted
                 | Throw _ => upstream
                 end in
          exists log,
            serverMinimal x
            = ((Proxy.Fetch url hdrs sent :: log) ++ [Proxy.Forward answer])%list /\
            (log = [] /\
             (Proxy.ok answer = true \/ exists err, Proxy.cloneText answer = Throw err)
             \/
             exists entry text,
               log = [Proxy.LogProxyError entry] /\
               Proxy.ok answer = false /\
               Proxy.cloneText answer = Ok text /\
               Obj.get entry "url" = JStr url /\
               Obj.get entry "status" = JNum (Proxy.status answer) /\
               Obj.get entry "responseBody" = JStr (Js.substring0 (80 * 100) text))
      end).
Proof.
  unfold Proxy.serverMinimal, Proxy.requestListener. rewrite route_cases.
  destruct (Spec.healthCheck x) eqn:Hh; [left; split; reflexivity|].
  destruct (Spec.proxiedPath x) eqn:Hp;
    [|right; left; exists 404%Z, "Not found"; split; [reflexivity | auto]].
  destruct (handleMinimal_traces x)
    as [(s & message & -> & Hs)
       | [(err & ->)
         | (raw & parsed & creds & Hm & Hraw & Hne & Hparse & Hauth & Hrest)]].
  - right; left. exists s, message. split; [reflexivity | right; right; exact Hs].
  - right; left. exists 500%Z, "Internal server error". split; [reflexivity | auto].
  - right; right. split; [reflexivity|]. exists raw, parsed, creds.
    do 5 (split; [assumption|]).
    cbv zeta in Hrest |- *. destruct (fetch _ _ _) as [upstream|err].
    + destruct (Obs.stranded _ _ _ _); [rewrite Hrest; reflexivity|].
      destruct Hrest as [log [-> Hlog]]. exists log. split; [reflexivity | exact Hlog].
    + rewrite Hrest. reflexivity.
Qed.

(** The answers of the server that transforms through
    [transformRequestForCodex]. *)
Lemma server_traces (context : Proxy.ProxyContext) (x : Proxy.Exchange) :
  (Spec.healthCheck x = true /\
   server context x = [Proxy.SendJson 200 (JObj [("ok", JBool true)])]) \/
  (exists s message,
      server context x = [Proxy.SendJson s (Proxy.errorPayload message)] /\
      (s = 500%Z /\ message = "Internal server error" \/
       s = 404%Z /\ message = "Not found" \/
       s = 405%Z \/ s = 400%Z \/ s = 401%Z)) \/
  (Spec.proxiedPath x = true /\
   exists raw parsed creds transformation,
      Proxy.method x = "POST" /\ Proxy.rawBody x = Ok raw /\ raw <> "" /\
      JSON_parse raw = Ok parsed /\ Proxy.ensured x = Ok (Some creds) /\
      let sanitized :=
        JSON_stringify
          (JObj (if truthy (Obj.get parsed "metadata")
                 then Obj.delete parsed "metadata" else parsed)) in
      let url := buildCodexUrl x in
      transformRequestForCodex sanitized url (Proxy.instructions context)
        (Proxy.userConfig context) (Proxy.codexMode context)
      = Ok transformation /\
      let bodyForHeaders :=
        match transformation with
        | Some t => Proxy.transformedBody t
        | None => None
        end in
      let hdrs :=
        Proxy.hset
          (createCodexHeaders (Auth.accountId creds) (Auth.access creds)
             (Proxy.optProp bodyForHeaders "model")
             (Proxy.optProp bodyForHeaders "prompt_cache_key"))
          "content-type" "application/json" in
      let sent :=
        match transformation with
        | Some {| Proxy.updatedInitBody := Some b |} => b
        | _ => sanitized
        end in
      match fetch url hdrs sent with
      | Throw _ =>
          server context x
          = [Proxy.Fetch url hdrs sent;
             Proxy.SendJson 500 (Proxy.errorPayload "Internal server error")]
      | Ok upstream =>
          match (if Proxy.FORCE_JSON_RESPONSES env
                 then convertSseToJson upstream else Ok upstream) with
          | Throw _ =>
              server context x
              = [Proxy.Fetch url hdrs sent;
                 Proxy.SendJson 500 (Proxy.errorPayload "Internal server error")]
          | Ok answer =>
              exists log,
                server context x
                = ((Proxy.Fetch url hdrs sent :: log)
                   ++ [Proxy.Forward answer])%list /\
                (log = [] /\
                 (Proxy.ok answer = true \/
                  exists err, Proxy.cloneText answer = Throw err)
                 \/
                 exists entry text,
                   log = [Proxy.LogProxyError entry] /\
                   Proxy.ok answer = false /\
                   Proxy.cloneText answer = Ok text /\
                   Obj.get entry "url" = JStr url /\
                   Obj.get entry "status" = JNum (Proxy.status answer) /\
                   Obj.get entry "responseBody"
                   = JStr (Js.substring0 (80 * 100) text))
          end
      end).
Proof.
  unfold Proxy.server, Proxy.requestListener. rewrite route_cases.
  destruct (Spec.healthCheck x) eqn:Hh; [left; split; reflexivity|].
  destruct (Spec.proxiedPath x) eqn:Hp;
    [|right; left; exists 404%Z, "Not found"; split; [reflexivity | auto]].
  destruct (handle_traces x context)
    as [(s & message & -> & Hs)
       | [(err & ->)
         | (raw & parsed & creds & transformation & Hm & Hraw & Hne & Hparse
            & Hauth & Htr & Hrest)]].
  - right; left. exists s, message. split; [reflexivity | right; right; exact Hs].
  - right; left. exists 500%Z, "Internal server error". split; [reflexivity | auto].
  - right; right. split; [reflexivity|]. exists raw, parsed, creds, transformation.
    do 5 (split; [assumption|]). split; [exact Htr|].
    cbv zeta in Hrest |- *. destruct (fetch _ _ _) as [upstream|err].
    + destruct (if Proxy.FORCE_JSON_RESPONSES env then _ else _) as [answer|err].
      * destruct Hrest as [log [-> Hlog]]. exists log.
        split; [reflexivity | exact Hlog].
      * rewrite Hrest. reflexivity.
    + rewrite Hrest. reflexivity.
Qed.

(** X9. A request whose awaits have all settled has been sent exactly
    one answer, and the answer is the last thing the server does for it:
    whichever path the request takes, in either variant, the actions of the
    server end with one answer sent by [sendJson] or [forwardResponse] (or
    with [res.end]), and nothing is sent before it.  A [forwardResponse]
    that throws has sent nothing, since it throws on taking the reader; the
    500 of the listener is then the one answer. *)
Theorem answered_once (context : Proxy.ProxyContext) (x : Proxy.Exchange) :
  Obs.AnsweredOnce (server context x) /\ Obs.AnsweredOnce (serverMinimal x).
Proof.
  split.
  - destruct (server_traces context x)
      as [[_ ->] | [(s & message & -> & _) | (_ & raw & parsed & creds & tr & H)]];
      [now exists [], (Proxy.SendJson 200 (JObj [("ok", JBool true)]))
      |now exists [], (Proxy.SendJson s (Proxy.errorPayload message))|].
    destruct H as (_ & _ & _ & _ & _ & _ & H). cbv zeta in H.
    destruct (fetch _ _ _) as [upstream|err];
      [destruct (if Proxy.FORCE_JSON_RESPONSES env then _ else _) as [answer|err]|].
    + destruct H as [log [-> Hlog]].
      eexists. eexists. split; [reflexivity|]. split; [reflexivity|].
      apply quiet_log; [reflexivity|].
      destruct Hlog as [[-> _] | (entry & text & -> & _)]; eauto.
    + rewrite H. now eexists [_], _.
    + rewrite H. now eexists [_], _.
  - destruct (serverMinimal_traces x)
      as [[_ ->] | [(s & message & -> & _) | (_ & raw & parsed & creds & H)]];
      [now exists [], (Proxy.SendJson 200 (JObj [("ok", JBool true)]))
      |now exists [], (Proxy.SendJson s (Proxy.errorPayload message))|].
    destruct H as (_ & _ & _ & _ & _ & H). cbv zeta in H.
    destruct (fetch _ _ _) as [upstream|err];
      [destruct (Obs.stranded _ _ _ _)|].
    + rewrite H. now eexists [_], _.
    + destruct H as [log [-> Hlog]].
      eexists. eexists. split; [reflexivity|]. split; [reflexivity|].
      apply quiet_log; [reflexivity|].
      destruct Hlog as [[-> _] | (entry & text & -> & _)]; eauto.
    + rewrite H. now eexists [_], _.
Qed.

(** What the two servers have in common. *)
Lemma either_traces (context : Proxy.ProxyContext) (x : Proxy.Exchange)
    (l : list Proxy.Action) :
  l = server context x \/ l = serverMinimal x ->
  (Spec.healthCheck x = true /\
   l = [Proxy.SendJson 200 (JObj [("ok", JBool true)])]) \/
  (exists s message,
      l = [Proxy.SendJson s (Proxy.errorPayload message)] /\
      (s = 500%Z /\ message = "Internal server error" \/
       s = 404%Z /\ message = "Not found" \/
       s = 405%Z \/ s = 400%Z \/ s = 401%Z)) \/
  (Spec.proxiedPath x = true /\ Proxy.method x = "POST" /\
   exists creds model key sent,
     Proxy.ensured x = Ok (Some creds) /\
     let url := buildCodexUrl x in
     let hdrs :=
       Proxy.hset
         (createCodexHeaders (Auth.accountId creds) (Auth.access creds) model key)
         "content-type" "application/json" in
     (l = [Proxy.Fetch url hdrs sent;
           Proxy.SendJson 500 (Proxy.errorPayload "Internal server error")] /\
      ((exists err, fetch url hdrs sent = Throw err) \/
       exists upstream err,
         fetch url hdrs sent = Ok upstream /\
         convertSseToJson upstream = Throw err)) \/
     exists upstream answer log,
       fetch url hdrs sent = Ok upstream /\
       (answer = upstream \/ convertSseToJson upstream = Ok answer) /\
       l = ((Proxy.Fetch url hdrs sent :: log) ++ [Proxy.Forward answer])%list /\
       (log = [] /\
        (Proxy.ok answer = true \/ exists err, Proxy.cloneText answer = Throw err)
        \/
        exists entry text,
          log = [Proxy.LogProxyError entry] /\
          Proxy.ok answer = false /\
          Proxy.cloneText answer = Ok text /\
          Obj.get entry "url" = JStr url /\
          Obj.get entry "status" = JNum (Proxy.status answer) /\
          Obj.get entry "responseBody" = JStr (Js.substring0 (80 * 100) text))).
Proof.
  intros [-> | ->].
  - destruct (server_traces context x)
      as [H | [H | (Hp & raw & parsed & creds & tr & Hm & _ & _ & _ & Hauth & _ & H)]];
      [now left | right; now left |].
    right; right. split; [exact Hp|]. split; [exact Hm|].
    cbv zeta in H. exists creds. do 3 eexists. split; [exact Hauth|]. cbv zeta.
    destruct (fetch _ _ _) as [upstream|err] eqn:Hfetch.
    + destruct (Proxy.FORCE_JSON_RESPONSES env).
      * destruct (convertSseToJson upstream) as [converted|err] eqn:Hconv.
        -- right. destruct H as [log [H Hlog]].
           exists upstream, converted, log. rewrite Hfetch. auto.
        -- left. rewrite Hfetch. split; [exact H | right; eauto].
      * right. destruct H as [log [H Hlog]].
        exists upstream, upstream, log. rewrite Hfetch. auto.
    + left. rewrite Hfetch. split; [exact H | left; eauto].
  - destruct (serverMinimal_traces x)
      as [H | [H | (Hp & raw & parsed & creds & Hm & _ & _ & _ & Hauth & H)]];
      [now left | right; now left |].
    right; right. split; [exact Hp|]. split; [exact Hm|].
    cbv zeta in H. exists creds. do 3 eexists. split; [exact Hauth|]. cbv zeta.
    destruct (fetch _ _ _) as [upstream|err] eqn:Hfetch.
    + destruct (Obs.stranded _ _ _ _) eqn:Hstranded.
      * left. rewrite Hfetch. split; [exact H|]. right.
        unfold Obs.stranded in Hstranded.
        destruct (convertSseToJson upstream) as [converted|err] eqn:Hconv;
          [now rewrite andb_false_r in Hstranded | eauto].
      * right. destruct H as [log [H Hlog]].
        eexists upstream, _, log. rewrite Hfetch.
        split; [reflexivity|]. split; [|split; [exact H | exact Hlog]].
        destruct (truthy (Obj.get parsed "stream")); [now left|].
        destruct (convertSseToJson upstream); auto.
    + left. rewrite Hfetch. split; [exact H | left; eauto].
Qed.


(** X11. A GET of "/health" is answered [{ok: true}] with status 200, in
    either variant and whatever the state of the credentials, and nothing
    else is done for it.  Every other answer a server gives by itself is an
    object [{error: message}] with one of the statuses 400, 401, 404, 405
    and 500; the message of a 500 is always "Internal server error",
    whatever the exception was, and that of a 404 is "Not found". *)
Theorem own_answers (context : Proxy.ProxyContext) (x : Proxy.Exchange)
    (l : list Proxy.Action) :
  l = server context x \/ l = serverMinimal x ->
  (Spec.healthCheck x = true ->
   l = [Proxy.SendJson 200 (JObj [("ok", JBool true)])]) /\
  (forall s payload,
      In (Proxy.SendJson s payload) l ->
      (s = 200%Z /\ payload = JObj [("ok", JBool true)] /\
       Spec.healthCheck x = true) \/
      (In s [400; 401; 404; 405; 500]%Z /\
       exists message,
         payload = Proxy.errorPayload message /\
         (s = 500%Z -> message = "Internal server error") /\
         (s = 404%Z -> message = "Not found"))).
Proof.
  intros Hl. split.
  { intros Hh.
    destruct Hl as [-> | ->];
      unfold Proxy.server, Proxy.serverMinimal, Proxy.requestListener;
      rewrite route_cases, Hh; reflexivity. }
  intros s payload Hin.
  destruct (either_traces context x l Hl)
    as [[Hh ->] | [(s' & message & -> & Hs)
                  | (Hp & Hm & creds & model & key & body & Hauth & H)]].
  - destruct Hin as [[= <- <-]|[]]. now left.
  - destruct Hin as [[= <- <-]|[]]. right. split.
    + cbn. intuition (subst; auto).
    + exists message. split; [reflexivity|].
      split; intros ->; intuition (try discriminate; auto).
  - cbv zeta in H. right.
    assert (Hfixed : In 500%Z [400; 401; 404; 405; 500]%Z /\
                     exists message,
                       Proxy.errorPayload "Internal server error"
                       = Proxy.errorPayload message /\
                       (500%Z = 500%Z -> message = "Internal server error") /\
                       (500%Z = 404%Z -> message = "Not found")).
    { split; [cbn; tauto|]. eexists. split; [reflexivity|].
      split; [reflexivity | discriminate]. }
    destruct H as [[-> _] | (upstream & answer & log & _ & _ & -> & Hlog)].
    + destruct Hin as [Hin|[[= <- <-]|[]]]; [discriminate | exact Hfixed].
    + exfalso.
      destruct Hlog as [[-> _] | (entry & text & -> & _)]; cbn in Hin;
        intuition discriminate.
Qed.

(** X12. In either variant at most one entry goes to the error log for a
    request.  An entry is written only for the response that is forwarded to
    the client, only when the status of that response is outside 200-299,
    and it holds that status and at most the first 8000 characters of the
    body; every forwarded response with such a status whose body can be
    read is logged. *)
Theorem error_log (context : Proxy.ProxyContext) (x : Proxy.Exchange)
    (l : list Proxy.Action) :
  l = server context x \/ l = serverMinimal x ->
  (forall entry,
      In (Proxy.LogProxyError entry) l ->
      exists answer text,
        In (Proxy.Forward answer) l /\
        Proxy.ok answer = false /\
        Proxy.cloneText answer = Ok text /\
        Obj.get entry "status" = JNum (Proxy.status answer) /\
        Obj.get entry "responseBody" = JStr (Js.substring0 (80 * 100) text) /\
        String.length (Js.substring0 (80 * 100) text) <= 80 * 100) /\
  (forall answer text,
      In (Proxy.Forward answer) l ->
      Proxy.ok answer = false -> Proxy.cloneText answer = Ok text ->
      exists entry, In (Proxy.LogProxyError entry) l) /\
  List.length
    (filter (fun a => match a with Proxy.LogProxyError _ => true | _ => false end) l)
  <= 1.
Proof.
  intros Hl.
  destruct (either_traces context x l Hl)
    as [[Hh ->] | [(s' & message & -> & Hs)
                  | (Hp & Hm & creds & model & key & body & Hauth & H)]].
  - split; [|split]; [intros ? [?|[]]; discriminate
                     |intros ? ? [?|[]]; discriminate | cbn; lia].
  - split; [|split]; [intros ? [?|[]]; discriminate
                     |intros ? ? [?|[]]; discriminate | cbn; lia].
  - cbv zeta in H.
    destruct H as [[-> _] | (upstream & answer & log & _ & _ & -> & Hlog)].
    + split; [|split]; [intros ? [?|[?|[]]]; discriminate
                       |intros ? ? [?|[?|[]]]; discriminate | cbn; lia].
    + destruct Hlog as [[-> Hquiet] | (entry & text & -> & Hok & Hclone & _ & Hs & Hb)].
      * split; [|split]; [intros ? [?|[?|[]]]; discriminate | | cbn; lia].
        intros answer' text [?|[[= <-]|[]]]; [discriminate|].
        intros Hok Hclone. destruct Hquiet as [?|[err ?]]; congruence.
      * split; [|split]; [| |cbn; lia].
        -- intros entry' [?|[[= <-]|[?|[]]]]; try discriminate.
           exists answer, text. split; [cbn; tauto|].
           repeat (split; [assumption|]). apply substring0_length.
        -- intros. exists entry. cbn. tauto.
Qed.

(** X13. When the upstream cannot be reached (the call throws), the client
    is answered 500 "Internal server error" in either variant: nothing is
    forwarded, nothing is logged, and the call is not repeated. *)
Theorem upstream_failure (context : Proxy.ProxyContext) (x : Proxy.Exchange)
    (l : list Proxy.Action) (url : string) (hdrs : Proxy.Headers)
    (sent err : string) :
  l = server context x \/ l = serverMinimal x ->
  In (Proxy.Fetch url hdrs sent) l ->
  fetch url hdrs sent = Throw err ->
  l = [Proxy.Fetch url hdrs sent;
       Proxy.SendJson 500 (Proxy.errorPayload "Internal server error")].
Proof.
  intros Hl Hin Hfetch.
  destruct (either_traces context x l Hl)
    as [[Hh ->] | [(s' & message & -> & Hs)
                  | (Hp & Hm & creds & model & key & body & Hauth & H)]].
  - destruct Hin as [?|[]]; discriminate.
  - destruct Hin as [?|[]]; discriminate.
  - cbv zeta in H.
    destruct H as [[-> _] | (upstream & answer & log & Hok & _ & -> & Hlog)].
    + destruct Hin as [[= <- <- <-]|[?|[]]]; [reflexivity | discriminate].
    + exfalso.
      assert (Hsame : Proxy.Fetch (buildCodexUrl x)
                        (Proxy.hset
                           (createCodexHeaders (Auth.accountId creds)
                              (Auth.access creds) model key)
                           "content-type" "application/json") body
                      = Proxy.Fetch url hdrs sent).
      { destruct Hlog as [[-> _] | (entry & text & -> & _)]; cbn in Hin;
          intuition discriminate. }
      injection Hsame as <- <- <-. congruence.
Qed.

(** X14. What the minimal variant forwards to the client is made from the
    response of its one upstream call, to which it sent the serialized
    rewritten body: the upstream response itself when the client asked for a
    stream, whatever the conversion would do with it; and the converted
    response when the client did not and the conversion succeeds. *)
Theorem forwarded_answer (x : Proxy.Exchange) (answer : Proxy.Response) :
  In (Proxy.Forward answer) (serverMinimal x) ->
  exists raw parsed url hdrs upstream,
    Proxy.rawBody x = Ok raw /\ JSON_parse raw = Ok parsed /\
    In (Proxy.Fetch url hdrs (JSON_stringify (JObj (rewriteBody parsed))))
       (serverMinimal x) /\
    fetch url hdrs (JSON_stringify (JObj (rewriteBody parsed))) = Ok upstream /\
    (truthy (Obj.get parsed "stream") = true -> answer = upstream) /\
    (truthy (Obj.get parsed "stream") = false ->
     forall converted, convertSseToJson upstream = Ok converted ->
                       answer = converted).
Proof.
  intros Hin.
  destruct (serverMinimal_traces x)
    as [[_ H] | [(s & message & H & _)
                | (_ & raw & parsed & creds & _ & Hraw & _ & Hparse & _ & H)]];
    [rewrite H in Hin; destruct Hin as [?|[]]; discriminate
    |rewrite H in Hin; destruct Hin as [?|[]]; discriminate|].
  cbv zeta in H. destruct (fetch _ _ _) as [upstream|err] eqn:Hfetch;
    [destruct (Obs.stranded _ _ _ _);
     [rewrite H in Hin; destruct Hin as [?|[?|[]]]; discriminate|]|].
  - destruct H as [log [H Hlog]].
    assert (Hlog' : log = [] \/ exists entry, log = [Proxy.LogProxyError entry]).
    { destruct Hlog as [[-> _] | (entry & text & -> & _)]; eauto. }
    rewrite H in Hin. apply In_forward_log in Hin; [|reflexivity | exact Hlog'].
    exists raw, parsed. do 2 eexists. exists upstream.
    split; [exact Hraw|]. split; [exact Hparse|].
    split; [rewrite H; now left|]. split; [exact Hfetch|].
    subst answer. split.
    + now intros ->.
    + intros -> converted ->. reflexivity.
  - rewrite H in Hin. destruct Hin as [?|[?|[]]]; discriminate.
Qed.

(** X15. The variant that transforms through [transformRequestForCodex]
    converts every answer of the upstream unless the environment variable
    CODEX_PROXY_FORCE_JSON is "0".  With conversion off the upstream
    response is forwarded as it is; with conversion on the converted response
    is forwarded; and when the conversion fails there is no fallback: the
    client is answered 500 "Internal server error" and nothing is
    forwarded. *)
Theorem forced_conversion (context : Proxy.ProxyContext) (x : Proxy.Exchange)
    (url : string) (hdrs : Proxy.Headers) (sent : string)
    (upstream : Proxy.Response) :
  In (Proxy.Fetch url hdrs sent) (server context x) ->
  fetch url hdrs sent = Ok upstream ->
  (Proxy.FORCE_JSON_RESPONSES env = false <-> env "CODEX_PROXY_FORCE_JSON" = Some "0") /\
  (Proxy.FORCE_JSON_RESPONSES env = false ->
   last (server context x) Proxy.EndResponse = Proxy.Forward upstream) /\
  (Proxy.FORCE_JSON_RESPONSES env = true ->
   forall converted, convertSseToJson upstream = Ok converted ->
     last (server context x) Proxy.EndResponse = Proxy.Forward converted) /\
  (Proxy.FORCE_JSON_RESPONSES env = true ->
   forall err, convertSseToJson upstream = Throw err ->
     server context x
     = [Proxy.Fetch url hdrs sent;
        Proxy.SendJson 500 (Proxy.errorPayload "Internal server error")]).
Proof.
  intros Hin Hok. split.
  { unfold Proxy.FORCE_JSON_RESPONSES, Proxy.envIs.
    destruct (env "CODEX_PROXY_FORCE_JSON") as [v|]; cbn.
    - destruct (String.eqb_spec v "0") as [->|Hv]; cbn; split;
        congruence.
    - split; discriminate. }
  destruct (server_traces context x)
    as [[_ H] | [(s & message & H & _)
                | (_ & raw & parsed & creds & tr & _ & _ & _ & _ & _ & _ & H)]];
    [rewrite H in Hin; destruct Hin as [?|[]]; discriminate
    |rewrite H in Hin; destruct Hin as [?|[]]; discriminate|].
  cbv zeta in H.
  match type of H with
  | match fetch ?u ?h ?b with _ => _ end =>
      assert (Hsame : Proxy.Fetch u h b = Proxy.Fetch url hdrs sent);
      [destruct (fetch u h b) as [up|err];
       [destruct (if Proxy.FORCE_JSON_RESPONSES env then _ else _) as [answer|err]|]|]
  end.
  - destruct H as [log [H Hlog]]. rewrite H in Hin.
    apply In_fetch_log in Hin; [exact Hin|].
    destruct Hlog as [[-> _] | (entry & text & -> & _)]; eauto.
  - rewrite H in Hin. destruct Hin as [?|[?|[]]]; [assumption | discriminate].
  - rewrite H in Hin. destruct Hin as [?|[?|[]]]; [assumption | discriminate].
  - injection Hsame as <- <- <-. rewrite Hok in H.
    destruct (Proxy.FORCE_JSON_RESPONSES env).
    + split; [discriminate|]. split.
      * intros _ converted Hc. rewrite Hc in H. destruct H as [log [-> _]].
        apply last_last.
      * intros _ err Hc. now rewrite Hc in H.
    + split; [|split; discriminate].
      intros _. destruct H as [log [-> _]]. apply last_last.
Qed.

(** *** Where the handlers depart from the specification *)

(** C2, where the code departs from it.  The client did not ask for a
    stream, the upstream call has returned a response, and converting
    that response fails.  The minimal variant catches the failure and
    falls back to the upstream response; but when the converter has left
    the body of that response locked, as it does once it has started to
    read the events, [forwardResponse] throws on taking a reader, and the
    client is answered 500 "Internal server error" with nothing of the
    upstream stream.  Only when the body is still free, or there is none,
    is the upstream response relayed, with no error answer.  The variant
    that converts under CODEX_PROXY_FORCE_JSON has no [catch] around the
    conversion: there every failure of the conversion is answered 500. *)
Theorem consolidation_failure_answered_500 (context : Proxy.ProxyContext)
    (x : Proxy.Exchange) (raw : string) (parsed : object)
    (url : string) (hdrs : Proxy.Headers) (sent : string)
    (upstream : Proxy.Response) (err : string) :
  Proxy.rawBody x = Ok raw -> JSON_parse raw = Ok parsed ->
  fetch url hdrs sent = Ok upstream ->
  convertSseToJson upstream = Throw err ->
  (truthy (Obj.get parsed "stream") = false ->
   In (Proxy.Fetch url hdrs sent) (serverMinimal x) ->
   (consumesBody upstream = true -> Proxy.body upstream <> None ->
    serverMinimal x
    = [Proxy.Fetch url hdrs sent;
       Proxy.SendJson 500 (Proxy.errorPayload "Internal server error")]) /\
   (consumesBody upstream = false \/ Proxy.body upstream = None ->
    last (serverMinimal x) Proxy.EndResponse = Proxy.Forward upstream /\
    forall status payload,
      ~ In (Proxy.SendJson status payload) (serverMinimal x))) /\
  (Proxy.FORCE_JSON_RESPONSES env = true ->
   In (Proxy.Fetch url hdrs sent) (server context x) ->
   server context x
   = [Proxy.Fetch url hdrs sent;
      Proxy.SendJson 500 (Proxy.errorPayload "Internal server error")]).
Proof.
  intros Hraw Hparse Hfetch Hconv. split.
  - intros Hstream Hin.
    destruct (serverMinimal_traces x)
      as [[_ H] | [(s & message & H & _)
                  | (_ & raw' & parsed' & creds & _ & Hraw' & _ & Hparse' & _ & H)]];
      [rewrite H in Hin; destruct Hin as [?|[]]; discriminate
      |rewrite H in Hin; destruct Hin as [?|[]]; discriminate|].
    rewrite Hraw in Hraw'. injection Hraw' as <-.
    rewrite Hparse in Hparse'. injection Hparse' as <-.
    cbv zeta in H. unfold Obs.stranded in H. rewrite Hstream in H.
    cbn [negb andb] in H.
    match type of H with
    | match fetch ?u ?h ?b with _ => _ end =>
        assert (Hsame : Proxy.Fetch u h b = Proxy.Fetch url hdrs sent);
        [destruct (fetch u h b) as [up|e];
         [destruct (convertSseToJson up) as [converted|e];
          [|destruct (Proxy.unreadable (consumesBody up) up)]|]|]
    end.
    + destruct H as [log [H Hlog]]. rewrite H in Hin.
      apply In_fetch_log in Hin; [exact Hin|].
      destruct Hlog as [[-> _] | (entry & text & -> & _)]; eauto.
    + rewrite H in Hin. destruct Hin as [?|[?|[]]]; [assumption | discriminate].
    + destruct H as [log [H Hlog]]. rewrite H in Hin.
      apply In_fetch_log in Hin; [exact Hin|].
      destruct Hlog as [[-> _] | (entry & text & -> & _)]; eauto.
    + rewrite H in Hin. destruct Hin as [?|[?|[]]]; [assumption | discriminate].
    + injection Hsame as <- <- <-. rewrite Hfetch, Hconv in H.
      unfold Proxy.unreadable in H. split.
      * intros Hlocked Hbody. rewrite Hlocked in H.
        destruct (Proxy.body upstream); [exact H | congruence].
      * intros Hfree.
        assert (Hun : consumesBody upstream
                      && match Proxy.body upstream with
                         | Some _ => true
                         | None => false
                         end = false).
        { destruct Hfree as [-> | ->]; [reflexivity | apply andb_false_r]. }
        rewrite Hun in H. destruct H as [log [-> Hlog]].
        split; [apply last_last|].
        intros status payload Hsend.
        destruct Hlog as [[-> _] | (entry & text & -> & _)]; cbn in Hsend;
          repeat (destruct Hsend as [Hsend|Hsend]; [discriminate|]);
          destruct Hsend.
  - intros Hforce Hin.
    destruct (server_traces context x)
      as [[_ H] | [(s & message & H & _)
                  | (_ & raw' & parsed' & creds & tr & _ & _ & _ & _ & _ & _ & H)]];
      [rewrite H in Hin; destruct Hin as [?|[]]; discriminate
      |rewrite H in Hin; destruct Hin as [?|[]]; discriminate|].
    cbv zeta in H. rewrite Hforce in H.
    match type of H with
    | match fetch ?u ?h ?b with _ => _ end =>
        assert (Hsame : Proxy.Fetch u h b = Proxy.Fetch url hdrs sent);
        [destruct (fetch u h b) as [up|e];
         [destruct (convertSseToJson up) as [converted|e]|]|]
    end.
    + destruct H as [log [H Hlog]]. rewrite H in Hin.
      apply In_fetch_log in Hin; [exact Hin|].
      destruct Hlog as [[-> _] | (entry & text & -> & _)]; eauto.
    + rewrite H in Hin. destruct Hin as [?|[?|[]]]; [assumption | discriminate].
    + rewrite H in Hin. destruct Hin as [?|[?|[]]]; [assumption | discriminate].
    + injection Hsame as <- <- <-. now rewrite Hfetch, Hconv in H.
Qed.

(** C9, where the code departs from it.  A POST to the responses
    endpoint whose body parses, made by a caller of
    [ensureFreshCredentials] in a process in which no call has so far
    returned without credentials.  The handlers answer 401
    "Authentication required" only behind the guard that finds
    [authState.credentials] absent once the call has returned, and no
    run of the state machine takes a request there: the call returns with
    credentials or it rejects.  So 401 is never answered, and when no
    credentials can be obtained (the refresh and the login fail, and the
    call rejects) the handler throws before any upstream call and the
    client is answered 500 "Internal server error", not 401. *)
Theorem unobtainable_credentials_answered_500
    (decodeJWT : string -> option Auth.JWTPayload)
    (w0 : Auth.World) (es : list Auth.Event) (i : nat)
    (context : Proxy.ProxyContext) (x : Proxy.Exchange)
    (raw : string) (parsed : object) :
  Spec.returnsWithCredentials w0 ->
  Proxy.ensuredOf (Auth.run decodeJWT w0 es) i = Some (Proxy.ensured x) ->
  Spec.proxiedPath x = true -> Proxy.method x = "POST" ->
  Proxy.rawBody x = Ok raw -> raw <> "" -> JSON_parse raw = Ok parsed ->
  Proxy.ensured x <> Ok None /\
  (forall payload,
      ~ In (Proxy.SendJson 401 payload) (server context x) /\
      ~ In (Proxy.SendJson 401 payload) (serverMinimal x)) /\
  (forall err,
      Proxy.ensured x = Throw err ->
      server context x
      = [Proxy.SendJson 500 (Proxy.errorPayload "Internal server error")] /\
      serverMinimal x
      = [Proxy.SendJson 500 (Proxy.errorPayload "Internal server error")]).
Proof.
  intros Hw0 Hcall Hp Hm Hraw Hne Hparse.
  assert (Hsome : Proxy.ensured x <> Ok None).
  { intros Hnone. rewrite Hnone in Hcall.
    pose proof (run_keeps decodeJWT es w0 Hw0 i) as Hkept.
    unfold Proxy.ensuredOf in Hcall.
    destruct (Auth.conts (Auth.run decodeJWT w0 es) i) as [[| | |seen|rejected]|];
      congruence. }
  split; [exact Hsome|]. split.
  - intros payload.
    pose proof (server_401 env JSON_parse JSON_stringify randomUUID
                  CODEX_BASE_URL rewriteUrlForCodex createCodexHeaders fetch
                  convertSseToJson consumesBody transformRequestForCodex
                  getCodexInstructions context x payload) as Hguard.
    split; intros Hin; apply Hsome, Hguard; [now left | now right].
  - intros err Hauth.
    exact (rejected_call_500 env JSON_parse JSON_stringify randomUUID
             CODEX_BASE_URL rewriteUrlForCodex createCodexHeaders fetch
             convertSseToJson consumesBody transformRequestForCodex
             getCodexInstructions context x raw parsed err
             Hp Hm Hraw Hne Hparse Hauth).
Qed.

(** *** The body the minimal variant sends *)

Lemma get_resolveInstructions_other (b : object) (k : string) :
  k <> "instructions" ->
  Obj.get (Proxy.resolveInstructions env getCodexInstructions b) k = Obj.get b k.
Proof.
  intros Hk. unfold Proxy.resolveInstructions.
  destruct (Obj.get b "instructions") as [| | | |s| |];
    try (cbn; now rewrite !get_set_other by assumption).
  destruct (String.eqb s ""); destruct (String.eqb (Js.trim s) "");
    now rewrite ?get_set_other by assumption.
Qed.

Lemma get_rewriteInput_other (b : object) (k : string) :
  k <> "input" -> Obj.get (Proxy.rewriteInput env b) k = Obj.get b k.
Proof. intros Hk. unfold Proxy.rewriteInput. now rewrite get_set_other. Qed.

(** X16. The body the minimal variant sends upstream asks for a stateless,
    streamed answer; it has no [metadata] that counts as true; its
    [include] is the caller's when that is a non-empty list and
    ["reasoning.encrypted_content"] otherwise; and its input is the
    caller's items, all of them, unchanged and in their order (identifiers
    and references to server state included), behind one developer message
    with the override text, which is left out when
    CODEX_PROXY_DISABLE_ENV_OVERRIDE is "1".  An input that is not a list
    counts as the empty list. *)
Theorem rewriteBody_fields (parsed : object) :
  Obj.get (rewriteBody parsed) "store" = JBool false /\
  Obj.get (rewriteBody parsed) "stream" = JBool true /\
  truthy (Obj.get (rewriteBody parsed) "metadata") = false /\
  Obj.get (rewriteBody parsed) "include"
  = match Obj.get parsed "include" with
    | JArr (first :: rest) => JArr (first :: rest)
    | _ => JArr [JStr "reasoning.encrypted_content"]
    end /\
  Obj.get (rewriteBody parsed) "input"
  = JArr ((if Proxy.envIs env "CODEX_PROXY_DISABLE_ENV_OVERRIDE" "1" then []
           else [JObj (Obs.developerItem (Proxy.envOverrideText env))])
          ++ match Obj.get parsed "input" with
             | JArr items => items
             | _ => []
             end)%list.
Proof.
  unfold Proxy.rewriteBody.
  set (cleaned := if truthy (Obj.get parsed "metadata")
                  then Obj.delete parsed "metadata" else parsed).
  assert (Hclean : forall k, k <> "metadata" -> Obj.get cleaned k = Obj.get parsed k).
  { intros k Hk. unfold cleaned.
    destruct (truthy (Obj.get parsed "metadata"));
      [now apply get_delete_other | reflexivity]. }
  split; [|split; [|split; [|split]]].
  - rewrite get_ensureInclude_other, get_rewriteInput_other,
      get_resolveInstructions_other by discriminate.
    rewrite get_set_other by discriminate. apply get_set_same.
  - rewrite get_ensureInclude_other, get_rewriteInput_other,
      get_resolveInstructions_other by discriminate.
    apply get_set_same.
  - rewrite get_ensureInclude_other, get_rewriteInput_other,
      get_resolveInstructions_other by discriminate.
    rewrite !get_set_other by discriminate. unfold cleaned.
    destruct (truthy (Obj.get parsed "metadata")) eqn:E;
      [now rewrite get_delete_same | exact E].
  - unfold Proxy.ensureInclude at 1.
    rewrite get_rewriteInput_other, get_resolveInstructions_other by discriminate.
    rewrite !get_set_other by discriminate. rewrite Hclean by discriminate.
    destruct (Obj.get parsed "include") as [| | | | |[|first rest]|] eqn:E;
      try apply get_set_same.
    rewrite get_rewriteInput_other, get_resolveInstructions_other by discriminate.
    rewrite !get_set_other by discriminate. now rewrite Hclean by discriminate.
  - rewrite get_ensureInclude_other by discriminate.
    unfold Proxy.rewriteInput. rewrite get_set_same.
    rewrite get_resolveInstructions_other by discriminate.
    rewrite !get_set_other by discriminate. rewrite Hclean by discriminate.
    reflexivity.
Qed.

(** X17. The minimal variant touches six properties of the caller's body
    (metadata, store, stream, instructions, input, include); every other
    property, such as the model, the tools, the reasoning settings or the
    prompt cache key, is sent upstream with the value the caller gave it. *)
Theorem rewriteBody_frame (parsed : object) (k : string) :
  ~ In k Obs.rewrittenKeys ->
  Obj.get (rewriteBody parsed) k = Obj.get parsed k.
Proof.
  intros Hk. apply not_rewritten in Hk as (H1 & H2 & H3 & H4 & H5 & H6).
  unfold Proxy.rewriteBody.
  rewrite get_ensureInclude_other, get_rewriteInput_other,
    get_resolveInstructions_other by assumption.
  rewrite !get_set_other by assumption.
  destruct (truthy (Obj.get parsed "metadata"));
    [now apply get_delete_other | reflexivity].
Qed.

(** X18. A normalized path always starts with a slash, and the prefix
    "/v1" is optional: a path that starts with a slash is what
    ["/v1" ++ path] normalizes to. *)
Theorem normalizePath_prefix (pathname : string) :
  Js.startsWith (Proxy.normalizePath pathname) "/" = true /\
  (Js.startsWith pathname "/" = true ->
   Proxy.normalizePath ("/v1" ++ pathname) = pathname).
Proof.
  split.
  - unfold Proxy.normalizePath.
    destruct (Js.startsWith pathname "/") eqn:Hslash; cbn [negb]; [|reflexivity].
    destruct (Js.startsWith pathname "/v1/") eqn:Hv1.
    + apply startsWith_spec in Hv1 as [t ->]. reflexivity.
    + destruct (String.eqb pathname "/v1"); [reflexivity | exact Hslash].
  - intros H. apply startsWith_spec in H as [t ->]. reflexivity.
Qed.

End ProxyTraces.

(** ** Invariants of the credential state machine *)

Section AuthInvariants.

Variable decodeJWT : string -> option Auth.JWTPayload.

Local Abbreviation step := (Auth.step decodeJWT).
Local Abbreviation run := (Auth.run decodeJWT).

Lemma update_same {A} (f : nat -> option A) (k : nat) (v : option A) :
  Auth.update f k v k = v.
Proof. unfold Auth.update. now rewrite Nat.eqb_refl. Qed.

Lemma update_other {A} (f : nat -> option A) (k j : nat) (v : option A) :
  j <> k -> Auth.update f k v j = f j.
Proof. intros H. unfold Auth.update. apply Nat.eqb_neq in H. now rewrite H. Qed.

(** *** One refresh in flight *)

Lemma oif_setCont (i : nat) (k : Auth.Cont) (w : Auth.World) :
  (forall p, k <> Auth.AwaitingRefresh p) ->
  Obs.OneInFlight w -> Obs.OneInFlight (Auth.setCont i k w).
Proof.
  intros Hk [H1 H2]. split; [exact H1|].
  intros j p. cbn. destruct (Nat.eq_dec j i) as [->|Hne].
  - rewrite update_same. intros [= ->]. now destruct (Hk p).
  - rewrite update_other by assumption. apply H2.
Qed.

Lemma oif_bootstrap (i : nat) (w : Auth.World) :
  Obs.OneInFlight w -> Obs.OneInFlight (Auth.bootstrapCredentials i w).
Proof.
  intros H. unfold Auth.bootstrapCredentials, Auth.returns.
  destruct (Auth.hasValidAccess (Auth.credentials (Auth.authState w)) (Auth.clock w)).
  - apply oif_setCont; [discriminate | exact H].
  - cbn [Auth.emit Auth.tokenFile Auth.clock].
    destruct (Auth.hasValidAccess (Auth.tokenFile w) (Auth.clock w)).
    + apply oif_setCont; [discriminate | exact H].
    + destruct (Auth.tokenFile w); apply oif_setCont; try discriminate; exact H.
Qed.

Lemma oif_afterRefresh (i : nat) (w : Auth.World) :
  Obs.OneInFlight w -> Obs.OneInFlight (Auth.afterRefresh i w).
Proof.
  intros H. unfold Auth.afterRefresh, Auth.returns.
  destruct (Auth.credentials (Auth.authState w));
    [apply oif_setCont; [discriminate | exact H] | now apply oif_bootstrap].
Qed.

Lemma oif_join (i p : nat) (waiting : list nat) (w : Auth.World) :
  Auth.refreshPromise (Auth.authState w) = Some p ->
  Auth.reactions w p = Some waiting ->
  Obs.OneInFlight w ->
  Obs.OneInFlight
    (Auth.setCont i (Auth.AwaitingRefresh p)
       (Auth.setReactions p (Some (waiting ++ [i])%list) w)).
Proof.
  intros Hp Hr [H1 H2]. split.
  - intros q. unfold Obs.pending. cbn.
    destruct (Nat.eq_dec q p) as [->|Hne].
    + rewrite update_same. split; [now intros _ | discriminate].
    + rewrite update_other by assumption. apply H1.
  - intros j q. cbn. destruct (Nat.eq_dec j i) as [->|Hne].
    + rewrite update_same. intros [= <-]. rewrite update_same.
      eexists. split; [reflexivity|]. apply in_or_app. right. now left.
    + rewrite update_other by assumption. intros Hj.
      destruct (H2 j q Hj) as [waiting' [Hw Hin]].
      destruct (Nat.eq_dec q p) as [->|Hq].
      * rewrite update_same. eexists. split; [reflexivity|].
        rewrite Hr in Hw. injection Hw as <-. apply in_or_app. now left.
      * rewrite update_other by assumption. eauto.
Qed.

Lemma oif_ensureFresh (i : nat) (w : Auth.World) :
  Obs.OneInFlight w -> Obs.OneInFlight (Auth.ensureFreshCredentials i w).
Proof.
  intros H. unfold Auth.ensureFreshCredentials.
  destruct (Auth.hasValidAccess (Auth.credentials (Auth.authState w)) (Auth.clock w)).
  { apply oif_setCont; [discriminate | exact H]. }
  destruct (Auth.credentials (Auth.authState w)) as [c|]; [|now apply oif_bootstrap].
  destruct (Auth.refreshPromise (Auth.authState w)) as [p|] eqn:Hp.
  - rewrite Hp. destruct (Auth.reactions w p) as [waiting|] eqn:Hr.
    + now apply oif_join.
    + now apply oif_afterRefresh.
  - cbn. rewrite update_same.
    set (p := Auth.nextPromise w).
    match goal with
    | |- Obs.OneInFlight (Auth.setCont i _ (Auth.setReactions p _ ?w1)) =>
        apply (oif_join i p [] w1); [reflexivity | cbn; apply update_same |]
    end.
    destruct H as [H1 H2]. split.
    + intros q. unfold Obs.pending. cbn.
      destruct (Nat.eq_dec q p) as [->|Hne].
      * rewrite update_same. split; [now intros _ | discriminate].
      * rewrite update_other by assumption. split.
        -- intros Hq. apply H1 in Hq. congruence.
        -- intros [= Hq]. congruence.
    + intros j q Hj. cbn in Hj. destruct (H2 j q Hj) as [waiting [Hw _]].
      assert (Hq : Obs.pending w q) by (unfold Obs.pending; congruence).
      apply H1 in Hq. congruence.
Qed.

Lemma afterRefresh_frame (i : nat) (w : Auth.World) :
  Auth.reactions (Auth.afterRefresh i w) = Auth.reactions w /\
  Auth.refreshPromise (Auth.authState (Auth.afterRefresh i w))
  = Auth.refreshPromise (Auth.authState w) /\
  (forall k, k <> i -> Auth.conts (Auth.afterRefresh i w) k = Auth.conts w k) /\
  (forall p, Auth.conts (Auth.afterRefresh i w) i <> Some (Auth.AwaitingRefresh p)).
Proof.
  unfold Auth.afterRefresh, Auth.bootstrapCredentials, Auth.returns.
  destruct (Auth.credentials (Auth.authState w));
    [|destruct (Auth.hasValidAccess None (Auth.clock w));
      [|cbn [Auth.emit Auth.tokenFile Auth.clock];
        destruct (Auth.hasValidAccess (Auth.tokenFile w) (Auth.clock w));
        [|destruct (Auth.tokenFile w)]]];
    cbn; (split; [reflexivity|]); (split; [reflexivity|]);
    (split; [intros k Hk; now apply update_other
            |intros p; rewrite update_same; discriminate]).
Qed.

Lemma oif_resume (waiting : list nat) :
  forall w : Auth.World,
    (forall q, Auth.reactions w q = None) ->
    Auth.refreshPromise (Auth.authState w) = None ->
    (forall j p, Auth.conts w j = Some (Auth.AwaitingRefresh p) -> In j waiting) ->
    Obs.OneInFlight (fold_left (fun w i => Auth.afterRefresh i w) waiting w).
Proof.
  induction waiting as [|i waiting IH]; intros w Hr Hp Hc; cbn [fold_left].
  - split.
    + intros q. unfold Obs.pending. rewrite Hr, Hp. split; [congruence | discriminate].
    + intros j p Hj. destruct (Hc j p Hj).
  - destruct (afterRefresh_frame i w) as (Hr' & Hp' & Hother & Hi).
    apply IH.
    + intros q. now rewrite Hr'.
    + now rewrite Hp'.
    + intros j p Hj. destruct (Nat.eq_dec j i) as [->|Hne].
      * now destruct (Hi p).
      * rewrite Hother in Hj by assumption.
        destruct (Hc j p Hj) as [->|Hin]; [congruence | exact Hin].
Qed.

Lemma oif_step (w : Auth.World) (e : Auth.Event) :
  Obs.OneInFlight w -> Obs.OneInFlight (step w e).
Proof.
  intros H. destruct e as [i|p r|i r|i r|t]; cbn [Auth.step].
  - destruct (Auth.conts w i); [exact H | now apply oif_ensureFresh].
  - destruct (Auth.reactions w p) as [waiting|] eqn:Hr; [|exact H].
    destruct H as [H1 H2].
    assert (Hp : Auth.refreshPromise (Auth.authState w) = Some p).
    { apply H1. unfold Obs.pending. congruence. }
    apply oif_resume.
    + intros q. unfold Auth.settleRefresh.
      destruct (Auth.refreshed decodeJWT r); cbn;
        (destruct (Nat.eq_dec q p) as [->|Hne];
         [apply update_same|rewrite update_other by assumption]);
        (destruct (Auth.reactions w q) eqn:Hq; [|reflexivity]);
        (assert (Hq' : Obs.pending w q) by (unfold Obs.pending; congruence));
        apply H1 in Hq'; congruence.
    + unfold Auth.settleRefresh. now destruct (Auth.refreshed decodeJWT r).
    + intros j q Hj.
      assert (Hj' : Auth.conts w j = Some (Auth.AwaitingRefresh q)).
      { revert Hj. unfold Auth.settleRefresh.
        now destruct (Auth.refreshed decodeJWT r). }
      destruct (H2 j q Hj') as [waiting' [Hw Hin]].
      assert (Hq : Obs.pending w q) by (unfold Obs.pending; congruence).
      apply H1 in Hq. rewrite Hp in Hq. injection Hq as <-.
      rewrite Hr in Hw. now injection Hw as <-.
  - destruct (Auth.conts w i) as [[]|]; try exact H.
    destruct (Auth.refreshed decodeJWT r); apply oif_setCont;
      try discriminate; exact H.
  - destruct (Auth.conts w i) as [[]|]; try exact H.
    destruct (Auth.loggedIn decodeJWT r); apply oif_setCont;
      try discriminate; exact H.
  - exact H.
Qed.

Lemma oif_run (es : list Auth.Event) (w : Auth.World) :
  Obs.OneInFlight w -> Obs.OneInFlight (run w es).
Proof.
  revert w. induction es as [|e es IH]; intros w H; [exact H|].
  apply IH. now apply oif_step.
Qed.

(** X19. At most one shared refresh is in flight, whatever the event loop
    delivers after start-up: at any time at most one promise is pending; a
    promise is pending exactly when [authState.refreshPromise] refers to it
    (the handle is set when the refresh starts and cleared when it settles);
    and a caller that awaits a refresh awaits the one the handle refers to
    and is among the callers that promise will resume. *)
Theorem one_refresh_in_flight (now : Z) (file : option Auth.StoredCredentials)
    (es : list Auth.Event) :
  (forall p q, Obs.pending (run (Auth.initial now file) es) p ->
               Obs.pending (run (Auth.initial now file) es) q -> p = q) /\
  (forall p, Obs.pending (run (Auth.initial now file) es) p <->
             Auth.refreshPromise (Auth.authState (run (Auth.initial now file) es))
             = Some p) /\
  (forall i p,
      Auth.conts (run (Auth.initial now file) es) i = Some (Auth.AwaitingRefresh p) ->
      Auth.refreshPromise (Auth.authState (run (Auth.initial now file) es)) = Some p /\
      exists waiting,
        Auth.reactions (run (Auth.initial now file) es) p = Some waiting /\
        In i waiting).
Proof.
  assert (H : Obs.OneInFlight (run (Auth.initial now file) es)).
  { apply oif_run. split.
    - intros p. unfold Obs.pending. cbn. split; [congruence | discriminate].
    - intros i p. discriminate. }
  destruct H as [H1 H2]. split; [|split].
  - intros p q Hp Hq. apply H1 in Hp, Hq. congruence.
  - exact H1.
  - intros i p Hi. destruct (H2 i p Hi) as [waiting [Hw Hin]].
    split; [|eauto]. apply H1. unfold Obs.pending. congruence.
Qed.

(** *** Memory and the token file *)

Lemma mirrors_bootstrap (i : nat) (w : Auth.World) :
  Obs.MirrorsDisk w -> Obs.MirrorsDisk (Auth.bootstrapCredentials i w).
Proof.
  intros H. unfold Auth.bootstrapCredentials, Auth.returns.
  destruct (Auth.hasValidAccess (Auth.credentials (Auth.authState w)) (Auth.clock w));
    [exact H|].
  cbn [Auth.emit Auth.tokenFile Auth.clock].
  destruct (Auth.hasValidAccess (Auth.tokenFile w) (Auth.clock w)).
  - intros c. cbn. now intros ->.
  - destruct (Auth.tokenFile w); exact H.
Qed.

Lemma mirrors_afterRefresh (i : nat) (w : Auth.World) :
  Obs.MirrorsDisk w -> Obs.MirrorsDisk (Auth.afterRefresh i w).
Proof.
  intros H. unfold Auth.afterRefresh.
  destruct (Auth.credentials (Auth.authState w)) eqn:E;
    [|now apply mirrors_bootstrap].
  intros c. cbn. apply H.
Qed.

Lemma mirrors_ensureFresh (i : nat) (w : Auth.World) :
  Obs.MirrorsDisk w -> Obs.MirrorsDisk (Auth.ensureFreshCredentials i w).
Proof.
  intros H. unfold Auth.ensureFreshCredentials.
  destruct (Auth.hasValidAccess (Auth.credentials (Auth.authState w)) (Auth.clock w));
    [exact H|].
  destruct (Auth.credentials (Auth.authState w)) as [c|] eqn:Hc;
    [|now apply mirrors_bootstrap].
  destruct (Auth.refreshPromise (Auth.authState w)) as [p|] eqn:Hp.
  - rewrite Hp. destruct (Auth.reactions w p);
      [intros c'; cbn; apply H | now apply mirrors_afterRefresh].
  - cbn. rewrite update_same. intros c'. cbn. apply H.
Qed.

Lemma mirrors_resume (waiting : list nat) :
  forall w : Auth.World,
    Obs.MirrorsDisk w ->
    Obs.MirrorsDisk (fold_left (fun w i => Auth.afterRefresh i w) waiting w).
Proof.
  induction waiting as [|i waiting IH]; intros w H; [exact H|].
  cbn [fold_left]. apply IH. now apply mirrors_afterRefresh.
Qed.

Lemma mirrors_step (w : Auth.World) (e : Auth.Event) :
  Obs.MirrorsDisk w -> Obs.MirrorsDisk (step w e).
Proof.
  intros H. destruct e as [i|p r|i r|i r|t]; cbn [Auth.step].
  - destruct (Auth.conts w i); [exact H | now apply mirrors_ensureFresh].
  - destruct (Auth.reactions w p) as [waiting|]; [|exact H].
    apply mirrors_resume. unfold Auth.settleRefresh.
    destruct (Auth.refreshed decodeJWT r); intros c; cbn;
      [now intros -> | discriminate].
  - destruct (Auth.conts w i) as [[]|]; try exact H.
    destruct (Auth.refreshed decodeJWT r); [|exact H].
    intros c. cbn. now intros ->.
  - destruct (Auth.conts w i) as [[]|]; try exact H.
    destruct (Auth.loggedIn decodeJWT r); [|exact H].
    intros c. cbn. now intros ->.
  - exact H.
Qed.

Lemma mirrors_run (es : list Auth.Event) (w : Auth.World) :
  Obs.MirrorsDisk w -> Obs.MirrorsDisk (run w es).
Proof.
  revert w. induction es as [|e es IH]; intros w H; [exact H|].
  apply IH. now apply mirrors_step.
Qed.

(** X20. The credentials the process holds in memory are always the
    record of the token file, as long as the process is the only writer of
    that file: whatever the event loop delivers after start-up, when
    [authState.credentials] is present it is what the token file holds, so
    that a restart finds the credentials in use. *)
Theorem memory_mirrors_token_file (now : Z)
    (file : option Auth.StoredCredentials) (es : list Auth.Event)
    (c : Auth.StoredCredentials) :
  Auth.credentials (Auth.authState (run (Auth.initial now file) es)) = Some c ->
  Auth.tokenFile (run (Auth.initial now file) es) = Some c.
Proof.
  apply (mirrors_run es (Auth.initial now file)). intros c'. discriminate.
Qed.

(** *** What is written to the token file *)

Lemma accounted_emit (e : Auth.Effect) (w : Auth.World) :
  Obs.accounted decodeJWT e ->
  Forall (Obs.accounted decodeJWT) (Auth.effects w) ->
  Forall (Obs.accounted decodeJWT) (Auth.effects (Auth.emit e w)).
Proof. intros He H. cbn. apply Forall_app. split; [exact H | now constructor]. Qed.

Lemma accounted_bootstrap (i : nat) (w : Auth.World) :
  Forall (Obs.accounted decodeJWT) (Auth.effects w) ->
  Forall (Obs.accounted decodeJWT) (Auth.effects (Auth.bootstrapCredentials i w)).
Proof.
  intros H. unfold Auth.bootstrapCredentials, Auth.returns.
  destruct (Auth.hasValidAccess (Auth.credentials (Auth.authState w)) (Auth.clock w));
    [exact H|].
  cbn [Auth.emit Auth.tokenFile Auth.clock].
  destruct (Auth.hasValidAccess (Auth.tokenFile w) (Auth.clock w));
    [|destruct (Auth.tokenFile w)]; cbn;
    repeat (apply Forall_app; split; [|now repeat constructor]); exact H.
Qed.

Lemma accounted_afterRefresh (i : nat) (w : Auth.World) :
  Forall (Obs.accounted decodeJWT) (Auth.effects w) ->
  Forall (Obs.accounted decodeJWT) (Auth.effects (Auth.afterRefresh i w)).
Proof.
  intros H. unfold Auth.afterRefresh.
  destruct (Auth.credentials (Auth.authState w));
    [exact H | now apply accounted_bootstrap].
Qed.

Lemma accounted_ensureFresh (i : nat) (w : Auth.World) :
  Forall (Obs.accounted decodeJWT) (Auth.effects w) ->
  Forall (Obs.accounted decodeJWT) (Auth.effects (Auth.ensureFreshCredentials i w)).
Proof.
  intros H. unfold Auth.ensureFreshCredentials.
  destruct (Auth.hasValidAccess (Auth.credentials (Auth.authState w)) (Auth.clock w));
    [exact H|].
  destruct (Auth.credentials (Auth.authState w)) as [c|] eqn:Hc;
    [|now apply accounted_bootstrap].
  destruct (Auth.refreshPromise (Auth.authState w)) as [p|] eqn:Hp.
  - rewrite Hp. destruct (Auth.reactions w p);
      [exact H | now apply accounted_afterRefresh].
  - cbn. rewrite update_same. cbn.
    apply Forall_app. split; [exact H | now repeat constructor].
Qed.

Lemma refreshed_accounted (r : Auth.TokenResult) (c : Auth.StoredCredentials) :
  Auth.refreshed decodeJWT r = Ok c ->
  Obs.accounted decodeJWT (Auth.WriteTokenFile c) /\
  r = Auth.TokenSuccess (Auth.access c) (Auth.refresh c) (Auth.expires c).
Proof.
  unfold Auth.refreshed. destruct r as [a rf e|]; [|discriminate].
  destruct (Auth.extractAccountId decodeJWT a) as [acct|] eqn:E; [|discriminate].
  cbn. intros [= <-]. cbn. split; [|reflexivity]. split; [exact E|].
  unfold Auth.extractAccountId in E.
  destruct (decodeJWT a) as [[[[[acct'|]]|]]|]; try discriminate.
  destruct (String.eqb_spec acct' ""); [discriminate|]. congruence.
Qed.

Lemma loggedIn_accounted (r : Outcome Auth.TokenResult) (c : Auth.StoredCredentials) :
  Auth.loggedIn decodeJWT r = Ok c ->
  Obs.accounted decodeJWT (Auth.WriteTokenFile c) /\
  r = Ok (Auth.TokenSuccess (Auth.access c) (Auth.refresh c) (Auth.expires c)).
Proof.
  unfold Auth.loggedIn. destruct r as [[a rf e|]|]; try discriminate.
  intros H. destruct (refreshed_accounted (Auth.TokenSuccess a rf e) c H) as [Ha Hr].
  split; [exact Ha | now rewrite Hr].
Qed.

Lemma accounted_step (w : Auth.World) (e : Auth.Event) :
  Forall (Obs.accounted decodeJWT) (Auth.effects w) ->
  Forall (Obs.accounted decodeJWT) (Auth.effects (step w e)).
Proof.
  intros H. destruct e as [i|p r|i r|i r|t]; cbn [Auth.step].
  - destruct (Auth.conts w i); [exact H | now apply accounted_ensureFresh].
  - destruct (Auth.reactions w p) as [waiting|]; [|exact H].
    assert (Hs : Forall (Obs.accounted decodeJWT)
                   (Auth.effects (Auth.settleRefresh decodeJWT p r w))).
    { unfold Auth.settleRefresh.
      destruct (Auth.refreshed decodeJWT r) as [c|] eqn:E; cbn; [|exact H].
      apply Forall_app. split; [exact H|]. constructor; [|constructor].
      now apply refreshed_accounted in E. }
    generalize dependent (Auth.settleRefresh decodeJWT p r w).
    induction waiting as [|j waiting IH]; intros w' Hw'; cbn [fold_left];
      [exact Hw'|].
    apply IH. now apply accounted_afterRefresh.
  - destruct (Auth.conts w i) as [[]|]; try exact H.
    destruct (Auth.refreshed decodeJWT r) as [c|] eqn:E; cbn.
    + apply Forall_app. split; [exact H|]. constructor; [|constructor].
      now apply refreshed_accounted in E.
    + apply Forall_app. split; [exact H | now repeat constructor].
  - destruct (Auth.conts w i) as [[]|]; try exact H.
    destruct (Auth.loggedIn decodeJWT r) as [c|] eqn:E; cbn; [|exact H].
    apply Forall_app. split; [exact H|]. constructor; [|constructor].
    now apply loggedIn_accounted in E.
  - exact H.
Qed.

Lemma accounted_run (es : list Auth.Event) (w : Auth.World) :
  Forall (Obs.accounted decodeJWT) (Auth.effects w) ->
  Forall (Obs.accounted decodeJWT) (Auth.effects (run w es)).
Proof.
  revert w. induction es as [|e es IH]; intros w H; [exact H|].
  apply IH. now apply accounted_step.
Qed.

(** X21. Every record the process writes to the token file carries a
    non-empty account identifier, and it is the one [extractAccountId] reads
    from the access token of that record: a token without an account
    identifier is never stored. *)
Theorem token_file_writes (now : Z) (file : option Auth.StoredCredentials)
    (es : list Auth.Event) (c : Auth.StoredCredentials) :
  In (Auth.WriteTokenFile c) (Auth.effects (run (Auth.initial now file) es)) ->
  Auth.accountId c <> "" /\
  Auth.extractAccountId decodeJWT (Auth.access c) = Ok (Auth.accountId c).
Proof.
  intros Hin.
  assert (H : Forall (Obs.accounted decodeJWT)
                (Auth.effects (run (Auth.initial now file) es)))
    by (apply accounted_run; constructor).
  rewrite Forall_forall in H. apply H in Hin. cbn in Hin. tauto.
Qed.

(** X22. [ensureFreshCredentials] never returns while
    [authState.credentials] is null: whatever the event loop delivers after
    start-up, a call has returned with credentials present, or it still
    awaits, or it has rejected.  The handlers' answer 401 "Authentication
    required" is therefore a guard that no request reaches. *)
Theorem returns_with_credentials (now : Z) (file : option Auth.StoredCredentials)
    (es : list Auth.Event) (i : nat) :
  Auth.conts (run (Auth.initial now file) es) i <> Some (Auth.Returned None) /\
  Proxy.ensuredOf (run (Auth.initial now file) es) i <> Some (Ok None).
Proof.
  assert (H : Spec.returnsWithCredentials (run (Auth.initial now file) es)).
  { apply run_keeps. intros j. discriminate. }
  split; [apply H|].
  unfold Proxy.ensuredOf. specialize (H i).
  destruct (Auth.conts (run (Auth.initial now file) es) i) as [[| | |[c|]|]|];
    congruence.
Qed.

End AuthInvariants.

(** ** Tool names *)

Lemma keyChar_plain (c : ascii) :
  Names.isKeyChar c = true \/ c = "_"%char ->
  Js.isUpper c = false /\ Js.isWhiteSpace c = false /\ Js.toLowerChar c = c.
Proof.
  intros H.
  assert (Hu : Js.isUpper c = false /\ Js.isWhiteSpace c = false).
  { destruct H as [H | ->]; [|split; reflexivity].
    unfold Names.isKeyChar, Js.isUpper, Js.isWhiteSpace in *.
    destruct (nat_of_ascii c) as [|n]; [discriminate|].
    apply orb_true_iff in H.
    rewrite !andb_true_iff, !Nat.leb_le in H.
    split.
    - apply andb_false_iff. rewrite !Nat.leb_gt. lia.
    - apply orb_false_iff. split.
      + apply andb_false_iff. rewrite !Nat.leb_gt. lia.
      + apply Nat.eqb_neq. lia. }
  destruct Hu as [Hu Hw]. repeat split; try assumption.
  unfold Js.toLowerChar. now rewrite Hu.
Qed.

Lemma keyShaped_head (b : bool) (c : ascii) (s : string) :
  Obs.keyShaped b (String c s) = true ->
  (Names.isKeyChar c = true \/ c = "_"%char) /\ exists b', Obs.keyShaped b' s = true.
Proof.
  cbn. destruct (Names.isKeyChar c); [eauto|].
  rewrite !andb_true_iff. intros [[Hc _] Hs]. apply Ascii.eqb_eq in Hc. eauto.
Qed.

Lemma keyShaped_toLowerCase (s : string) :
  forall b, Obs.keyShaped b s = true -> Js.toLowerCase s = s.
Proof.
  induction s as [|c s IH]; intros b H; [reflexivity|].
  apply keyShaped_head in H as [Hc [b' Hs]]. cbn.
  destruct (keyChar_plain c Hc) as (_ & _ & ->). now rewrite (IH b' Hs).
Qed.

Lemma keyShaped_trimStart (s : string) (b : bool) :
  Obs.keyShaped b s = true -> Js.trimStart s = s.
Proof.
  destruct s as [|c s]; [reflexivity|]. intros H.
  apply keyShaped_head in H as [Hc _]. cbn.
  now destruct (keyChar_plain c Hc) as (_ & -> & _).
Qed.

Lemma keyShaped_trimEnd (s : string) :
  forall b, Obs.keyShaped b s = true -> Js.trimEnd s = s.
Proof.
  induction s as [|c s IH]; intros b H; [reflexivity|].
  apply keyShaped_head in H as [Hc [b' Hs]]. cbn [Js.trimEnd].
  rewrite (IH b' Hs). destruct (keyChar_plain c Hc) as (_ & -> & _).
  now destruct s.
Qed.

Lemma keyShaped_replaceRuns (s : string) :
  forall b, Obs.keyShaped b s = true -> Names.replaceRuns b s = s.
Proof.
  induction s as [|c s IH]; intros b H; [reflexivity|].
  cbn in *. destruct (Names.isKeyChar c).
  - now rewrite (IH false H).
  - rewrite !andb_true_iff in H. destruct H as [[Hc Hb] Hs].
    apply Ascii.eqb_eq in Hc. subst c. destruct b; [discriminate|].
    now rewrite (IH true Hs).
Qed.

Lemma replaceRuns_shaped (s : string) :
  forall b, Obs.keyShaped b (Names.replaceRuns b s) = true.
Proof.
  induction s as [|c s IH]; intros b; [reflexivity|].
  cbn. destruct (Names.isKeyChar c) eqn:Hc.
  - cbn. rewrite Hc. apply IH.
  - destruct b; [apply IH|]. cbn. apply IH.
Qed.

(** X23. Only a string that is not empty has a canonical key.  The key
    is made of lower-case letters, digits and underscores, with never two
    underscores in a row, and canonicalizing a key that is not empty gives
    the key back. *)
Theorem canonicalKey_shape (name : jsval) (key : string) :
  Names.canonicalKey name = Some key ->
  Obs.keyShaped false key = true /\
  (exists s, name = JStr s /\ s <> "") /\
  (key <> "" -> Names.canonicalKey (JStr key) = Some key).
Proof.
  unfold Names.canonicalKey at 1.
  destruct name as [| | | |s| |]; try discriminate.
  destruct (String.eqb_spec s "") as [->|Hs]; [discriminate|].
  intros [= <-].
  pose proof (replaceRuns_shaped (Js.toLowerCase (Js.trim s)) false) as Hshape.
  set (key := Names.replaceRuns false _) in *.
  split; [exact Hshape|]. split; [now exists s|].
  intros Hkey. unfold Names.canonicalKey.
  apply String.eqb_neq in Hkey. rewrite Hkey.
  unfold Js.trim.
  rewrite (keyShaped_trimStart key false Hshape),
    (keyShaped_trimEnd key false Hshape),
    (keyShaped_toLowerCase key false Hshape),
    (keyShaped_replaceRuns key false Hshape).
  reflexivity.
Qed.

Lemma canonicalKey_shape_witness :
  Names.canonicalKey (JStr "  Web--Search ") = Some "web_search" /\
  Names.canonicalKey (JStr "web_search") = Some "web_search" /\
  Names.canonicalKey (JStr "   ") = Some "".
Proof.
  split; [reflexivity|]. split; [|reflexivity].
  apply (proj2 (proj2 (canonicalKey_shape (JStr "  Web--Search ") "web_search"
                         eq_refl))).
  discriminate.
Defined.

Lemma own_In (table : list (string * string)) (key value : string) :
  Names.own table key = Some value -> In (key, value) table.
Proof.
  induction table as [|[k v] table IH]; [discriminate|]. cbn.
  destruct (String.eqb_spec k key) as [->|_]; [intros [= ->]; now left | auto].
Qed.

(** X24. [remapName] returns a name only for a string whose canonical key
    is in the table, and then a name of the table.  A returned name is
    stable: remapping it gives the same name again, with one exception,
    "NotebookRead", which has no entry under its own key and remaps to
    [null].  A value inherited from [Object.prototype] is returned only
    for the key "constructor". *)
Theorem remapName_stable (name : jsval) :
  (forall mapped,
      Names.remapName name = Names.ToName mapped ->
      (exists key, Names.canonicalKey name = Some key /\
                   In (key, mapped) Names.NAME_MAP) /\
      (Names.remapName (JStr mapped) = Names.ToName mapped \/
       mapped = "NotebookRead" /\
       Names.remapName (JStr mapped) = Names.NoName)) /\
  (forall key,
      Names.remapName name = Names.ToInherited key ->
      key = "constructor" /\ Names.canonicalKey name = Some key).
Proof.
  unfold Names.remapName at 1 4.
  destruct (Names.canonicalKey name) as [key|] eqn:Hkey;
    [|split; intros; discriminate].
  destruct (String.eqb key ""); [split; intros; discriminate|].
  unfold Names.lookupName.
  destruct (Names.own Names.NAME_MAP key) as [v|] eqn:Hown.
  - split; [|destruct (String.eqb v ""); intros; discriminate].
    intros mapped. destruct (String.eqb v ""); [discriminate|]. intros [= <-].
    apply own_In in Hown. split; [now exists key|].
    cbn in Hown.
    repeat (destruct Hown as [[= <- <-]|Hown];
            [first [left; reflexivity | right; split; reflexivity]|]).
    destruct Hown.
  - split; [destruct (existsb _ _); intros; discriminate|].
    intros k. destruct (existsb (String.eqb key) Names.inherited) eqn:Hin;
      [|discriminate].
    intros [= <-]. split; [|reflexivity].
    apply canonicalKey_shape in Hkey as [Hshape _].
    apply existsb_exists in Hin as [k [Hk Heq]]. apply String.eqb_eq in Heq.
    subst k. cbn in Hk.
    repeat (destruct Hk as [<-|Hk]; [first [reflexivity | discriminate]|]).
    destruct Hk.
Qed.

Lemma remapName_stable_witness :
  Names.remapName (JStr " Todo-Write ") = Names.ToName "TodoWrite" /\
  (Names.remapName (JStr "TodoWrite") = Names.ToName "TodoWrite" \/
   "TodoWrite" = "NotebookRead" /\
   Names.remapName (JStr "TodoWrite") = Names.NoName) /\
  Names.remapName (JStr "Constructor") = Names.ToInherited "constructor".
Proof.
  split; [reflexivity|]. split; [|reflexivity].
  exact (proj2 (proj1 (remapName_stable (JStr " Todo-Write ")) "TodoWrite" eq_refl)).
Defined.

(** ** Guidance read from the input *)

Lemma join_nonempty (sep first : string) (rest : list string) :
  first <> "" -> Js.join sep (first :: rest) <> "".
Proof.
  intros H. destruct rest as [|second rest]; cbn; [exact H|].
  destruct first; [congruence | discriminate].
Qed.

(** X25. [extractInstructionsFromInput] returns [null] or a text that is
    not empty, and it returns a text only when the input is a list with a
    message whose role is "developer" or "system": messages of users and
    items that are not objects contribute nothing. *)
Theorem extractInstructionsFromInput_some (input : jsval) (text : string) :
  Guide.extractInstructionsFromInput input = Some text ->
  text <> "" /\
  exists items o,
    input = JArr items /\ In (JObj o) items /\ Obs.systemRole o = true.
Proof.
  unfold Guide.extractInstructionsFromInput.
  destruct input as [| | | | |items|]; try discriminate.
  destruct (flat_map Guide.partsOf items) as [|first rest] eqn:Hparts;
    [discriminate|].
  intros [= <-].
  assert (Hin : In first (flat_map Guide.partsOf items))
    by (rewrite Hparts; now left).
  apply in_flat_map in Hin as [item [Hitem Hfirst]].
  unfold Guide.partsOf in Hfirst.
  destruct item as [| | | | | |o]; try destruct Hfirst.
  destruct (isStr (Obj.get o "role") "developer" || isStr (Obj.get o "role") "system")
    eqn:Hrole; [|destruct Hfirst].
  destruct (negb _ && negb (String.eqb (Js.trim _) "")) eqn:Htext; [|destruct Hfirst].
  destruct Hfirst as [<-|[]].
  apply andb_true_iff in Htext as [_ Htrim].
  apply negb_true_iff, String.eqb_neq in Htrim.
  split; [exact (join_nonempty (Transform.LF ++ Transform.LF) _ rest Htrim)|].
  now exists items, o.
Qed.

Lemma extractInstructionsFromInput_some_witness :
  Guide.extractInstructionsFromInput
    (JArr [JObj Sample.userItem; JObj Sample.promptItem])
  = Some "You are a coding agent running in the opencode CLI." /\
  "You are a coding agent running in the opencode CLI." <> "".
Proof.
  split; [reflexivity|].
  exact (proj1 (extractInstructionsFromInput_some
                  (JArr [JObj Sample.userItem; JObj Sample.promptItem])
                  "You are a coding agent running in the opencode CLI." eq_refl)).
Defined.

(** ** Instances of the further properties *)


Lemma own_answers_witness :
  Spec.healthCheck Example.anonymousPost = false /\
  (In 401%Z [400; 401; 404; 405; 500]%Z /\
   exists message,
     Proxy.errorPayload "Authentication required" = Proxy.errorPayload message /\
     (401%Z = 500%Z -> message = "Internal server error") /\
     (401%Z = 404%Z -> message = "Not found")).
Proof.
  split; [reflexivity|].
  destruct (proj2 (own_answers Example.env Sample.JSON_parse Example.JSON_stringify
                     Example.randomUUID Example.CODEX_BASE_URL
                     Example.rewriteUrlForCodex Example.createCodexHeaders
                     Example.fetch Example.convertSseToJson Example.consumesBody
                     Example.transformRequestForCodex Example.getCodexInstructions
                     Example.context Example.anonymousPost
                     (Sample.serverMinimal Example.fetch Example.anonymousPost)
                     (or_intror eq_refl))
              401%Z (Proxy.errorPayload "Authentication required")
              (or_introl eq_refl)) as [[H _]|H];
    [discriminate H | exact H].
Defined.

Lemma error_log_witness :
  Proxy.ok Sample.refusal = false /\
  exists entry,
    In (Proxy.LogProxyError entry) (Sample.serverMinimal Sample.refusing Sample.streamingPost).
Proof.
  split; [reflexivity|].
  apply (proj1 (proj2 (error_log Example.env Sample.JSON_parse
                         Example.JSON_stringify Example.randomUUID
                         Example.CODEX_BASE_URL Example.rewriteUrlForCodex
                         Example.createCodexHeaders Sample.refusing
                         Example.convertSseToJson Example.consumesBody Example.transformRequestForCodex
                         Example.getCodexInstructions Example.context Sample.streamingPost
                         (Sample.serverMinimal Sample.refusing Sample.streamingPost)
                         (or_intror eq_refl)))
           Sample.refusal "{}").
  - right. right. left. reflexivity.
  - reflexivity.
  - reflexivity.
Defined.

Lemma upstream_failure_witness :
  Sample.unreachable Sample.upstreamUrl Sample.upstreamHeaders "{}"
  = Throw "fetch failed" /\
  Sample.server Sample.unreachable Example.post
  = [Proxy.Fetch Sample.upstreamUrl Sample.upstreamHeaders "{}";
     Proxy.SendJson 500 (Proxy.errorPayload "Internal server error")].
Proof.
  split; [reflexivity|].
  apply (upstream_failure Example.env Sample.JSON_parse Example.JSON_stringify
           Example.randomUUID Example.CODEX_BASE_URL Example.rewriteUrlForCodex
           Example.createCodexHeaders Sample.unreachable Example.convertSseToJson Example.consumesBody
           Example.transformRequestForCodex Example.getCodexInstructions
           Example.context Example.post
           (Sample.server Sample.unreachable Example.post)
           Sample.upstreamUrl Sample.upstreamHeaders "{}" "fetch failed"
           (or_introl eq_refl)).
  - left. reflexivity.
  - reflexivity.
Defined.

Lemma forwarded_answer_witness :
  truthy (Obj.get [("stream", JBool true)] "stream") = true /\
  exists raw parsed url hdrs upstream,
    Proxy.rawBody Sample.streamingPost = Ok raw /\
    Sample.JSON_parse raw = Ok parsed /\
    In (Proxy.Fetch url hdrs
          (Example.JSON_stringify
             (JObj (Proxy.rewriteBody Example.env Example.getCodexInstructions
                      parsed))))
       (Sample.serverMinimal Example.fetch Sample.streamingPost) /\
    Example.fetch url hdrs
      (Example.JSON_stringify
         (JObj (Proxy.rewriteBody Example.env Example.getCodexInstructions parsed)))
    = Ok upstream /\
    (truthy (Obj.get parsed "stream") = true -> Example.eventStream = upstream) /\
    (truthy (Obj.get parsed "stream") = false ->
     forall converted, Example.convertSseToJson upstream = Ok converted ->
                       Example.eventStream = converted).
Proof.
  split; [reflexivity|].
  apply (forwarded_answer Example.env Sample.JSON_parse Example.JSON_stringify
           Example.randomUUID Example.CODEX_BASE_URL Example.rewriteUrlForCodex
           Example.createCodexHeaders Example.fetch Example.convertSseToJson Example.consumesBody
           Example.getCodexInstructions Sample.streamingPost Example.eventStream).
  right. left. reflexivity.
Defined.

Lemma forced_conversion_witness :
  Proxy.FORCE_JSON_RESPONSES Example.env = true /\
  Sample.server Example.fetch Example.post
  = [Proxy.Fetch Sample.upstreamUrl Sample.upstreamHeaders "{}";
     Proxy.SendJson 500 (Proxy.errorPayload "Internal server error")].
Proof.
  split; [reflexivity|].
  refine (proj2 (proj2 (proj2
            (forced_conversion Example.env Sample.JSON_parse Example.JSON_stringify
               Example.randomUUID Example.CODEX_BASE_URL Example.rewriteUrlForCodex
               Example.createCodexHeaders Example.fetch Example.convertSseToJson
               Example.transformRequestForCodex Example.context Example.post
               Sample.upstreamUrl Sample.upstreamHeaders "{}" Example.eventStream
               _ eq_refl)))
            eq_refl "Could not find final response in SSE stream" eq_refl).
  left. reflexivity.
Defined.

Lemma rewriteBody_frame_witness :
  ~ In "model" Obs.rewrittenKeys /\
  Obj.get (Proxy.rewriteBody Example.env Example.getCodexInstructions
             Sample.conversation) "model"
  = JStr "gpt-5-codex-low".
Proof.
  assert (H : ~ In "model" Obs.rewrittenKeys).
  { cbn. intros Hin.
    repeat (destruct Hin as [Hin|Hin]; [discriminate|]). exact Hin. }
  split; [exact H|].
  exact (rewriteBody_frame Example.env Example.getCodexInstructions
           Sample.conversation "model" H).
Defined.

Lemma normalizePath_prefix_witness :
  Js.startsWith "/responses" "/" = true /\
  Proxy.normalizePath "/v1/responses" = "/responses".
Proof.
  split; [reflexivity|].
  exact (proj2 (normalizePath_prefix "/responses") eq_refl).
Defined.

Lemma memory_mirrors_token_file_witness :
  Auth.credentials (Auth.authState Sample.afterLogin) = Some Example.good /\
  Auth.tokenFile Sample.afterLogin = Some Example.good.
Proof.
  split; [reflexivity|].
  exact (memory_mirrors_token_file Example.decodeJWT 100000 None
           [Auth.Call 0;
            Auth.LoginSettled 0
              (Ok (Auth.TokenSuccess "access-1" "refresh-1" 9000000))]
           Example.good eq_refl).
Defined.

Lemma token_file_writes_witness :
  In (Auth.WriteTokenFile Example.good) (Auth.effects Sample.afterLogin) /\
  Auth.accountId Example.good <> "" /\
  Auth.extractAccountId Example.decodeJWT (Auth.access Example.good)
  = Ok (Auth.accountId Example.good).
Proof.
  assert (H : In (Auth.WriteTokenFile Example.good)
                (Auth.effects Sample.afterLogin))
    by (right; right; left; reflexivity).
  split; [exact H|].
  exact (token_file_writes Example.decodeJWT 100000 None
           [Auth.Call 0;
            Auth.LoginSettled 0
              (Ok (Auth.TokenSuccess "access-1" "refresh-1" 9000000))]
           Example.good H).
Defined.

(** ** Instances of the departures *)

(** The converter reads the event stream to its end, finds no final
    response and throws: both variants answer 500. *)
Lemma consolidation_failure_answered_500_witness :
  Example.convertSseToJson Example.eventStream
  = Throw "Could not find final response in SSE stream" /\
  Example.consumesBody Example.eventStream = true /\
  truthy (Obj.get [] "stream") = false /\
  Proxy.serverMinimal Example.env Example.JSON_parse Example.JSON_stringify
    Example.randomUUID Example.CODEX_BASE_URL Example.rewriteUrlForCodex
    Example.createCodexHeaders Example.fetch Example.convertSseToJson
    Example.consumesBody Example.getCodexInstructions Example.post
  = [Proxy.Fetch "https://chatgpt.com/backend-api/responses"
       [("authorization", "Bearer access-1"); ("chatgpt-account-id", "acct-1");
        ("content-type", "application/json")] "{}";
     Proxy.SendJson 500 (Proxy.errorPayload "Internal server error")] /\
  Proxy.server Example.env Example.JSON_parse Example.JSON_stringify
    Example.randomUUID Example.CODEX_BASE_URL Example.rewriteUrlForCodex
    Example.createCodexHeaders Example.fetch Example.convertSseToJson
    Example.transformRequestForCodex Example.context Example.post
  = [Proxy.Fetch "https://chatgpt.com/backend-api/responses"
       [("authorization", "Bearer access-1"); ("chatgpt-account-id", "acct-1");
        ("content-type", "application/json")] "{}";
     Proxy.SendJson 500 (Proxy.errorPayload "Internal server error")].
Proof.
  destruct (consolidation_failure_answered_500 Example.env Example.JSON_parse
              Example.JSON_stringify Example.randomUUID Example.CODEX_BASE_URL
              Example.rewriteUrlForCodex Example.createCodexHeaders
              Example.fetch Example.convertSseToJson Example.consumesBody
              Example.transformRequestForCodex Example.getCodexInstructions
              Example.context Example.post "{}" []
              "https://chatgpt.com/backend-api/responses"
              [("authorization", "Bearer access-1");
               ("chatgpt-account-id", "acct-1");
               ("content-type", "application/json")]
              "{}" Example.eventStream
              "Could not find final response in SSE stream"
              eq_refl eq_refl eq_refl eq_refl) as [Hminimal Hforced].
  split; [reflexivity|]. split; [reflexivity|]. split; [reflexivity|]. split.
  - apply (proj1 (Hminimal eq_refl (or_introl eq_refl))); [reflexivity|].
    discriminate.
  - apply (Hforced eq_refl). left. reflexivity.
Defined.

(** A converter that throws before it touches the body leaves the
    fallback of the minimal variant something to forward. *)
Lemma untouched_stream_is_relayed :
  Proxy.serverMinimal Example.env Example.JSON_parse Example.JSON_stringify
    Example.randomUUID Example.CODEX_BASE_URL Example.rewriteUrlForCodex
    Example.createCodexHeaders Example.fetch Example.convertSseToJson
    (fun _ => false) Example.getCodexInstructions Example.post
  = [Proxy.Fetch "https://chatgpt.com/backend-api/responses"
       [("authorization", "Bearer access-1"); ("chatgpt-account-id", "acct-1");
        ("content-type", "application/json")] "{}";
     Proxy.Forward Example.eventStream].
Proof. reflexivity. Qed.

(** The credentials have expired and neither the refresh token nor the
    interactive login yields new ones: the call rejects, no credentials
    are left, and the POST is answered 500, not 401. *)
Lemma unobtainable_credentials_answered_500_witness :
  Auth.credentials (Auth.authState Example.afterFailedLogin) = None /\
  Auth.effects Example.afterFailedLogin
  = [Auth.RefreshCall "refresh-0"; Auth.ReadTokenFile;
     Auth.RefreshCall "refresh-0"; Auth.LoginFlow] /\
  Proxy.ensuredOf Example.afterFailedLogin 0
  = Some (Throw "Failed to exchange authorization code for tokens") /\
  Proxy.server Example.env Example.JSON_parse Example.JSON_stringify
    Example.randomUUID Example.CODEX_BASE_URL Example.rewriteUrlForCodex
    Example.createCodexHeaders Example.fetch Example.convertSseToJson
    Example.transformRequestForCodex Example.context Example.rejectedPost
  = [Proxy.SendJson 500 (Proxy.errorPayload "Internal server error")] /\
  Proxy.serverMinimal Example.env Example.JSON_parse Example.JSON_stringify
    Example.randomUUID Example.CODEX_BASE_URL Example.rewriteUrlForCodex
    Example.createCodexHeaders Example.fetch Example.convertSseToJson
    Example.consumesBody Example.getCodexInstructions Example.rejectedPost
  = [Proxy.SendJson 500 (Proxy.errorPayload "Internal server error")].
Proof.
  split; [reflexivity|]. split; [reflexivity|]. split; [reflexivity|].
  refine (proj2 (proj2
            (unobtainable_credentials_answered_500 Example.env
               Example.JSON_parse Example.JSON_stringify Example.randomUUID
               Example.CODEX_BASE_URL Example.rewriteUrlForCodex
               Example.createCodexHeaders Example.fetch
               Example.convertSseToJson Example.consumesBody
               Example.transformRequestForCodex Example.getCodexInstructions
               Example.decodeJWT Example.expiredWorld
               [Auth.Call 0;
                Auth.RefreshSettled 0 Auth.TokenFailed;
                Auth.BootstrapRefreshSettled 0 Auth.TokenFailed;
                Auth.LoginSettled 0 (Ok Auth.TokenFailed)]
               0 Example.context Example.rejectedPost "{}" []
               _ eq_refl eq_refl eq_refl eq_refl _ eq_refl))
            "Failed to exchange authorization code for tokens" eq_refl).
  - intros j. discriminate.
  - discriminate.
Defined.
